(** * The agent pipeline, its context packer and its event relay

    A shallow embedding of the orchestration core
    ([orchestration/graph.py], [orchestration/agents/*.py],
    [orchestration/memory/*.py], [orchestration/tools/*.py] and the relay
    of [api/routers/chat.py]) together with the properties its
    specification states about it.

    Conventions of the embedding.
    - A Python [str] is a [string]: the characters are the code points
      0..255.  The literals of the source are ASCII, except the bullet
      U+2022 of the list-item tests, which no string of this range starts
      with.
    - A Python [int] is a [Z], a length is a [nat], a [float] timestamp is
      a rational [Q] (only differences, products by 1000 and comparisons of
      timestamps are used).
    - The collaborators (text generation, the document store, the clock)
      are oracles: functions carried by the state or by the world, with
      explicit outcomes for the calls that may raise. *)

From Stdlib Require Import String Ascii List Bool Arith ZArith QArith Lia.
From Stdlib Require Import DecimalString Lqa Sorted Permutation.
Import ListNotations.
Local Close Scope Q_scope.
Local Open Scope string_scope.
Local Open Scope nat_scope.

Set Implicit Arguments.

(** ** Python strings *)

Module PyStr.

Definition code (c : ascii) : nat := nat_of_ascii c.

(** [str.isspace] on one character (code points below 256). *)
Definition isspace (c : ascii) : bool :=
  let n := code c in
  ((9 <=? n) && (n <=? 13)) || ((28 <=? n) && (n <=? 32))
  || (n =? 133) || (n =? 160).

(** [str.isdigit] on one character (code points below 256). *)
Definition isdigit (c : ascii) : bool :=
  let n := code c in
  ((48 <=? n) && (n <=? 57)) || (n =? 178) || (n =? 179) || (n =? 185).

(** Case mappings.  The three characters whose upper case leaves the
    range (181, 223, 255) are left as they are: no test of the source is
    affected, since upper-cased text is only compared with ASCII labels. *)
Definition upper_char (c : ascii) : ascii :=
  let n := code c in
  if ((97 <=? n) && (n <=? 122))
     || ((224 <=? n) && (n <=? 254) && negb (n =? 247))
  then ascii_of_nat (n - 32) else c.

Definition lower_char (c : ascii) : ascii :=
  let n := code c in
  if ((65 <=? n) && (n <=? 90))
     || ((192 <=? n) && (n <=? 222) && negb (n =? 215))
  then ascii_of_nat (n + 32) else c.

Fixpoint map_chars (f : ascii -> ascii) (s : string) : string :=
  match s with
  | EmptyString => EmptyString
  | String c s' => String (f c) (map_chars f s')
  end.

Definition upper : string -> string := map_chars upper_char.
Definition lower : string -> string := map_chars lower_char.

Definition is_empty (s : string) : bool :=
  match s with EmptyString => true | _ => false end.

(** Truthiness of a string: [if s:]. *)
Definition truthy (s : string) : bool := negb (is_empty s).

Fixpoint lstrip (s : string) : string :=
  match s with
  | EmptyString => EmptyString
  | String c s' => if isspace c then lstrip s' else s
  end.

Fixpoint rstrip (s : string) : string :=
  match s with
  | EmptyString => EmptyString
  | String c s' =>
      let r := rstrip s' in
      if isspace c && is_empty r then EmptyString else String c r
  end.

Definition strip (s : string) : string := lstrip (rstrip s).

Fixpoint mem_char (c : ascii) (chars : string) : bool :=
  match chars with
  | EmptyString => false
  | String d chars' => Ascii.eqb c d || mem_char c chars'
  end.

(** [s.lstrip(chars)]. *)
Fixpoint lstrip_chars (chars : string) (s : string) : string :=
  match s with
  | EmptyString => EmptyString
  | String c s' => if mem_char c chars then lstrip_chars chars s' else s
  end.

Definition startswith (s p : string) : bool := String.prefix p s.

(** [needle in hay]. *)
Fixpoint contains (needle hay : string) : bool :=
  String.prefix needle hay
  || match hay with
     | EmptyString => false
     | String _ hay' => contains needle hay'
     end.

(** [s.split(sep)] for a one-character separator: never empty. *)
Fixpoint split_on (sep : ascii) (s : string) : list string :=
  match s with
  | EmptyString => [EmptyString]
  | String c s' =>
      if Ascii.eqb c sep then EmptyString :: split_on sep s'
      else match split_on sep s' with
           | [] => [String c EmptyString]
           | w :: ws => String c w :: ws
           end
  end.

(** [s.split(sep, 1)]: at most one cut, at the first separator. *)
Fixpoint split_once (sep : ascii) (s : string) : list string :=
  match s with
  | EmptyString => [EmptyString]
  | String c s' =>
      if Ascii.eqb c sep then [EmptyString; s']
      else match split_once sep s' with
           | [] => [String c EmptyString]
           | w :: ws => String c w :: ws
           end
  end.

Fixpoint rev_acc (s acc : string) : string :=
  match s with
  | EmptyString => acc
  | String c s' => rev_acc s' (String c acc)
  end.

Definition rev (s : string) : string := rev_acc s EmptyString.

(** [s.split()]: the maximal runs of non-space characters.  [cur] is the
    unit being read, most recent character first. *)
Fixpoint split_ws_from (cur : string) (s : string) : list string :=
  match s with
  | EmptyString => if is_empty cur then [] else [rev cur]
  | String c s' =>
      if isspace c
      then (if is_empty cur then split_ws_from EmptyString s'
            else rev cur :: split_ws_from EmptyString s')
      else split_ws_from (String c cur) s'
  end.

Definition split_ws (s : string) : list string := split_ws_from EmptyString s.

(** [s[:n]]. *)
Definition slice_to (n : nat) (s : string) : string := substring 0 n s.

(** [sep.join(parts)]. *)
Definition join (sep : string) (parts : list string) : string :=
  String.concat sep parts.

(** [str(n)] for a length and for an integer. *)
Definition str_of_nat (n : nat) : string :=
  NilZero.string_of_uint (Nat.to_uint n).

Definition str_of_Z (z : Z) : string :=
  NilZero.string_of_int (Z.to_int z).

Definition dquote : string := String (ascii_of_nat 34) EmptyString.
Definition newline : ascii := ascii_of_nat 10.
Definition nl : string := String newline EmptyString.

End PyStr.

Import PyStr.

(** ** Data model ([orchestration/state.py]) *)

(** A document of the [messages] collection. *)
Record Message := {
  msg_sessionId : string;
  msg_userId : string;
  msg_role : option string;
  msg_content : option string;
  msg_timestamp : Q
}.

(** One entry of [last_k_turns]: [{role, content, timestamp}], each read
    with [msg.get]. *)
Record Turn := {
  turn_role : option string;
  turn_content : option string;
  turn_timestamp : option Q
}.

(** The arguments of [db.find] as the worker logs them. *)
Record FindArgs := {
  collection : string;
  filter_sessionId : string;
  limit : Z
}.

(** The result dictionary of a query: [status], and the keys read with
    [result.get]. *)
Record FindResult := {
  status : string;
  count : option Z;
  data : option (list Message);
  error : option string
}.

(** What a call of [db_tools.find] does: it returns [(result, latency)] or
    raises. *)
Inductive FindOutcome :=
| Returned (result : FindResult) (latency : Q)
| Raised (err : string).

(** What a call of [llm_client.generate] does. *)
Inductive GenOutcome :=
| Generated (response : string)
| GenRaised (err : string).

(** [generate(prompt, max_tokens, temperature)]. *)
Definition LLMClient := string -> Z -> Q -> GenOutcome.

(** [find(collection, filter, limit)]; the last argument counts the calls
    made before this one, so that two calls may answer differently. *)
Definition DBTools := FindArgs -> nat -> FindOutcome.

(** The [data] of a finding: the documents of a query, the empty
    dictionary, or the retry marker [{"retry_attempt": n}]. *)
Inductive FindingData :=
| DataDocs (docs : list Message)
| DataNone
| DataRetry (retry_attempt : Z).

Record Finding := {
  f_task : string;
  f_result : string;
  f_data : FindingData
}.

Record ToolCall := {
  tc_tool : string;
  tc_args : FindArgs;
  tc_result : FindResult;
  tc_latency_ms : Q;
  tc_timestamp : Q
}.

Inductive AgentName := planner | worker | critic | synthesizer.

Definition agent_name (a : AgentName) : string :=
  match a with
  | planner => "planner"
  | worker => "worker"
  | critic => "critic"
  | synthesizer => "synthesizer"
  end.

Record AgentState := {
  session_id : string;
  user_id : string;
  user_prompt : string;
  context : string;
  session_summary : option string;
  last_k_turns : list Turn;
  subtasks : list string;
  data_access_plan : string;
  worker_findings : list Finding;
  tool_calls : list ToolCall;
  critic_passed : bool;
  critic_feedback : string;
  retry_count : Z;
  final_answer : string;
  suggestions : list string;
  timings : list (string * Q);
  request_start : Q;
  first_token_at : option Q;
  completed_at : option Q;
  stream_tokens : list string;
  current_agent : string;
  llm_client : option LLMClient;
  db_tools : DBTools
}.

(** [{**d, key: v}] on an insertion-ordered dictionary. *)
Fixpoint dict_set (key : string) (v : Q) (d : list (string * Q))
  : list (string * Q) :=
  match d with
  | [] => [(key, v)]
  | (k, x) :: d' =>
      if String.eqb k key then (k, v) :: d' else (k, x) :: dict_set key v d'
  end.

(** ** The world outside the state: clock and store calls *)

(** [clock] gives the successive readings that the stages and the relay
    make of the clock, [ticks] counts the readings made and [finds] the
    calls of [db_tools.find] made.  (The readings that the store wrapper
    makes for its latencies are part of its outcome.) *)
Record World := {
  clock : nat -> Q;
  ticks : nat;
  finds : nat
}.

Definition M (A : Type) : Type := World -> A * World.

Definition ret {A} (a : A) : M A := fun w => (a, w).

Definition bind {A B} (c : M A) (k : A -> M B) : M B :=
  fun w => let (a, w') := c w in k a w'.

Notation "x <- c ;; k" := (bind c (fun x => k))
  (at level 61, c at next level, right associativity).

(** [time.time()]. *)
Definition time_time : M Q :=
  fun w => (clock w (ticks w),
            {| clock := clock w; ticks := S (ticks w); finds := finds w |}).

(** [await db_tools.find(...)]. *)
Definition call_find (db : DBTools) (args : FindArgs) : M FindOutcome :=
  fun w => (db args (finds w),
            {| clock := clock w; ticks := ticks w; finds := S (finds w) |}).

(** [(t1 - t0) * 1000]. *)
Definition elapsed_ms (t0 t1 : Q) : Q := ((t1 - t0) * 1000)%Q.

(** ** The Validator ([orchestration/agents/critic.py]) *)

Definition failed_tools (tool_calls : list ToolCall) : list ToolCall :=
  filter (fun tc => negb (String.eqb (status (tc_result tc)) "ok")) tool_calls.

Definition relevance_score (user_prompt : string)
           (worker_findings : list Finding) : nat :=
  let prompt_keywords :=
    nodup string_dec (firstn 5 (split_ws (lower user_prompt))) in
  let findings_text := lower (join " " (map f_result worker_findings)) in
  length (filter (fun kw => contains kw findings_text) prompt_keywords).

Definition msg_validated : string := "Worker output validated successfully.".
Definition msg_no_findings : string := "No findings returned by Worker.".
Definition msg_tool_failures (n : nat) : string :=
  "Tool calls failed: " ++ str_of_nat n ++ " failures detected.".
Definition msg_not_relevant : string :=
  "Worker findings may not be relevant to user request.".

Definition is_nil {A} (l : list A) : bool :=
  match l with [] => true | _ => false end.

(** The three checks, in the order of the source; each failing check
    overwrites [passed] and [feedback]. *)
Definition critic_checks (worker_findings : list Finding)
           (tool_calls : list ToolCall) (user_prompt : string)
  : bool * string :=
  let r0 := (true, msg_validated) in
  let r1 := if is_nil worker_findings then (false, msg_no_findings) else r0 in
  let r2 :=
    if negb (is_nil tool_calls) then
      if negb (is_nil (failed_tools tool_calls))
      then (false, msg_tool_failures (length (failed_tools tool_calls)))
      else r1
    else r1 in
  let r3 :=
    if relevance_score user_prompt worker_findings =? 0
    then (false, msg_not_relevant) else r2 in
  r3.

Definition critic_node (state : AgentState) : M AgentState :=
  start_time <- time_time ;;
  let '(passed, feedback) :=
    critic_checks (worker_findings state) (tool_calls state)
                  (user_prompt state) in
  end_time <- time_time ;;
  let duration_ms := elapsed_ms start_time end_time in
  let new_retry_count :=
    if negb passed then (retry_count state + 1)%Z else retry_count state in
  ret {| session_id := session_id state;
         user_id := user_id state;
         user_prompt := user_prompt state;
         context := context state;
         session_summary := session_summary state;
         last_k_turns := last_k_turns state;
         subtasks := subtasks state;
         data_access_plan := data_access_plan state;
         worker_findings := worker_findings state;
         tool_calls := tool_calls state;
         critic_passed := passed;
         critic_feedback := feedback;
         retry_count := new_retry_count;
         final_answer := final_answer state;
         suggestions := suggestions state;
         timings := dict_set "critic" duration_ms (timings state);
         request_start := request_start state;
         first_token_at := first_token_at state;
         completed_at := completed_at state;
         stream_tokens := stream_tokens state;
         current_agent := "critic";
         llm_client := llm_client state;
         db_tools := db_tools state |}.

(** ** The conditional edge ([orchestration/graph.py]) *)

Definition should_retry (state : AgentState) : AgentName :=
  if negb (critic_passed state) && (retry_count state <? 1)%Z
  then worker else synthesizer.

(** ** The query collaborator ([orchestration/tools/db_tools.py]) *)

(** What the driver's cursor does when it is read. *)
Inductive CursorOutcome :=
| Docs (docs : list Message)
| DriverError (err : string).

(** [DBTools.find]: an [ok] result with the documents, or, when the driver
    raises, a [DBToolError] raised anew (the error result is only put in
    the collaborator's own log). *)
Definition DBTools_find (cursor : FindArgs -> nat -> CursorOutcome * Q)
  : DBTools :=
  fun args n =>
    match cursor args n with
    | (Docs docs, latency_ms) =>
        Returned {| status := "ok";
                    count := Some (Z.of_nat (length docs));
                    data := Some docs;
                    error := None |} latency_ms
    | (DriverError err, _) => Raised err
    end.

(** ** The Executor ([orchestration/agents/worker.py]) *)

Definition db_keywords : list string :=
  ["query"; "fetch"; "retrieve"; "history"; "data"; "conversation";
   "previous"; "earlier"; "past"; "messages"].

Definition needs_db_access (task : string) : bool :=
  existsb (fun keyword => contains keyword (lower task)) db_keywords.

Definition find_args (session_id : string) : FindArgs :=
  {| collection := "messages"; filter_sessionId := session_id; limit := 50 |}.

Definition get_count (result : FindResult) : Z :=
  match count result with Some c => c | None => 0%Z end.

Definition get_data (result : FindResult) : list Message :=
  match data result with Some d => d | None => [] end.

(** The body of the loop over the subtasks: the findings and the tool
    calls gathered so far, then one subtask. *)
Definition worker_task (session_id : string) (db : DBTools)
           (acc : list Finding * list ToolCall) (task : string)
  : M (list Finding * list ToolCall) :=
  let '(findings, tool_calls) := acc in
  task_start <- time_time ;;
  if needs_db_access task then
    out <- call_find db (find_args session_id) ;;
    match out with
    | Returned result latency =>
        now <- time_time ;;
        let tool_call_log :=
          {| tc_tool := "db.find";
             tc_args := find_args session_id;
             tc_result := result;
             tc_latency_ms := latency;
             tc_timestamp := now |} in
        ret ((findings ++
                [{| f_task := task;
                    f_result := "Retrieved " ++ str_of_Z (get_count result)
                                ++ " messages from conversation history";
                    f_data := DataDocs (get_data result) |}])%list,
             (tool_calls ++ [tool_call_log])%list)
    | Raised e =>
        ret ((findings ++
                [{| f_task := task;
                    f_result := "Error fetching data: " ++ e;
                    f_data := DataDocs [] |}])%list,
             tool_calls)
    end
  else
    ret ((findings ++
            [{| f_task := task;
                f_result := "Completed: " ++ task;
                f_data := DataNone |}])%list,
         tool_calls).

Fixpoint worker_loop (session_id : string) (db : DBTools)
         (acc : list Finding * list ToolCall) (tasks : list string)
  : M (list Finding * list ToolCall) :=
  match tasks with
  | [] => ret acc
  | task :: rest =>
      acc' <- worker_task session_id db acc task ;;
      worker_loop session_id db acc' rest
  end.

Definition retry_finding (retry_count : Z) : Finding :=
  {| f_task := "retry_adjustment";
     f_result := "Re-executed tasks with improved strategy";
     f_data := DataRetry retry_count |}.

(** [findings] starts empty at every pass; [tool_calls] starts from the
    list of the state. *)
Definition worker_node (state : AgentState) : M AgentState :=
  start_time <- time_time ;;
  acc <- worker_loop (session_id state) (db_tools state)
                     ([], tool_calls state) (subtasks state) ;;
  let '(findings, tool_calls') := acc in
  let findings :=
    if (retry_count state >? 0)%Z
    then (findings ++ [retry_finding (retry_count state)])%list
    else findings in
  end_time <- time_time ;;
  let duration_ms := elapsed_ms start_time end_time in
  ret {| session_id := session_id state;
         user_id := user_id state;
         user_prompt := user_prompt state;
         context := context state;
         session_summary := session_summary state;
         last_k_turns := last_k_turns state;
         subtasks := subtasks state;
         data_access_plan := data_access_plan state;
         worker_findings := findings;
         tool_calls := tool_calls';
         critic_passed := critic_passed state;
         critic_feedback := critic_feedback state;
         retry_count := retry_count state;
         final_answer := final_answer state;
         suggestions := suggestions state;
         timings := dict_set "worker" duration_ms (timings state);
         request_start := request_start state;
         first_token_at := first_token_at state;
         completed_at := completed_at state;
         stream_tokens := stream_tokens state;
         current_agent := "worker";
         llm_client := llm_client state;
         db_tools := db_tools state |}.

(** ** Numbered and bulleted items (Planner and Composer) *)

(** [line[0].isdigit() or line.startswith('-') or line.startswith(bullet)]
    for a non-empty line. *)
Definition is_item (line : string) : bool :=
  match line with
  | EmptyString => false
  | String c _ => isdigit c || Ascii.eqb c "-"%char
  end.

(** The text of an item: what follows the first dot, or, without a dot,
    the line without its leading digits, dots, dashes and bullets. *)
Definition item_text (line : string) : string :=
  if contains "." line
  then strip (last (split_once "."%char line) EmptyString)
  else strip (lstrip_chars "0123456789.-" line).

(** [x.split(':', 1)[1].strip() if ':' in x else ''] *)
Definition after_colon (line : string) : string :=
  if contains ":" line
  then strip (nth 1 (split_once ":"%char line) EmptyString)
  else EmptyString.

(** [task and len(task) > 5] *)
Definition long_enough (task : string) : bool :=
  truthy task && (5 <? String.length task).

(** ** The Planner ([orchestration/agents/planner.py]) *)

Definition planning_prompt (context : string) : string :=
  "You are a planning agent. Analyze the user's request considering conversation history.

" ++ context ++ "

Your task: Break down the current user request into 1-3 specific, actionable subtasks.
Also identify if any database queries are needed.

Format your response exactly like this:

SUBTASKS:
1. [First specific subtask]
2. [Second specific subtask]
3. [Third specific subtask if needed]

DATA_PLAN:
[Describe what data needs to be fetched, or write " ++ dquote
  ++ "No database access needed" ++ dquote ++ "]

Be specific and actionable. Each subtask should be clear.
".

Record PlanParse := {
  in_subtasks : bool;
  in_data_plan : bool;
  parsed_subtasks : list string;
  parsed_data_plan : string
}.

(** One turn of the loop over the lines of the response. *)
Definition plan_line (acc : PlanParse) (raw : string) : PlanParse :=
  let line := strip raw in
  if startswith (upper line) "SUBTASKS:" then
    {| in_subtasks := true; in_data_plan := false;
       parsed_subtasks := parsed_subtasks acc;
       parsed_data_plan := parsed_data_plan acc |}
  else if startswith (upper line) "DATA_PLAN:"
          || startswith (upper line) "DATA PLAN:" then
    {| in_subtasks := false; in_data_plan := true;
       parsed_subtasks := parsed_subtasks acc;
       parsed_data_plan :=
         if truthy (after_colon line)
         then parsed_data_plan acc ++ after_colon line ++ " "
         else parsed_data_plan acc |}
  else if in_subtasks acc && truthy line then
    if is_item line && long_enough (item_text line) then
      {| in_subtasks := in_subtasks acc; in_data_plan := in_data_plan acc;
         parsed_subtasks := (parsed_subtasks acc ++ [item_text line])%list;
         parsed_data_plan := parsed_data_plan acc |}
    else acc
  else if in_data_plan acc && truthy line then
    {| in_subtasks := in_subtasks acc; in_data_plan := in_data_plan acc;
       parsed_subtasks := parsed_subtasks acc;
       parsed_data_plan := parsed_data_plan acc ++ line ++ " " |}
  else acc.

Definition parse_plan (response : string) : list string * string :=
  let acc :=
    fold_left plan_line (split_on newline (strip response))
              {| in_subtasks := false; in_data_plan := false;
                 parsed_subtasks := []; parsed_data_plan := "" |} in
  (parsed_subtasks acc, strip (parsed_data_plan acc)).

Definition history_words : list string :=
  ["my"; "our"; "previous"; "earlier"; "last"; "before";
   "conversation"; "discussed"; "mentioned"; "said"].

Definition needs_history (user_prompt : string) : bool :=
  existsb (fun word => contains word (lower user_prompt)) history_words.

(** The fallback used when no subtask was parsed. *)
Definition smart_fallback (user_prompt : string) : list string * string :=
  if needs_history user_prompt then
    (["Retrieve conversation history to understand context";
      "Analyze user's request: " ++ slice_to 50 user_prompt;
      "Formulate contextual response based on history"],
     "Query messages collection for session history")
  else
    (["Understand the request: " ++ slice_to 50 user_prompt;
      "Gather relevant information";
      "Prepare comprehensive response"],
     "No database access needed for this request").

(** The fallback of the [except] clause. *)
Definition critical_fallback (user_prompt : string) : list string * string :=
  (["Process user request: " ++ slice_to 60 user_prompt;
    "Gather necessary information";
    "Prepare appropriate response"],
   "Assess if database query needed during execution").

(** The body of the [try], after a response was obtained. *)
Definition plan_of_response (user_prompt response : string)
  : list string * string :=
  let '(subtasks, data_plan) := parse_plan response in
  let '(subtasks, data_plan) :=
    if is_nil subtasks then smart_fallback user_prompt
    else (subtasks, data_plan) in
  let data_plan :=
    if is_empty data_plan
    then "Determine data needs based on request context" else data_plan in
  (subtasks, data_plan).

Definition make_plan (llm : option LLMClient) (user_prompt context : string)
  : list string * string :=
  match llm with
  | None => critical_fallback user_prompt
  | Some client =>
      match client (planning_prompt context) 300%Z (1 # 2)%Q with
      | Generated response => plan_of_response user_prompt response
      | GenRaised _ => critical_fallback user_prompt
      end
  end.

Definition planner_node (state : AgentState) : M AgentState :=
  start_time <- time_time ;;
  let '(subtasks', data_plan) :=
    make_plan (llm_client state) (user_prompt state) (context state) in
  end_time <- time_time ;;
  let duration_ms := elapsed_ms start_time end_time in
  ret {| session_id := session_id state;
         user_id := user_id state;
         user_prompt := user_prompt state;
         context := context state;
         session_summary := session_summary state;
         last_k_turns := last_k_turns state;
         subtasks := subtasks';
         data_access_plan := data_plan;
         worker_findings := worker_findings state;
         tool_calls := tool_calls state;
         critic_passed := critic_passed state;
         critic_feedback := critic_feedback state;
         retry_count := retry_count state;
         final_answer := final_answer state;
         suggestions := suggestions state;
         timings := dict_set "planner" duration_ms (timings state);
         request_start := request_start state;
         first_token_at := first_token_at state;
         completed_at := completed_at state;
         stream_tokens := stream_tokens state;
         current_agent := "planner";
         llm_client := llm_client state;
         db_tools := db_tools state |}.

(** ** The Composer ([orchestration/agents/synthesizer.py]) *)

Definition findings_text (worker_findings : list Finding) : string :=
  if is_nil worker_findings then "No specific findings"
  else join nl (map (fun f => "- " ++ f_result f) worker_findings).

Definition synthesis_prompt (context findings_text critic_feedback : string)
  : string :=
  "You are a helpful AI assistant. Generate a natural, conversational response.

CONVERSATION CONTEXT:
" ++ context ++ "

ANALYSIS RESULTS:
" ++ findings_text ++ "

QUALITY CHECK: " ++ critic_feedback ++ "

Task: Provide a helpful, natural response to the user's request. If the conversation history contains relevant information (like the user's name, preferences, or previous topics), reference it appropriately.

Generate your response in this format:

ANSWER:
[Your natural, conversational response here - be specific and reference context when relevant]

SUGGESTIONS:
1. [Relevant follow-up question or action]
2. [Another relevant suggestion]
3. [Third suggestion]

Remember:
- Be conversational and natural
- Reference previous conversation context when relevant
- Keep the response focused and helpful
".

Record AnswerParse := {
  in_answer : bool;
  in_suggestions : bool;
  answer_lines : list string;
  parsed_suggestions : list string
}.

(** One turn of the loop over the lines of the response. *)
Definition answer_line (acc : AnswerParse) (raw : string) : AnswerParse :=
  let line := strip raw in
  if startswith (upper line) "ANSWER:" then
    {| in_answer := true; in_suggestions := false;
       answer_lines :=
         if truthy (after_colon line)
         then (answer_lines acc ++ [after_colon line])%list
         else answer_lines acc;
       parsed_suggestions := parsed_suggestions acc |}
  else if startswith (upper line) "SUGGESTIONS:" then
    {| in_answer := false; in_suggestions := true;
       answer_lines := answer_lines acc;
       parsed_suggestions := parsed_suggestions acc |}
  else if in_answer acc && truthy line then
    {| in_answer := in_answer acc; in_suggestions := in_suggestions acc;
       answer_lines := (answer_lines acc ++ [line])%list;
       parsed_suggestions := parsed_suggestions acc |}
  else if in_suggestions acc && truthy line then
    if is_item line && long_enough (item_text line) then
      {| in_answer := in_answer acc; in_suggestions := in_suggestions acc;
         answer_lines := answer_lines acc;
         parsed_suggestions :=
           (parsed_suggestions acc ++ [item_text line])%list |}
    else acc
  else acc.

Definition parse_answer (response : string) : string * list string :=
  let acc :=
    fold_left answer_line (split_on newline (strip response))
              {| in_answer := false; in_suggestions := false;
                 answer_lines := []; parsed_suggestions := [] |} in
  (strip (join " " (answer_lines acc)), parsed_suggestions acc).

(** The answer used when no answer section was parsed. *)
Definition answer_fallback (user_prompt response : string)
           (worker_findings : list Finding) : string :=
  if (20 <? String.length response) && negb (startswith response "ANSWER:")
  then strip response
  else
    "I understand you're asking about: " ++ user_prompt ++ ". "
    ++ match worker_findings with
       | f :: _ => "Based on my analysis: " ++ f_result f
       | [] => "Let me help you with that."
       end.

Definition default_suggestions : list string :=
  ["Can you tell me more about this?";
   "What else would you like to know?";
   "Should we explore this topic further?"].

(** [while len(suggestions) < 3: suggestions.append(default[len(suggestions)])];
    [fuel] bounds the number of turns (three are enough, see
    [pad_suggestions_length]). *)
Fixpoint pad_loop (fuel : nat) (suggestions : list string) : list string :=
  match fuel with
  | O => suggestions
  | S fuel' =>
      if length suggestions <? 3
      then pad_loop fuel'
             (suggestions
                ++ [nth (length suggestions) default_suggestions EmptyString])%list
      else suggestions
  end.

(** Padding, then [suggestions[:3]]. *)
Definition pad_suggestions (suggestions : list string) : list string :=
  let suggestions :=
    if length suggestions <? 3 then pad_loop 3 suggestions else suggestions in
  firstn 3 suggestions.

(** The answer and the suggestions of the [except] clause. *)
Definition critical_answer (user_prompt : string)
           (worker_findings : list Finding) : string * list string :=
  ("I received your message: '" ++ user_prompt ++ "'. "
   ++ match worker_findings with
      | f :: _ => "Analysis shows: " ++ f_result f ++ ". "
      | [] => ""
      end
   ++ "How can I help you further?",
   ["Tell me more about what you need";
    "Can you clarify your question?";
    "What would you like to know next?"]).

(** The body of the [try], after a response was obtained. *)
Definition answer_of_response (user_prompt response : string)
           (worker_findings : list Finding) : string * list string :=
  let '(final_answer, suggestions) := parse_answer response in
  let final_answer :=
    if is_empty final_answer
    then answer_fallback user_prompt response worker_findings
    else final_answer in
  (final_answer, pad_suggestions suggestions).

Definition synthesize (llm : option LLMClient) (state : AgentState)
  : string * list string :=
  match llm with
  | None => critical_answer (user_prompt state) (worker_findings state)
  | Some client =>
      match client (synthesis_prompt (context state)
                      (findings_text (worker_findings state))
                      (critic_feedback state)) 500%Z (7 # 10)%Q with
      | Generated response =>
          answer_of_response (user_prompt state) response
                             (worker_findings state)
      | GenRaised _ =>
          critical_answer (user_prompt state) (worker_findings state)
      end
  end.

Definition synthesizer_node (state : AgentState) : M AgentState :=
  start_time <- time_time ;;
  let '(final_answer', suggestions') := synthesize (llm_client state) state in
  completed <- time_time ;;
  let duration_ms := elapsed_ms start_time completed in
  ret {| session_id := session_id state;
         user_id := user_id state;
         user_prompt := user_prompt state;
         context := context state;
         session_summary := session_summary state;
         last_k_turns := last_k_turns state;
         subtasks := subtasks state;
         data_access_plan := data_access_plan state;
         worker_findings := worker_findings state;
         tool_calls := tool_calls state;
         critic_passed := critic_passed state;
         critic_feedback := critic_feedback state;
         retry_count := retry_count state;
         final_answer := final_answer';
         suggestions := suggestions';
         timings := dict_set "synthesizer" duration_ms (timings state);
         request_start := request_start state;
         first_token_at := first_token_at state;
         completed_at := Some completed;
         stream_tokens := stream_tokens state;
         current_agent := "synthesizer";
         llm_client := llm_client state;
         db_tools := db_tools state |}.

(** ** The initial state ([create_initial_state], and the dependencies
    that [chat.py] puts in it)

    [request_start] is [datetime.utcnow().timestamp()], taken here as a
    reading of the same clock.  The key [memory_store], which no stage
    uses, is left out. *)

Definition create_initial_state (session_id' user_id' user_prompt' : string)
           (context' : string) (session_summary' : option string)
           (last_k_turns' : list Turn)
           (llm : option LLMClient) (db : DBTools) : M AgentState :=
  now <- time_time ;;
  ret {| session_id := session_id';
         user_id := user_id';
         user_prompt := user_prompt';
         context := context';
         session_summary := session_summary';
         last_k_turns := last_k_turns';
         subtasks := [];
         data_access_plan := "";
         worker_findings := [];
         tool_calls := [];
         critic_passed := false;
         critic_feedback := "";
         retry_count := 0%Z;
         final_answer := "";
         suggestions := [];
         timings := [];
         request_start := now;
         first_token_at := None;
         completed_at := None;
         stream_tokens := [];
         current_agent := "";
         llm_client := llm;
         db_tools := db |}.

(** ** The graph ([create_agent_graph]) *)

Definition run_node (n : AgentName) : AgentState -> M AgentState :=
  match n with
  | planner => planner_node
  | worker => worker_node
  | critic => critic_node
  | synthesizer => synthesizer_node
  end.

(** The edges: [None] is [END].  The conditional edge reads the state as
    the Validator returned it. *)
Definition next_node (n : AgentName) (updated : AgentState)
  : option AgentName :=
  match n with
  | planner => Some worker
  | worker => Some critic
  | critic => Some (should_retry updated)
  | synthesizer => None
  end.

Inductive StreamEnd :=
| Finished
| RecursionError.

(** The number of steps after which the graph library gives up. *)
Definition recursion_limit : nat := 25.

(** [async for event in graph.astream(state)]: the nodes run one after
    the other from [n]; after each, the body of the loop [consume] handles
    the event [(node_name, updated_state)] before the next node runs. *)
Fixpoint astream_from {S : Type}
         (consume : S -> AgentName * AgentState -> M S)
         (fuel : nat) (n : AgentName) (state : AgentState) (acc : S)
  : M (S * StreamEnd) :=
  match fuel with
  | O => ret (acc, RecursionError)
  | S fuel' =>
      updated <- run_node n state ;;
      acc' <- consume acc (n, updated) ;;
      match next_node n updated with
      | None => ret (acc', Finished)
      | Some n' => astream_from consume fuel' n' updated acc'
      end
  end.

Definition astream {S : Type}
           (consume : S -> AgentName * AgentState -> M S)
           (state : AgentState) (acc : S) : M (S * StreamEnd) :=
  astream_from consume recursion_limit planner state acc.

(** The events of a run, in order. *)
Definition collect (acc : list (AgentName * AgentState))
           (event : AgentName * AgentState)
  : M (list (AgentName * AgentState)) :=
  ret (acc ++ [event])%list.

Definition graph_events (state : AgentState)
  : M (list (AgentName * AgentState) * StreamEnd) :=
  astream collect state [].

(** ** Timing ([orchestration/tools/time.py]) *)

Definition calculate_ttft (request_start : Q) (first_token_at : option Q)
  : option Q :=
  match first_token_at with
  | None => None
  | Some t => Some ((t - request_start) * 1000)%Q
  end.

Definition calculate_total_time (request_start : Q) (completed_at : option Q)
  : option Q :=
  match completed_at with
  | None => None
  | Some t => Some ((t - request_start) * 1000)%Q
  end.

(** ** The Event Relay ([stream_chat_response] of [api/routers/chat.py]) *)

Record DoneTimings := {
  requestStart : Q;
  firstTokenAt : option Q;
  completedAt : option Q;
  ttft_ms : option Q;
  total_ms : option Q
}.

Inductive SSE :=
| agent_event (name : string)
| tool_call_started (tool : string) (args : FindArgs)
| tool_call_completed (tool : string) (ok : bool) (latencyMs : Q)
| token (text : string)
| done (fullText : string) (suggestions : list string) (t : DoneTimings)
| error_event (error : string).

(** [updated_state["first_token_at"] = t] *)
Definition set_first_token_at (state : AgentState) (t : Q) : AgentState :=
  {| session_id := session_id state;
     user_id := user_id state;
     user_prompt := user_prompt state;
     context := context state;
     session_summary := session_summary state;
     last_k_turns := last_k_turns state;
     subtasks := subtasks state;
     data_access_plan := data_access_plan state;
     worker_findings := worker_findings state;
     tool_calls := tool_calls state;
     critic_passed := critic_passed state;
     critic_feedback := critic_feedback state;
     retry_count := retry_count state;
     final_answer := final_answer state;
     suggestions := suggestions state;
     timings := timings state;
     request_start := request_start state;
     first_token_at := Some t;
     completed_at := completed_at state;
     stream_tokens := stream_tokens state;
     current_agent := current_agent state;
     llm_client := llm_client state;
     db_tools := db_tools state |}.

(** What the relay carries from one event to the next: the events sent,
    [state] and [first_token_sent]. *)
Record Relay := {
  sent : list SSE;
  relay_state : AgentState;
  first_token_sent : bool
}.

Definition tool_call_events (tool_calls : list ToolCall) : list SSE :=
  flat_map (fun tool_call =>
              [tool_call_started (tc_tool tool_call) (tc_args tool_call);
               tool_call_completed (tc_tool tool_call)
                 (String.eqb (status (tc_result tool_call)) "ok")
                 (tc_latency_ms tool_call)])
           tool_calls.

(** The loop over the words of the answer. *)
Fixpoint stream_words (words : list string) (r : Relay) : M Relay :=
  match words with
  | [] => ret r
  | word :: rest =>
      r1 <- (if negb (first_token_sent r)
             then (now <- time_time ;;
                   ret {| sent := sent r;
                          relay_state := set_first_token_at (relay_state r) now;
                          first_token_sent := true |})
             else ret r) ;;
      stream_words rest
        {| sent := (sent r1 ++ [token (word ++ " ")])%list;
           relay_state := relay_state r1;
           first_token_sent := first_token_sent r1 |}
  end.

(** The body of the loop over the events of the graph. *)
Definition relay_event (r : Relay) (event : AgentName * AgentState) : M Relay :=
  let '(node_name, updated_state) := event in
  let r1 :=
    {| sent := (sent r ++ [agent_event (agent_name node_name)])%list;
       relay_state := updated_state;
       first_token_sent := first_token_sent r |} in
  let r2 :=
    match node_name with
    | worker =>
        {| sent := (sent r1 ++ tool_call_events (tool_calls updated_state))%list;
           relay_state := relay_state r1;
           first_token_sent := first_token_sent r1 |}
    | _ => r1
    end in
  match node_name with
  | synthesizer => stream_words (split_ws (final_answer updated_state)) r2
  | _ => ret r2
  end.

Definition done_event (state : AgentState) : SSE :=
  done (final_answer state) (suggestions state)
       {| requestStart := request_start state;
          firstTokenAt := first_token_at state;
          completedAt := completed_at state;
          ttft_ms := calculate_ttft (request_start state) (first_token_at state);
          total_ms := calculate_total_time (request_start state)
                                           (completed_at state) |}.

(** The stream of a request, from the packed context on.  [persist] is the
    outcome of the writes made between the last event of the graph and the
    terminal event: [None] when they succeed, the error otherwise.  An
    exception ends the stream with one [error] event; the text of the
    graph library's own error is not modelled. *)
Definition stream_chat_response (sessionId userId prompt : string)
           (packed_context : string) (summary : option string)
           (turns : list Turn) (llm : option LLMClient) (db : DBTools)
           (persist : option string) : M (list SSE) :=
  state <- create_initial_state sessionId userId prompt packed_context
                                summary turns llm db ;;
  res <- astream relay_event state
           {| sent := []; relay_state := state; first_token_sent := false |} ;;
  let '(r, outcome) := res in
  match outcome with
  | RecursionError => ret (sent r ++ [error_event "Recursion limit reached"])%list
  | Finished =>
      match persist with
      | Some err => ret (sent r ++ [error_event err])%list
      | None => ret (sent r ++ [done_event (relay_state r)])%list
      end
  end.

(** ** The memory store ([orchestration/memory/store.py]) *)

Record Session := {
  s_sessionId : string;
  s_userId : string;
  s_summary : option string
}.

(** The two collections the store reads and writes. *)
Record MemoryStore := {
  messages_collection : list Message;
  sessions_collection : list Session
}.

(** [.sort("timestamp", 1)]: a stable insertion sort. *)
Fixpoint insert_by_timestamp (m : Message) (sorted : list Message)
  : list Message :=
  match sorted with
  | [] => [m]
  | x :: rest =>
      if Qle_bool (msg_timestamp m) (msg_timestamp x)
      then m :: sorted
      else x :: insert_by_timestamp m rest
  end.

Definition sort_by_timestamp (l : list Message) : list Message :=
  fold_right insert_by_timestamp [] l.

Definition of_session (session_id : string) (l : list Message) : list Message :=
  filter (fun m => String.eqb (msg_sessionId m) session_id) l.

Definition count_session_messages (store : MemoryStore) (session_id : string)
  : nat :=
  length (of_session session_id (messages_collection store)).

(** [get_session_messages(session_id, limit)]: all the messages of the
    session by timestamp, or, with a limit that is neither [None] nor 0,
    the last [limit] of them. *)
Definition get_session_messages (store : MemoryStore) (session_id : string)
           (limit : option nat) : list Message :=
  let cursor := sort_by_timestamp (of_session session_id (messages_collection store)) in
  match limit with
  | Some (S _ as limit) =>
      let total_count := count_session_messages store session_id in
      let skip := total_count - limit in
      firstn limit (skipn skip cursor)
  | _ => cursor
  end.

Definition find_session (store : MemoryStore) (session_id : string)
  : option Session :=
  find (fun s => String.eqb (s_sessionId s) session_id) (sessions_collection store).

Definition get_session_summary (store : MemoryStore) (session_id : string)
  : option string :=
  match find_session store session_id with
  | Some session => s_summary session
  | None => None
  end.

Fixpoint set_summary (session_id summary user_id : string) (l : list Session)
  : list Session :=
  match l with
  | [] => [{| s_sessionId := session_id; s_userId := user_id;
              s_summary := Some summary |}]
  | s :: rest =>
      if String.eqb (s_sessionId s) session_id
      then {| s_sessionId := s_sessionId s; s_userId := user_id;
              s_summary := Some summary |} :: rest
      else s :: set_summary session_id summary user_id rest
  end.

(** [update_session_summary]: an update of the first session of that
    identifier, inserted when there is none. *)
Definition update_session_summary (store : MemoryStore)
           (session_id summary user_id : string) : MemoryStore :=
  {| messages_collection := messages_collection store;
     sessions_collection :=
       set_summary session_id summary user_id (sessions_collection store) |}.

(** ** The summarizer ([orchestration/memory/summarizer.py]) *)

Definition has_role (role : string) (m : Message) : bool :=
  match msg_role m with
  | Some r => String.eqb r role
  | None => false
  end.

Definition content_of (m : Message) : string :=
  match msg_content m with Some c => c | None => "" end.

Definition summarize_messages (messages : list Message) (target_tokens : nat)
  : string :=
  if is_nil messages then "" else
  let user_messages := filter (has_role "user") messages in
  let assistant_messages := filter (has_role "assistant") messages in
  let summary_parts :=
    ["Conversation history: " ++ str_of_nat (length messages) ++ " total messages";
     "User asked about: " ++ str_of_nat (length user_messages) ++ " topics";
     "Assistant provided: " ++ str_of_nat (length assistant_messages) ++ " responses"] in
  let summary_parts :=
    match user_messages with
    | [] => summary_parts
    | first :: _ =>
        let first_user := slice_to 100 (content_of first) in
        let last_user := slice_to 100 (content_of (last user_messages first)) in
        (summary_parts ++ [("Initial topic: " ++ first_user ++ "...")%string]
           ++ (if 1 <? length user_messages
               then [("Recent topic: " ++ last_user ++ "...")%string]
               else []))%list
    end in
  let summary := join " | " summary_parts in
  let max_chars := target_tokens * 4 in
  if max_chars <? String.length summary
  then slice_to max_chars summary ++ "..." else summary.

(** ** The Context Packer ([orchestration/memory/context_manager.py]) *)

Definition DEFAULT_SHORT_TERM_K : nat := 10.
Definition DEFAULT_TOKEN_BUDGET : Z := 3000.
Definition CHARS_PER_TOKEN : nat := 4.

(** [math.ceil(len(text) / CHARS_PER_TOKEN)] *)
Definition estimate_tokens (text : string) : nat :=
  (String.length text + (CHARS_PER_TOKEN - 1)) / CHARS_PER_TOKEN.

Record PackedContext := {
  packed_context : string;
  packed_summary : option string;
  packed_last_k_turns : list Turn;
  token_count : nat;
  summary_updated : bool
}.

Definition system_meta : string :=
  "You are a helpful AI assistant. Answer based on conversation history and current request.".

Definition summary_block (summary : string) : string :=
  nl ++ "[Session Summary]" ++ nl ++ summary.

Definition turn_line (msg : Message) : string :=
  let role := match msg_role msg with Some r => r | None => "unknown" end in
  nl ++ upper role ++ ": " ++ content_of msg.

Definition turns_block (recent_messages : list Message) : string :=
  fold_left (fun turns_text msg => turns_text ++ turn_line msg)
            recent_messages (nl ++ "[Recent Conversation]").

Definition prompt_block (current_prompt : string) : string :=
  nl ++ "[Current Request]" ++ nl ++ "USER: " ++ current_prompt.

(** [summary] is truthy: neither [None] nor empty. *)
Definition has_summary (summary : option string) : bool :=
  match summary with Some s => truthy s | None => false end.

Definition context_parts (summary : option string)
           (recent_messages : list Message) (current_prompt : string)
  : list string :=
  ([system_meta]
     ++ (match summary with
         | Some s => if truthy s then [summary_block s] else []
         | None => []
         end)
     ++ (if is_nil recent_messages then [] else [turns_block recent_messages])
     ++ [prompt_block current_prompt])%list.

(** [l[i] = v]: [None] stands for the [IndexError] of an index out of
    range. *)
Fixpoint list_assign {A} (l : list A) (i : nat) (v : A) : option (list A) :=
  match l, i with
  | [], _ => None
  | _ :: rest, O => Some (v :: rest)
  | x :: rest, S i' =>
      match list_assign rest i' v with
      | Some rest' => Some (x :: rest')
      | None => None
      end
  end.

Definition to_turn (msg : Message) : Turn :=
  {| turn_role := msg_role msg;
     turn_content := msg_content msg;
     turn_timestamp := Some (msg_timestamp msg) |}.

(** [ContextManager.pack_context]; the manager is its store and its two
    settings.  The result is the packed context and the store as the call
    leaves it. *)
Definition pack_context (short_term_k : nat) (token_budget : Z)
           (store : MemoryStore) (session_id user_id current_prompt : string)
  : option (PackedContext * MemoryStore) :=
  let summary := get_session_summary store session_id in
  let recent_messages :=
    get_session_messages store session_id (Some short_term_k) in
  let parts := context_parts summary recent_messages current_prompt in
  let full_context := join nl parts in
  let token_count' := estimate_tokens full_context in
  if (Z.of_nat token_count' >? token_budget)%Z
     && (short_term_k <? length recent_messages)
  then
    let all_messages := get_session_messages store session_id None in
    let new_summary := summarize_messages all_messages 500 in
    let store' := update_session_summary store session_id new_summary user_id in
    match list_assign parts 1 (summary_block new_summary) with
    | None => None
    | Some parts' =>
        let full_context := join nl parts' in
        Some ({| packed_context := full_context;
                 packed_summary := Some new_summary;
                 packed_last_k_turns := map to_turn recent_messages;
                 token_count := estimate_tokens full_context;
                 summary_updated := true |}, store')
    end
  else
    Some ({| packed_context := full_context;
             packed_summary := summary;
             packed_last_k_turns := map to_turn recent_messages;
             token_count := token_count';
             summary_updated := false |}, store).

(** ** Authorization ([verify_auth] of [api/routers/chat.py]) *)

Inductive AuthResult :=
| Authorized
| HTTPException (status_code : Z) (detail : string).

(** [if x:] for an optional string: neither [None] nor empty. *)
Definition given (x : option string) : bool :=
  match x with Some s => truthy s | None => false end.

Definition expected_token : string := "devkey".

(** The test made on a header that is given. *)
Definition bearer_ok (authorization : string) : bool :=
  match split_ws authorization with
  | [scheme; credentials] =>
      String.eqb (lower scheme) "bearer"
      && String.eqb credentials expected_token
  | _ => false
  end.

Definition verify_auth (authorization token : option string) : AuthResult :=
  if match authorization with
     | Some a => truthy a && bearer_ok a
     | None => false
     end
  then Authorized
  else if match token with
          | Some t => String.eqb t expected_token
          | None => false
          end
  then Authorized
  else if negb (given authorization) && negb (given token)
  then HTTPException 401 "Missing authorization header or token parameter"
  else HTTPException 401 "Invalid token".

(** ** The mock text generator ([orchestration/llm/mock.py]) *)

Definition mock_summary : string :=
  "Here's a summary of the key points discussed: The conversation covered multiple topics with detailed analysis. Main findings include successful execution of tasks and validation of results.".

Definition mock_plan : string :=
  "I'll break this down into steps: 1) Analyze the requirements, 2) Gather necessary data, 3) Process and validate information.".

Definition mock_validation : string :=
  "Validation complete. All checks passed successfully. The output meets quality standards.".

(** [MockLLM.generate]; the other arguments are ignored. *)
Definition MockLLM_generate (prompt : string) : string :=
  let prompt_lower := lower prompt in
  if contains "summarize" prompt_lower || contains "summary" prompt_lower
  then mock_summary
  else if contains "plan" prompt_lower || contains "steps" prompt_lower
  then mock_plan
  else if contains "validate" prompt_lower || contains "check" prompt_lower
  then mock_validation
  else "Mock response to: " ++ slice_to 50 prompt
       ++ "... The analysis has been completed with relevant findings.".

(** [MockLLM.stream]: the tokens yielded, in order. *)
Definition MockLLM_stream (prompt : string) : list string :=
  map (fun token => token ++ " ") (split_ws (MockLLM_generate prompt)).

(** [MockLLM.count_tokens] *)
Definition count_tokens (text : string) : nat := length (split_ws text).

(** The client that [create_llm_client] makes for the provider [mock],
    the default one: its [generate] is the mock's. *)
Definition mock_client : LLMClient :=
  fun prompt _ _ => Generated (MockLLM_generate prompt).

(** ** More of the memory store ([orchestration/memory/store.py]) *)

(** [save_message]: the document inserted, stamped with the time [now].
    (The keys [metadata] and [createdAt] and the identifier returned are
    not part of [Message].) *)
Definition save_message (store : MemoryStore)
           (session_id user_id role content' : string) (now : Q)
  : MemoryStore :=
  {| messages_collection :=
       (messages_collection store
          ++ [{| msg_sessionId := session_id; msg_userId := user_id;
                 msg_role := Some role; msg_content := Some content';
                 msg_timestamp := now |}])%list;
     sessions_collection := sessions_collection store |}.

(** [get_or_create_session]: the session found, or a new one without
    summary, inserted.  (The keys [createdAt] and [updatedAt] are not
    part of [Session].) *)
Definition get_or_create_session (store : MemoryStore)
           (session_id user_id : string) : Session * MemoryStore :=
  match find_session store session_id with
  | Some session => (session, store)
  | None =>
      let session := {| s_sessionId := session_id; s_userId := user_id;
                        s_summary := None |} in
      (session,
       {| messages_collection := messages_collection store;
          sessions_collection :=
            (sessions_collection store ++ [session])%list |})
  end.

(** ** The connection to the database ([db/client.py]) *)

(** The client object: [client] and [db] are handles of the driver, here
    the connection string and the database name they were made from. *)
Record DatabaseClient := {
  dbc_client : option string;
  dbc_db : option string;
  dbc_connected : bool
}.

Definition new_database_client : DatabaseClient :=
  {| dbc_client := None; dbc_db := None; dbc_connected := false |}.

(** What the driver does in a call of [connect]: the client is made and
    the test command succeeds, or the test command raises, or making the
    client raises. *)
Inductive ConnectOutcome :=
| Connects
| PingFails
| ClientFails.

(** [connect(connection_string, database_name)], the defaults of the
    environment being resolved by the caller.  The result is the client
    and whether the call raised. *)
Definition connect (c : DatabaseClient)
           (connection_string database_name : string)
           (outcome : ConnectOutcome) : DatabaseClient * bool :=
  if dbc_connected c then (c, false)
  else match outcome with
       | Connects =>
           ({| dbc_client := Some connection_string;
               dbc_db := Some database_name;
               dbc_connected := true |}, false)
       | PingFails =>
           ({| dbc_client := Some connection_string;
               dbc_db := Some database_name;
               dbc_connected := dbc_connected c |}, true)
       | ClientFails => (c, true)
       end.

Definition disconnect (c : DatabaseClient) : DatabaseClient :=
  match dbc_client c with
  | Some _ =>
      if dbc_connected c
      then {| dbc_client := dbc_client c; dbc_db := dbc_db c;
              dbc_connected := false |}
      else c
  | None => c
  end.

(** [get_database]: the database, or [None] for the [RuntimeError]. *)
Definition get_database (c : DatabaseClient) : option string :=
  if negb (dbc_connected c) || match dbc_db c with None => true | _ => false end
  then None else dbc_db c.

Definition is_connected (c : DatabaseClient) : bool := dbc_connected c.

(** [health_check]: the test command is sent only when connected. *)
Definition health_check (c : DatabaseClient) (ping : bool) : bool :=
  if negb (dbc_connected c) then false else ping.

(** The operations a caller may apply to the client. *)
Inductive ClientOp :=
| OpConnect (connection_string database_name : string)
            (outcome : ConnectOutcome)
| OpDisconnect.

Definition apply_op (c : DatabaseClient) (op : ClientOp) : DatabaseClient :=
  match op with
  | OpConnect cs name outcome => fst (connect c cs name outcome)
  | OpDisconnect => disconnect c
  end.

(** ** Running the graph with a callback ([run_agent_graph]) *)

(** The body of the loop: the callback, when there is one, is called with
    the event type [agent] and the name of the node; [calls] records its
    calls. *)
Definition run_callback (stream_callback : bool)
           (acc : AgentState * list (string * string))
           (event : AgentName * AgentState)
  : M (AgentState * list (string * string)) :=
  let '(node_name, updated_state) := event in
  ret (updated_state,
       if stream_callback
       then (snd acc ++ [("agent", agent_name node_name)])%list
       else snd acc).

(** [run_agent_graph]: the final state, with the calls made to the
    callback and how the stream ended. *)
Definition run_agent_graph (state : AgentState) (stream_callback : bool)
  : M (AgentState * list (string * string) * StreamEnd) :=
  astream (run_callback stream_callback) state (state, []).

(** ** Definitions used to state the properties *)

(** The order of two messages by their timestamps. *)
Definition not_after (a b : Message) : Prop :=
  (msg_timestamp a <= msg_timestamp b)%Q.

(** The message that [save_message] inserts. *)
Definition saved_message (session_id user_id role content' : string) (now : Q)
  : Message :=
  {| msg_sessionId := session_id; msg_userId := user_id;
     msg_role := Some role; msg_content := Some content';
     msg_timestamp := now |}.

Fixpoint all_nonspace (s : string) : bool :=
  match s with
  | EmptyString => true
  | String c s' => negb (isspace c) && all_nonspace s'
  end.

(** A unit of output: not empty, no whitespace in it. *)
Definition is_unit (u : string) : Prop :=
  is_empty u = false /\ all_nonspace u = true.

(** The concatenation of a list of texts, in order. *)
Definition concat_texts (texts : list string) : string :=
  fold_right String.append EmptyString texts.

(** The fields that the stages other than the one named do not write, and
    the clock, which no stage changes. *)
Record Untouched (state state' : AgentState) (w w' : World) : Prop := {
  same_request_start : request_start state' = request_start state;
  same_first_token_at : first_token_at state' = first_token_at state;
  same_prompt : user_prompt state' = user_prompt state;
  same_clock : clock w' = clock w
}.

(** The four stages in a row, the body of the caller's loop after each. *)
Definition four_stages {S : Type}
           (consume : S -> AgentName * AgentState -> M S)
           (state : AgentState) (acc : S) : M (S * StreamEnd) :=
  s1 <- planner_node state ;;
  a1 <- consume acc (planner, s1) ;;
  s2 <- worker_node s1 ;;
  a2 <- consume a1 (worker, s2) ;;
  s3 <- critic_node s2 ;;
  a3 <- consume a2 (critic, s3) ;;
  s4 <- synthesizer_node s3 ;;
  a4 <- consume a3 (synthesizer, s4) ;;
  ret (a4, Finished).

Module RetryExample.

(** A text generator that plans one subtask foreign to the prompt. *)
Definition llm : LLMClient :=
  fun prompt _ _ =>
    if startswith prompt "You are a planning"
    then Generated ("SUBTASKS:" ++ nl ++ "1. Gather relevant information")
    else Generated ("ANSWER: Hello  there world" ++ nl ++ "SUGGESTIONS:"
                      ++ nl ++ "1. Ask me more things").

Definition db : DBTools := fun _ _ => Raised "store unreachable".

(** A clock that advances by one second at each reading. *)
Definition world : World :=
  {| clock := fun n => inject_Z (Z.of_nat n); ticks := 0; finds := 0 |}.

(** The request: the prompt [Greetings] in an empty session. *)
Definition initial : AgentState * World :=
  create_initial_state "s1" "u1" "Greetings" "ctx" None [] (Some llm) db world.

Definition events : list (AgentName * AgentState) :=
  fst (fst (graph_events (fst initial) (snd initial))).

(** The stream of that request, its writes succeeding. *)
Definition stream : list SSE :=
  fst (stream_chat_response "s1" "u1" "Greetings" "ctx" None [] (Some llm) db
                            None world).

End RetryExample.

Definition token_of_unit (u : string) : SSE := token (u ++ " ").

(** The texts of the [token] events of a stream, in order. *)
Definition token_texts (events : list SSE) : list string :=
  flat_map (fun e => match e with token text => [text] | _ => [] end) events.

Definition is_done (e : SSE) : bool :=
  match e with done _ _ _ => true | _ => false end.

(** The events before the terminal one, as [stream_shape] gives them. *)
Definition progress_events (tcs : list ToolCall) (units : list string)
  : list SSE :=
  ([agent_event "planner"; agent_event "worker"]
     ++ tool_call_events tcs
     ++ [agent_event "critic"; agent_event "synthesizer"]
     ++ map token_of_unit units)%list.

(** The finding and the log entry of a query that returned, and the
    finding of one that raised. *)
Definition retrieved_finding (task : string) (result : FindResult) : Finding :=
  {| f_task := task;
     f_result := "Retrieved " ++ str_of_Z (get_count result)
                 ++ " messages from conversation history";
     f_data := DataDocs (get_data result) |}.

Definition logged_call (session_id : string) (result : FindResult)
           (latency now : Q) : ToolCall :=
  {| tc_tool := "db.find";
     tc_args := find_args session_id;
     tc_result := result;
     tc_latency_ms := latency;
     tc_timestamp := now |}.

Definition error_finding (task err : string) : Finding :=
  {| f_task := task;
     f_result := "Error fetching data: " ++ err;
     f_data := DataDocs [] |}.

Module QueryFailure.

(** A plan of one subtask, which needs the store. *)
Definition llm : LLMClient :=
  fun prompt _ _ =>
    if startswith prompt "You are a planning"
    then Generated ("SUBTASKS:" ++ nl ++ "1. fetch relevant history")
    else GenRaised "no answer".

(** A store whose driver raises at every query. *)
Definition db : DBTools :=
  DBTools_find (fun _ _ => (DriverError "connection refused", 3%Q)).

Definition planned : AgentState * World :=
  (s0 <- create_initial_state "s1" "u1" "Greetings" "ctx" None []
                              (Some llm) db ;;
   planner_node s0) RetryExample.world.

Definition executed : AgentState * World :=
  worker_node (fst planned) (snd planned).

End QueryFailure.

Module RetryPass.

(** A store that holds one more message at each query. *)
Definition stored : Message :=
  {| msg_sessionId := "s1"; msg_userId := "u1"; msg_role := Some "user";
     msg_content := Some "Greetings"; msg_timestamp := 0%Q |}.

Definition db : DBTools :=
  DBTools_find (fun _ n => (Docs (repeat stored n), 5%Q)).

(** The state after a first pass whose validation failed. *)
Definition before : AgentState * World :=
  (s0 <- create_initial_state "s1" "u1" "Greetings" "ctx" None []
                              (Some QueryFailure.llm) db ;;
   s1 <- planner_node s0 ;;
   s2 <- worker_node s1 ;;
   critic_node s2) RetryExample.world.

(** A second pass of the Executor from that state. *)
Definition after : AgentState * World :=
  worker_node (fst before) (snd before).

End RetryPass.

Module PlanExample.

(** A response with four numbered subtasks. *)
Definition four_items : LLMClient :=
  fun _ _ _ =>
    Generated ("SUBTASKS:" ++ nl
               ++ "1. Identify the topic of the request" ++ nl
               ++ "2. Collect the relevant facts" ++ nl
               ++ "3. Compare the alternatives" ++ nl
               ++ "4. Draft the final response" ++ nl
               ++ "DATA_PLAN:" ++ nl
               ++ "No database access needed").

Definition failing : LLMClient := fun _ _ _ => GenRaised "timeout".

Definition planned (llm : LLMClient) (prompt : string) : AgentState :=
  fst ((s0 <- create_initial_state "s1" "u1" prompt "ctx" None []
                                   (Some llm) RetryExample.db ;;
        planner_node s0) RetryExample.world).

End PlanExample.

Module ShortSession.

Definition turn (i : nat) (role content' : string) : Message :=
  {| msg_sessionId := "s1"; msg_userId := "u1"; msg_role := Some role;
     msg_content := Some content'; msg_timestamp := inject_Z (Z.of_nat i) |}.

(** Three turns, stored out of order, and no summary. *)
Definition store : MemoryStore :=
  {| messages_collection :=
       [turn 2 "user" "What is my name?"; turn 0 "user" "My name is Ada.";
        turn 1 "assistant" "Hello Ada."];
     sessions_collection := [] |}.

End ShortSession.

Module LongSession.

(** 1260 characters. *)
Definition long_text : string :=
  concat_texts (repeat "all work and no play " 60).

Definition turn (i : nat) : Message :=
  {| msg_sessionId := "s1";
     msg_userId := "u1";
     msg_role := Some (if Nat.even i then "user" else "assistant");
     msg_content := Some long_text;
     msg_timestamp := inject_Z (Z.of_nat i) |}.

(** A session of fifteen turns with a summary. *)
Definition store : MemoryStore :=
  {| messages_collection := map turn (seq 0 15);
     sessions_collection :=
       [{| s_sessionId := "s1"; s_userId := "u1";
           s_summary := Some "Old summary" |}] |}.

Definition packed : option (PackedContext * MemoryStore) :=
  pack_context DEFAULT_SHORT_TERM_K DEFAULT_TOKEN_BUDGET store
               "s1" "u1" "And now?".

End LongSession.

(** The states that the four stages return in a run from [state] in the
    world [w], and the world after the last. *)
Record Run := {
  run_planned : AgentState;
  run_executed : AgentState;
  run_validated : AgentState;
  run_composed : AgentState;
  run_world : World
}.

Definition run_of (state : AgentState) (w : World) : Run :=
  let p := planner_node state w in
  let e := worker_node (fst p) (snd p) in
  let v := critic_node (fst e) (snd e) in
  let c := synthesizer_node (fst v) (snd v) in
  {| run_planned := fst p;
     run_executed := fst e;
     run_validated := fst v;
     run_composed := fst c;
     run_world := snd c |}.

Definition is_error (e : SSE) : bool :=
  match e with error_event _ => true | _ => false end.

(** The [ok] flags of the completed tool calls of a stream, in order. *)
Definition completed_flags (events : list SSE) : list bool :=
  flat_map (fun e => match e with
                     | tool_call_completed _ ok _ => [ok]
                     | _ => []
                     end) events.

Definition status_ok (tc : ToolCall) : Prop := status (tc_result tc) = "ok".

(** A blank text: nothing but whitespace. *)
Fixpoint all_space (s : string) : bool :=
  match s with
  | EmptyString => true
  | String c s' => isspace c && all_space s'
  end.

(** The keywords of a prompt that the Validator looks for. *)
Definition prompt_keywords (user_prompt : string) : list string :=
  nodup string_dec (firstn 5 (split_ws (lower user_prompt))).

(** A clock that never goes back. *)
Definition monotone (clock : nat -> Q) : Prop :=
  forall i j, i <= j -> (clock i <= clock j)%Q.

(** * Properties *)

(** ** Python strings, on examples *)

Example split_ws_ex :
  split_ws "  Hello   world " = ["Hello"; "world"].
Proof. reflexivity. Qed.

Example split_once_ex :
  split_once "." "1. Do a. b" = ["1"; " Do a. b"].
Proof. reflexivity. Qed.

Example str_of_nat_ex : str_of_nat 12 = "12" /\ str_of_nat 0 = "0".
Proof. split; reflexivity. Qed.

Example strip_ex : strip "  a b  " = "a b".
Proof. reflexivity. Qed.

(** ** The stages, on examples *)

Example parse_plan_ex :
  parse_plan ("Subtasks:" ++ nl ++ "1. Gather relevant information" ++ nl
              ++ "2. abc" ++ nl ++ "- Check the records" ++ nl
              ++ "Data plan: none needed" ++ nl ++ "for now")
  = (["Gather relevant information"; "Check the records"],
     "none needed for now").
Proof. reflexivity. Qed.

Example parse_answer_ex :
  parse_answer ("Answer: It is Ada." ++ nl ++ "You told me so." ++ nl ++ nl
                ++ "Suggestions:" ++ nl ++ "1. Ask about the weather" ++ nl
                ++ "- ok")
  = ("It is Ada. You told me so.", ["Ask about the weather"]).
Proof. reflexivity. Qed.

(** A query that returns no document: one finding and one log entry, sent
    as a started and a completed event. *)
Example executor_query_ex :
  map f_result (worker_findings (fst RetryPass.before))
  = ["Retrieved 0 messages from conversation history"]
  /\ tool_call_events (tool_calls (fst RetryPass.before))
     = [tool_call_started "db.find" (find_args "s1");
        tool_call_completed "db.find" true 5%Q].
Proof. split; vm_compute; reflexivity. Qed.

Example estimate_tokens_ex :
  estimate_tokens "" = 0 /\ estimate_tokens "abcd" = 1
  /\ estimate_tokens "abcde" = 2.
Proof. repeat split. Qed.

(** The context of a short session: the turns by timestamp, no summary. *)
Example pack_context_ex :
  option_map (fun r => packed_context (fst r))
             (pack_context 10 3000 ShortSession.store "s1" "u1" "And now?")
  = Some (system_meta ++ nl ++ nl ++ "[Recent Conversation]" ++ nl
          ++ "USER: My name is Ada." ++ nl
          ++ "ASSISTANT: Hello Ada." ++ nl
          ++ "USER: What is my name?" ++ nl ++ nl
          ++ "[Current Request]" ++ nl ++ "USER: And now?").
Proof. vm_compute. reflexivity. Qed.

(** The branch of the re-summarization is entered when [K] is 0, the
    store then returning every message: the new summary is persisted, and
    it takes the place of the second part of the context. *)
Example pack_context_without_limit_ex :
  option_map (fun r => (summary_updated (fst r), packed_summary (fst r),
                        get_session_summary (snd r) "s1"))
             (pack_context 0 0 ShortSession.store "s1" "u1" "And now?")
  = let summary :=
      "Conversation history: 3 total messages | "
      ++ "User asked about: 2 topics | "
      ++ "Assistant provided: 1 responses | "
      ++ "Initial topic: My name is Ada.... | "
      ++ "Recent topic: What is my name?..." in
    Some (true, Some summary, Some summary).
Proof. vm_compute. reflexivity. Qed.

(** ** Splitting on whitespace *)

Lemma append_empty_r (s : string) : s ++ "" = s.
Proof. induction s as [|c s IH]; simpl; [reflexivity | now rewrite IH]. Qed.

Lemma append_assoc (a b c : string) : (a ++ b) ++ c = a ++ (b ++ c).
Proof. induction a as [|x a IH]; simpl; [reflexivity | now rewrite IH]. Qed.

Lemma rev_acc_twice (s a b : string) :
  rev_acc (rev_acc s a) b = rev_acc a (s ++ b).
Proof.
  revert a b. induction s as [|c s IH]; intros a b; simpl.
  - reflexivity.
  - rewrite IH. reflexivity.
Qed.

Lemma rev_involutive (s : string) : rev (rev s) = s.
Proof.
  unfold rev. rewrite rev_acc_twice. simpl. apply append_empty_r.
Qed.

Lemma rev_acc_is_empty (s acc : string) :
  is_empty (rev_acc s acc) = is_empty s && is_empty acc.
Proof.
  revert acc. induction s as [|c s IH]; intros acc; simpl.
  - reflexivity.
  - rewrite IH. simpl. apply andb_false_r.
Qed.

Lemma rev_acc_nonspace (s acc : string) :
  all_nonspace (rev_acc s acc) = all_nonspace s && all_nonspace acc.
Proof.
  revert acc. induction s as [|c s IH]; intros acc; simpl.
  - reflexivity.
  - rewrite IH. simpl.
    destruct (isspace c), (all_nonspace s), (all_nonspace acc); reflexivity.
Qed.

Lemma rev_is_unit (cur : string) :
  is_empty cur = false -> all_nonspace cur = true -> is_unit (rev cur).
Proof.
  intros Hne Hns. unfold is_unit, rev.
  rewrite rev_acc_is_empty, rev_acc_nonspace, Hne, Hns. split; reflexivity.
Qed.

(** Every unit that [split] returns is a unit. *)
Lemma split_ws_from_units (s cur : string) :
  all_nonspace cur = true -> Forall is_unit (split_ws_from cur s).
Proof.
  revert cur. induction s as [|c s IH]; intros cur Hcur; simpl.
  - destruct (is_empty cur) eqn:E; constructor; [|constructor].
    now apply rev_is_unit.
  - destruct (isspace c) eqn:Ec.
    + destruct (is_empty cur) eqn:E.
      * now apply IH.
      * constructor; [now apply rev_is_unit | now apply IH].
    + apply IH. simpl. now rewrite Ec, Hcur.
Qed.

Lemma split_ws_units (s : string) : Forall is_unit (split_ws s).
Proof. now apply split_ws_from_units. Qed.

(** Reading a unit only extends the unit being read. *)
Lemma split_ws_from_unit_prefix (u cur s : string) :
  all_nonspace u = true ->
  split_ws_from cur (u ++ s) = split_ws_from (rev_acc u cur) s.
Proof.
  revert cur. induction u as [|c u IH]; intros cur Hu; simpl in *.
  - reflexivity.
  - apply andb_true_iff in Hu as [Hc Hu].
    apply negb_true_iff in Hc. rewrite Hc. now apply IH.
Qed.

(** Splitting the units put back together, a space after each, gives the
    units. *)
Lemma split_ws_spaced (units : list string) :
  Forall is_unit units ->
  split_ws (concat_texts (map (fun u => u ++ " ") units)) = units.
Proof.
  induction 1 as [|u units [Hne Hns] _ IH]; simpl.
  - reflexivity.
  - unfold split_ws. rewrite append_assoc.
    rewrite split_ws_from_unit_prefix by assumption.
    simpl. fold (rev u).
    assert (E : is_empty (rev u) = false).
    { unfold rev. rewrite rev_acc_is_empty, Hne. reflexivity. }
    rewrite E, rev_involutive. f_equal. exact IH.
Qed.

(** No unit is found in the empty text. *)
Lemma contains_in_empty (kw : string) : contains kw "" = is_empty kw.
Proof. destruct kw; reflexivity. Qed.

(** ** The Validator's feedback *)

Lemma in_firstn {A} (n : nat) (l : list A) (x : A) :
  In x (firstn n l) -> In x l.
Proof.
  revert l. induction n as [|n IH]; intros [|y l]; simpl; try tauto.
  intros [E | Hin]; [now left | right; now apply IH].
Qed.

Lemma filter_none {A} (f : A -> bool) (l : list A) :
  (forall x, In x l -> f x = false) -> filter f l = [].
Proof.
  induction l as [|y l IH]; intros H; simpl.
  - reflexivity.
  - rewrite (H y) by (left; reflexivity).
    apply IH. intros x Hx. apply H. now right.
Qed.

(** Without findings no keyword of the prompt is found: the text searched
    is empty and no keyword is. *)
Lemma relevance_of_no_findings (user_prompt : string) :
  relevance_score user_prompt [] = 0.
Proof.
  unfold relevance_score.
  change (lower (join " " (map f_result []))) with EmptyString.
  rewrite filter_none; [reflexivity|].
  intros kw Hkw. rewrite contains_in_empty.
  apply nodup_In, in_firstn in Hkw.
  pose proof (split_ws_units (lower user_prompt)) as Hunits.
  rewrite Forall_forall in Hunits. now destruct (Hunits kw Hkw).
Qed.

Lemma failed_tools_of_none : failed_tools [] = [].
Proof. reflexivity. Qed.

(** C10: the feedback of the Validator is the message of the last failing
    check in the order of the checks (no findings, then failed tool calls,
    then relevance), [passed] being false as soon as one check fails; and
    without findings the relevance check fails too, so that the feedback is
    the relevance message and not the no-findings message, whatever the
    tool calls and the prompt. *)
Theorem C10_feedback_is_last_failing_check :
  (forall (worker_findings : list Finding) (tool_calls : list ToolCall)
          (user_prompt : string),
      critic_checks worker_findings tool_calls user_prompt =
      if relevance_score user_prompt worker_findings =? 0
      then (false, msg_not_relevant)
      else if negb (is_nil (failed_tools tool_calls))
           then (false, msg_tool_failures (length (failed_tools tool_calls)))
           else if is_nil worker_findings
                then (false, msg_no_findings)
                else (true, msg_validated))
  /\ (forall (tool_calls : list ToolCall) (user_prompt : string),
         relevance_score user_prompt [] = 0
         /\ critic_checks [] tool_calls user_prompt = (false, msg_not_relevant))
  /\ msg_not_relevant <> msg_no_findings
  /\ (forall (state : AgentState) (w : World),
         critic_passed (fst (critic_node state w))
         = fst (critic_checks (worker_findings state) (tool_calls state)
                              (user_prompt state))
         /\ critic_feedback (fst (critic_node state w))
            = snd (critic_checks (worker_findings state) (tool_calls state)
                                 (user_prompt state))).
Proof.
  split; [|split; [|split]].
  - intros fs tcs p. unfold critic_checks.
    destruct (relevance_score p fs =? 0); [reflexivity|].
    destruct tcs as [|tc tcs]; [reflexivity|].
    cbn [is_nil negb].
    destruct (is_nil (failed_tools (tc :: tcs))); reflexivity.
  - intros tcs p. split; [apply relevance_of_no_findings|].
    unfold critic_checks. now rewrite relevance_of_no_findings.
  - discriminate.
  - intros st w. unfold critic_node, bind, time_time, ret. cbn [fst snd].
    destruct (critic_checks (worker_findings st) (tool_calls st) (user_prompt st))
      as [passed feedback].
    split; reflexivity.
Qed.

(** ** What each stage leaves untouched *)

Lemma planner_untouched (state : AgentState) (w : World) :
  Untouched state (fst (planner_node state w)) w (snd (planner_node state w))
  /\ retry_count (fst (planner_node state w)) = retry_count state
  /\ tool_calls (fst (planner_node state w)) = tool_calls state
  /\ worker_findings (fst (planner_node state w)) = worker_findings state.
Proof.
  unfold planner_node, bind, time_time, ret.
  destruct (make_plan (llm_client state) (user_prompt state) (context state)).
  cbn. repeat split.
Qed.

Lemma critic_untouched (state : AgentState) (w : World) :
  Untouched state (fst (critic_node state w)) w (snd (critic_node state w))
  /\ tool_calls (fst (critic_node state w)) = tool_calls state
  /\ worker_findings (fst (critic_node state w)) = worker_findings state.
Proof.
  unfold critic_node, bind, time_time, ret.
  destruct (critic_checks (worker_findings state) (tool_calls state)
                          (user_prompt state)).
  cbn. repeat split.
Qed.

Lemma synthesizer_untouched (state : AgentState) (w : World) :
  Untouched state (fst (synthesizer_node state w)) w
            (snd (synthesizer_node state w))
  /\ retry_count (fst (synthesizer_node state w)) = retry_count state
  /\ tool_calls (fst (synthesizer_node state w)) = tool_calls state
  /\ worker_findings (fst (synthesizer_node state w)) = worker_findings state.
Proof.
  unfold synthesizer_node, bind, time_time, ret.
  destruct (synthesize (llm_client state) state).
  cbn. repeat split.
Qed.

Lemma worker_task_clock session_id db acc task (w : World) :
  clock (snd (worker_task session_id db acc task w)) = clock w.
Proof.
  unfold worker_task, bind, time_time, call_find, ret.
  destruct acc as [fs tcs].
  destruct (needs_db_access task); [|reflexivity].
  cbn. destruct (db _ _); reflexivity.
Qed.

Lemma worker_loop_clock session_id db tasks :
  forall acc (w : World),
    clock (snd (worker_loop session_id db acc tasks w)) = clock w.
Proof.
  induction tasks as [|task rest IH]; intros acc w; simpl.
  - reflexivity.
  - unfold bind.
    destruct (worker_task session_id db acc task w) as [acc' w'] eqn:E.
    rewrite IH. change w' with (snd (acc', w')). rewrite <- E.
    apply worker_task_clock.
Qed.

Lemma worker_untouched (state : AgentState) (w : World) :
  Untouched state (fst (worker_node state w)) w (snd (worker_node state w))
  /\ retry_count (fst (worker_node state w)) = retry_count state.
Proof.
  unfold worker_node, bind, time_time, ret.
  match goal with
  | |- context [worker_loop ?s ?d ?a ?t ?w0] =>
      pose proof (worker_loop_clock s d t a w0) as Hc;
      destruct (worker_loop s d a t w0) as [[fs tcs] w1]
  end.
  cbn in *. repeat split; assumption.
Qed.

(** The Validator adds one to [retry_count] exactly when it fails. *)
Lemma critic_node_retry_count (state : AgentState) (w : World) :
  retry_count (fst (critic_node state w))
  = if critic_passed (fst (critic_node state w))
    then retry_count state else (retry_count state + 1)%Z.
Proof.
  unfold critic_node, bind, time_time, ret.
  destruct (critic_checks (worker_findings state) (tool_calls state)
                          (user_prompt state)) as [passed feedback].
  cbn. destruct passed; reflexivity.
Qed.

(** The conditional edge is read on the state the Validator returns: after
    a failure the count is already above zero, so the edge goes on to the
    Composer. *)
Lemma should_retry_after_critic (state : AgentState) (w : World) :
  (0 <= retry_count state)%Z ->
  should_retry (fst (critic_node state w)) = synthesizer.
Proof.
  intros Hrc. unfold should_retry.
  rewrite critic_node_retry_count.
  destruct (critic_passed (fst (critic_node state w))); [reflexivity|].
  cbn [negb andb].
  destruct (Z.ltb_spec (retry_count state + 1) 1); [lia | reflexivity].
Qed.

(** ** The run of the graph *)

Lemma astream_from_step {S : Type}
      (consume : S -> AgentName * AgentState -> M S)
      (fuel : nat) (n : AgentName) (state : AgentState) (acc : S) (w : World) :
  astream_from consume (Datatypes.S fuel) n state acc w
  = let (updated, w1) := run_node n state w in
    let (acc', w2) := consume acc (n, updated) w1 in
    match next_node n updated with
    | None => ((acc', Finished), w2)
    | Some n' => astream_from consume fuel n' updated acc' w2
    end.
Proof.
  cbn [astream_from]. unfold bind, ret.
  destruct (run_node n state w) as [updated w1].
  destruct (consume acc (n, updated) w1) as [acc' w2].
  destruct (next_node n updated); reflexivity.
Qed.

(** From a state whose count is not negative, a run of the graph is the
    four stages in a row, whatever the outcome of the validation: the
    Executor runs once. *)
Lemma astream_is_four_stages {S : Type}
      (consume : S -> AgentName * AgentState -> M S)
      (state : AgentState) (acc : S) (w : World) :
  (0 <= retry_count state)%Z ->
  astream consume state acc w = four_stages consume state acc w.
Proof.
  intros Hrc. unfold astream, recursion_limit, four_stages, bind, ret.
  rewrite astream_from_step. cbn [run_node next_node].
  pose proof (planner_untouched state w) as (_ & Hp & _).
  destruct (planner_node state w) as [s1 w1]. cbn [fst] in Hp.
  destruct (consume acc (planner, s1) w1) as [a1 w1'].
  rewrite astream_from_step. cbn [run_node next_node].
  pose proof (worker_untouched s1 w1') as (_ & Hw).
  destruct (worker_node s1 w1') as [s2 w2]. cbn [fst] in Hw.
  destruct (consume a1 (worker, s2) w2) as [a2 w2'].
  rewrite astream_from_step. cbn [run_node next_node].
  assert (Hs2 : (0 <= retry_count s2)%Z) by (rewrite Hw, Hp; exact Hrc).
  pose proof (should_retry_after_critic s2 w2' Hs2) as Hedge.
  destruct (critic_node s2 w2') as [s3 w3]. cbn [fst] in Hedge.
  destruct (consume a2 (critic, s3) w3) as [a3 w3'].
  rewrite Hedge, astream_from_step. cbn [run_node next_node].
  destruct (synthesizer_node s3 w3') as [s4 w4].
  destruct (consume a3 (synthesizer, s4) w4) as [a4 w4'].
  reflexivity.
Qed.

Lemma graph_events_four (state : AgentState) (w : World) :
  (0 <= retry_count state)%Z ->
  fst (graph_events state w)
  = (let s1 := fst (planner_node state w) in
     let w1 := snd (planner_node state w) in
     let s2 := fst (worker_node s1 w1) in
     let w2 := snd (worker_node s1 w1) in
     let s3 := fst (critic_node s2 w2) in
     let w3 := snd (critic_node s2 w2) in
     let s4 := fst (synthesizer_node s3 w3) in
     ([(planner, s1); (worker, s2); (critic, s3); (synthesizer, s4)],
      Finished)).
Proof.
  intros Hrc. unfold graph_events.
  rewrite astream_is_four_stages by assumption.
  unfold four_stages, collect, bind, ret. cbn zeta.
  destruct (planner_node state w) as [s1 w1]. cbn [fst snd].
  destruct (worker_node s1 w1) as [s2 w2]. cbn [fst snd].
  destruct (critic_node s2 w2) as [s3 w3]. cbn [fst snd].
  destruct (synthesizer_node s3 w3) as [s4 w4].
  reflexivity.
Qed.

(** ** The retry edge *)

(** C1: the conditional edge goes back to the Executor exactly when the
    validation failed and [retry_count] is below one at the moment the edge
    is read.  That moment is after the Validator has added one to the
    count, so the edge is never taken: for every request the stages run
    are the Planner, the Executor, the Validator and the Composer, the
    Executor once; so it is for the request [RetryExample], whose first
    validation fails and leaves the count at one. *)
Theorem C1_failed_validation_is_not_retried :
  (forall state : AgentState,
      should_retry state = worker
      <-> critic_passed state = false /\ (retry_count state < 1)%Z)
  /\ (forall session_id user_id prompt context summary turns llm db w,
         let initial := create_initial_state session_id user_id prompt context
                                             summary turns llm db w in
         map fst (fst (fst (graph_events (fst initial) (snd initial))))
         = [planner; worker; critic; synthesizer])
  /\ map (fun ev => (fst ev, critic_passed (snd ev), retry_count (snd ev)))
         RetryExample.events
     = [(planner, false, 0%Z); (worker, false, 0%Z);
        (critic, false, 1%Z); (synthesizer, false, 1%Z)].
Proof.
  split; [|split].
  - intros state. unfold should_retry.
    destruct (critic_passed state); cbn [negb andb].
    + split; [discriminate | intros [H _]; discriminate].
    + destruct (Z.ltb_spec (retry_count state) 1).
      * split; auto.
      * split; [discriminate | intros [_ H']; lia].
  - intros. subst initial.
    rewrite graph_events_four by (cbn; lia).
    reflexivity.
  - vm_compute. reflexivity.
Qed.

(** C5: [retry_count] is 0 in the initial state and 0 or 1 in the state of
    every event of a run; it is 0 up to the Validator and from there on 1
    exactly when the validation failed, so it goes from 0 to 1 at most
    once; and only the Validator writes it, adding one exactly when it
    fails. *)
Theorem C5_retry_count_is_zero_or_one :
  (forall session_id user_id prompt context summary turns llm db w,
      let initial := create_initial_state session_id user_id prompt context
                                          summary turns llm db w in
      retry_count (fst initial) = 0%Z
      /\ exists s1 s2 s3 s4,
          fst (graph_events (fst initial) (snd initial))
          = ([(planner, s1); (worker, s2); (critic, s3); (synthesizer, s4)],
             Finished)
          /\ retry_count s1 = 0%Z
          /\ retry_count s2 = 0%Z
          /\ retry_count s3 = (if critic_passed s3 then 0%Z else 1%Z)
          /\ retry_count s4 = retry_count s3
          /\ Forall (fun ev => retry_count (snd ev) = 0%Z
                               \/ retry_count (snd ev) = 1%Z)
                    [(planner, s1); (worker, s2); (critic, s3);
                     (synthesizer, s4)])
  /\ (forall state w,
         retry_count (fst (planner_node state w)) = retry_count state
         /\ retry_count (fst (worker_node state w)) = retry_count state
         /\ retry_count (fst (synthesizer_node state w)) = retry_count state
         /\ retry_count (fst (critic_node state w))
            = if critic_passed (fst (critic_node state w))
              then retry_count state else (retry_count state + 1)%Z).
Proof.
  split.
  - intros. subst initial. split; [reflexivity|].
    set (st0 := fst (create_initial_state _ _ _ _ _ _ _ _ _)).
    set (w0 := snd (create_initial_state _ _ _ _ _ _ _ _ _)).
    assert (H0 : retry_count st0 = 0%Z) by reflexivity.
    rewrite graph_events_four by (rewrite H0; lia). cbn zeta.
    set (s1 := fst (planner_node st0 w0)).
    set (w1 := snd (planner_node st0 w0)).
    set (s2 := fst (worker_node s1 w1)).
    set (w2 := snd (worker_node s1 w1)).
    set (s3 := fst (critic_node s2 w2)).
    set (w3 := snd (critic_node s2 w2)).
    set (s4 := fst (synthesizer_node s3 w3)).
    exists s1, s2, s3, s4.
    assert (H1 : retry_count s1 = 0%Z).
    { subst s1. now rewrite (proj1 (proj2 (planner_untouched st0 w0))). }
    assert (H2 : retry_count s2 = 0%Z).
    { subst s2. now rewrite (proj2 (worker_untouched s1 w1)). }
    assert (H3 : retry_count s3 = (if critic_passed s3 then 0%Z else 1%Z)).
    { subst s3. rewrite critic_node_retry_count, H2. reflexivity. }
    assert (H4 : retry_count s4 = retry_count s3).
    { subst s4. now rewrite (proj1 (proj2 (synthesizer_untouched s3 w3))). }
    split; [reflexivity|].
    do 4 (split; [assumption|]).
    repeat (apply Forall_cons; [cbn [snd]|]); [ | | | | apply Forall_nil].
    + now left.
    + now left.
    + rewrite H3. destruct (critic_passed s3); auto.
    + rewrite H4, H3. destruct (critic_passed s3); auto.
  - intros state w. repeat split.
    + apply planner_untouched.
    + apply worker_untouched.
    + apply synthesizer_untouched.
    + apply critic_node_retry_count.
Qed.

(** ** The suggestions of the Composer *)

Lemma pad_suggestions_length (parsed : list string) :
  length (pad_suggestions parsed) = 3.
Proof. destruct parsed as [|a [|b [|c rest]]]; reflexivity. Qed.

Lemma pad_suggestions_fill (parsed : list string) :
  pad_suggestions parsed
  = firstn 3 (parsed ++ skipn (length parsed) default_suggestions)%list.
Proof. destruct parsed as [|a [|b [|c rest]]]; reflexivity. Qed.

Lemma synthesize_three (llm : option LLMClient) (state : AgentState) :
  length (snd (synthesize llm state)) = 3.
Proof.
  unfold synthesize. destruct llm as [client|]; [|reflexivity].
  destruct (client _ _ _) as [response|err]; [|reflexivity].
  unfold answer_of_response.
  destruct (parse_answer response) as [answer parsed]. cbn [snd].
  apply pad_suggestions_length.
Qed.

(** What the Composer writes besides the answer: three suggestions and
    the time of its second reading of the clock. *)
Lemma synthesizer_node_completed (state : AgentState) (w : World) :
  length (suggestions (fst (synthesizer_node state w))) = 3
  /\ completed_at (fst (synthesizer_node state w))
     = Some (clock w (S (ticks w)))
  /\ ticks (snd (synthesizer_node state w)) = S (S (ticks w)).
Proof.
  pose proof (synthesize_three (llm_client state) state) as H3.
  unfold synthesizer_node, bind, time_time, ret.
  destruct (synthesize (llm_client state) state) as [answer sugg].
  cbn in *. repeat split. exact H3.
Qed.

(** ** The events of a request *)

Lemma stream_words_sent (words : list string) :
  forall (r : Relay) (w : World),
    first_token_sent r = true ->
    stream_words words r w
    = ({| sent := (sent r ++ map token_of_unit words)%list;
          relay_state := relay_state r;
          first_token_sent := true |}, w).
Proof.
  induction words as [|word rest IH]; intros r w Hs; simpl.
  - unfold ret. rewrite app_nil_r, <- Hs. now destruct r.
  - unfold bind. rewrite Hs. cbn [negb]. unfold ret at 1.
    rewrite IH by exact Hs. cbn [sent relay_state].
    rewrite <- app_assoc. reflexivity.
Qed.

Lemma stream_words_first (word : string) (rest : list string)
      (r : Relay) (w : World) :
  first_token_sent r = false ->
  stream_words (word :: rest) r w
  = ({| sent := (sent r ++ map token_of_unit (word :: rest))%list;
        relay_state := set_first_token_at (relay_state r) (clock w (ticks w));
        first_token_sent := true |},
     {| clock := clock w; ticks := S (ticks w); finds := finds w |}).
Proof.
  intros Hs. cbn [stream_words]. unfold bind at 1. rewrite Hs. cbn [negb].
  unfold bind, time_time, ret at 1.
  rewrite stream_words_sent by reflexivity. cbn [sent relay_state map].
  rewrite <- app_assoc. reflexivity.
Qed.

(** The stream of a request whose writes succeed: the four stages in
    order, the tool calls of the Executor, one [token] for each unit of
    the answer and the terminal event.  [s4] is the state the Composer
    returns and [k] counts the readings of the clock up to the one of
    [completed_at]; the first token is stamped at the next reading. *)
Lemma stream_shape sessionId userId prompt ctx summary turns llm db
      (w : World) :
  exists (s4 : AgentState) (tcs : list ToolCall) (k : nat),
    fst (stream_chat_response sessionId userId prompt ctx summary turns
                              llm db None w)
    = ([agent_event "planner"; agent_event "worker"]
         ++ tool_call_events tcs
         ++ [agent_event "critic"; agent_event "synthesizer"]
         ++ map token_of_unit (split_ws (final_answer s4))
         ++ [done_event
               (if is_nil (split_ws (final_answer s4)) then s4
                else set_first_token_at s4 (clock w (S k)))])%list
    /\ first_token_at s4 = None
    /\ completed_at s4 = Some (clock w k)
    /\ request_start s4 = clock w (ticks w)
    /\ length (suggestions s4) = 3.
Proof.
  unfold stream_chat_response, create_initial_state.
  unfold bind at 1. unfold bind at 1. unfold time_time at 1.
  unfold ret at 1. cbv beta iota.
  match goal with
  | |- context [astream relay_event ?st _] => set (st0 := st)
  end.
  unfold bind at 1.
  match goal with
  | |- context [astream relay_event st0 ?r ?w'] => set (r0 := r); set (w0 := w')
  end.
  rewrite astream_is_four_stages by (cbn; lia).
  unfold four_stages, bind.
  pose proof (planner_untouched st0 w0) as ([Hr1 Hf1 _ Hc1] & _).
  destruct (planner_node st0 w0) as [s1 w1]. cbn [fst snd] in *.
  cbn [relay_event]. unfold ret at 1.
  pose proof (worker_untouched s1 w1) as ([Hr2 Hf2 _ Hc2] & _).
  destruct (worker_node s1 w1) as [s2 w2]. cbn [fst snd] in *.
  cbn [relay_event]. unfold ret at 1.
  pose proof (critic_untouched s2 w2) as ([Hr3 Hf3 _ Hc3] & _).
  destruct (critic_node s2 w2) as [s3 w3]. cbn [fst snd] in *.
  cbn [relay_event]. unfold ret at 1.
  pose proof (synthesizer_untouched s3 w3) as ([Hr4 Hf4 _ Hc4] & _).
  pose proof (synthesizer_node_completed s3 w3) as (Hs3 & Hcomp & Htk).
  destruct (synthesizer_node s3 w3) as [s4 w4]. cbn [fst snd] in *.
  cbn [relay_event sent relay_state first_token_sent].
  exists s4, (tool_calls s2), (S (ticks w3)).
  assert (Hclock3 : clock w3 = clock w).
  { rewrite Hc3, Hc2, Hc1. reflexivity. }
  assert (Hclock4 : clock w4 = clock w) by (rewrite Hc4; exact Hclock3).
  split; [|repeat split].
  - destruct (split_ws (final_answer s4)) as [|word rest] eqn:Ew.
    + cbn [stream_words]. unfold ret. cbn [fst sent relay_state is_nil map].
      rewrite <- !app_assoc. reflexivity.
    + rewrite stream_words_first by reflexivity.
      unfold ret. cbn [fst sent relay_state is_nil].
      rewrite Htk, Hclock4. rewrite <- !app_assoc. reflexivity.
  - rewrite Hf4, Hf3, Hf2, Hf1. reflexivity.
  - rewrite Hcomp, Hclock3. reflexivity.
  - rewrite Hr4, Hr3, Hr2, Hr1. reflexivity.
  - exact Hs3.
Qed.

Lemma token_texts_app (l1 l2 : list SSE) :
  token_texts (l1 ++ l2) = (token_texts l1 ++ token_texts l2)%list.
Proof. apply flat_map_app. Qed.

Lemma token_texts_tool_calls (tcs : list ToolCall) :
  token_texts (tool_call_events tcs) = [].
Proof. induction tcs as [|tc tcs IH]; simpl; [reflexivity | exact IH]. Qed.

Lemma token_texts_units (units : list string) :
  token_texts (map token_of_unit units) = map (fun u => u ++ " ") units.
Proof.
  induction units as [|u units IH]; simpl; [reflexivity | now rewrite IH].
Qed.

Lemma no_done_tool_calls (tcs : list ToolCall) :
  existsb is_done (tool_call_events tcs) = false.
Proof. induction tcs as [|tc tcs IH]; simpl; [reflexivity | exact IH]. Qed.

Lemma no_done_units (units : list string) :
  existsb is_done (map token_of_unit units) = false.
Proof. induction units as [|u units IH]; simpl; [reflexivity | exact IH]. Qed.

Lemma progress_events_tokens (tcs : list ToolCall) (units : list string) :
  token_texts (progress_events tcs units) = map (fun u => u ++ " ") units.
Proof.
  unfold progress_events.
  rewrite !token_texts_app, token_texts_tool_calls, token_texts_units.
  reflexivity.
Qed.

Lemma progress_events_no_done (tcs : list ToolCall) (units : list string) :
  existsb is_done (progress_events tcs units) = false.
Proof.
  unfold progress_events.
  rewrite !existsb_app, no_done_tool_calls, no_done_units. reflexivity.
Qed.

(** [stream_shape], with the events before the terminal one gathered. *)
Lemma stream_ends_with_done sessionId userId prompt ctx summary turns llm db
      (w : World) :
  exists (s4 : AgentState) (tcs : list ToolCall) (k : nat),
    fst (stream_chat_response sessionId userId prompt ctx summary turns
                              llm db None w)
    = (progress_events tcs (split_ws (final_answer s4))
         ++ [done_event
               (if is_nil (split_ws (final_answer s4)) then s4
                else set_first_token_at s4 (clock w (S k)))])%list
    /\ first_token_at s4 = None
    /\ completed_at s4 = Some (clock w k)
    /\ request_start s4 = clock w (ticks w)
    /\ length (suggestions s4) = 3.
Proof.
  destruct (stream_shape sessionId userId prompt ctx summary turns llm db w)
    as (s4 & tcs & k & E & H).
  exists s4, tcs, k. split; [|exact H].
  rewrite E. unfold progress_events. rewrite <- !app_assoc. reflexivity.
Qed.

(** C9: the suggestions of the terminal event are three.  The Composer
    fills what it parsed with the fixed suggestions, in their order, from
    the position reached, and keeps the first three; the fallback of its
    [except] clause has three too; and the stream of a successful request
    ends with its only [done] event, which carries three suggestions. *)
Theorem C9_done_has_three_suggestions :
  (forall parsed : list string,
      length (pad_suggestions parsed) = 3
      /\ pad_suggestions parsed
         = firstn 3 (parsed ++ skipn (length parsed) default_suggestions)%list)
  /\ (forall user_prompt worker_findings,
         length (snd (critical_answer user_prompt worker_findings)) = 3)
  /\ (forall state w,
         length (suggestions (fst (synthesizer_node state w))) = 3)
  /\ (forall sessionId userId prompt ctx summary turns llm db w,
         exists before fullText suggestions t,
           fst (stream_chat_response sessionId userId prompt ctx summary
                                     turns llm db None w)
           = (before ++ [done fullText suggestions t])%list
           /\ existsb is_done before = false
           /\ length suggestions = 3).
Proof.
  split; [|split; [|split]].
  - intros parsed. split;
      [apply pad_suggestions_length | apply pad_suggestions_fill].
  - reflexivity.
  - intros state w. apply synthesizer_node_completed.
  - intros.
    destruct (stream_ends_with_done sessionId userId prompt ctx summary
                                    turns llm db w)
      as (s4 & tcs & k & E & _ & _ & _ & H3).
    rewrite E. unfold done_event.
    eexists _, _, _, _. split; [reflexivity|].
    split; [apply progress_events_no_done|].
    destruct (is_nil (split_ws (final_answer s4))); exact H3.
Qed.

(** ** The tokens and the full text *)

(** The claim C4 as stated fails: for the request [RetryExample] the
    answer is [Hello  there world], with two spaces after the first word,
    and the texts of the tokens put together are [Hello there world ],
    with one space after each word. *)
Lemma C4_concatenation_differs_from_full_text :
  exists before suggestions t,
    RetryExample.stream
    = (before ++ [done "Hello  there world" suggestions t])%list
    /\ concat_texts (token_texts RetryExample.stream) = "Hello there world "
    /\ concat_texts (token_texts RetryExample.stream) <> "Hello  there world".
Proof.
  exists (removelast RetryExample.stream).
  eexists. eexists.
  split; [lazy; reflexivity|].
  split; [vm_compute; reflexivity|].
  vm_compute. discriminate.
Qed.

(** C4, amended: in the stream of a successful request the texts of the
    [token] events are the whitespace-delimited units of the full text of
    the terminal event, in order, a space after each; splitting their
    concatenation on whitespace gives the units of the full text. *)
Theorem C4_tokens_are_the_units_of_full_text :
  forall sessionId userId prompt ctx summary turns llm db w,
  exists before fullText suggestions t,
    let events :=
      fst (stream_chat_response sessionId userId prompt ctx summary
                                turns llm db None w) in
    events = (before ++ [done fullText suggestions t])%list
    /\ existsb is_done before = false
    /\ token_texts events = map (fun u => u ++ " ") (split_ws fullText)
    /\ split_ws (concat_texts (token_texts events)) = split_ws fullText.
Proof.
  intros.
  destruct (stream_ends_with_done sessionId userId prompt ctx summary
                                  turns llm db w)
    as (s4 & tcs & k & E & _).
  cbn zeta. rewrite E. unfold done_event.
  eexists _, _, _, _. split; [reflexivity|].
  split; [apply progress_events_no_done|].
  assert (Ea : final_answer
                 (if is_nil (split_ws (final_answer s4)) then s4
                  else set_first_token_at s4 (clock w (S k)))
               = final_answer s4).
  { destruct (is_nil (split_ws (final_answer s4))); reflexivity. }
  rewrite Ea, token_texts_app, progress_events_tokens.
  cbn [token_texts flat_map]. rewrite app_nil_r.
  split; [reflexivity|].
  apply split_ws_spaced, split_ws_units.
Qed.

(** ** First-token and total latency *)

Lemma retry_example_clock_advances :
  forall i, (clock RetryExample.world i <= clock RetryExample.world (S i))%Q.
Proof.
  intros i. unfold RetryExample.world, clock, Qle, inject_Z. cbn [Qnum Qden].
  lia.
Qed.

(** The claim C3 as stated fails: for the request [RetryExample], under a
    clock that advances by one second at each reading, the first-token
    latency of the terminal event is 10000 ms and its total latency is
    9000 ms. *)
Lemma C3_ttft_exceeds_total :
  exists before fullText suggestions t a b,
    RetryExample.stream = (before ++ [done fullText suggestions t])%list
    /\ ttft_ms t = Some a
    /\ total_ms t = Some b
    /\ ~ (a <= b)%Q.
Proof.
  exists (removelast RetryExample.stream).
  do 5 eexists.
  split; [lazy; reflexivity|].
  split; [reflexivity|].
  split; [reflexivity|].
  vm_compute. intros H. apply H. reflexivity.
Qed.

(** C3, amended: under a clock that never goes back, in the terminal event
    of a successful request the total latency is at most the first-token
    latency whenever both are present (the Composer stamps [completed_at]
    before the relay sends the first token); and the first-token latency
    is absent exactly when the stream has no [token] event. *)
Theorem C3_total_before_first_token :
  forall sessionId userId prompt ctx summary turns llm db w,
    (forall i, (clock w i <= clock w (S i))%Q) ->
    exists before fullText suggestions t,
      let events :=
        fst (stream_chat_response sessionId userId prompt ctx summary
                                  turns llm db None w) in
      events = (before ++ [done fullText suggestions t])%list
      /\ existsb is_done before = false
      /\ (forall a b, ttft_ms t = Some a -> total_ms t = Some b ->
                      (b <= a)%Q)
      /\ (ttft_ms t = None <-> token_texts events = []).
Proof.
  intros sessionId userId prompt ctx summary turns llm db w Hclock.
  destruct (stream_ends_with_done sessionId userId prompt ctx summary
                                  turns llm db w)
    as (s4 & tcs & k & E & Hft & Hc & Hrs & _).
  cbn zeta. rewrite E. unfold done_event.
  eexists _, _, _, _. split; [reflexivity|].
  split; [apply progress_events_no_done|].
  rewrite token_texts_app, progress_events_tokens.
  cbn [token_texts flat_map ttft_ms total_ms]. rewrite app_nil_r.
  destruct (split_ws (final_answer s4)) as [|word rest]; cbn [is_nil].
  - rewrite Hft. cbn [calculate_ttft map]. split; [discriminate|].
    split; reflexivity.
  - cbn [set_first_token_at first_token_at completed_at request_start
         calculate_ttft calculate_total_time].
    rewrite Hc. cbn [calculate_total_time]. split.
    + intros a b Ea Eb. injection Ea as <-. injection Eb as <-.
      specialize (Hclock k). lra.
    + split; discriminate.
Qed.

(** C3 at the request [RetryExample]. *)
Lemma C3_total_before_first_token_witness :
  (forall i, (clock RetryExample.world i <= clock RetryExample.world (S i))%Q)
  /\ exists before fullText suggestions t,
      RetryExample.stream = (before ++ [done fullText suggestions t])%list
      /\ existsb is_done before = false
      /\ (forall a b, ttft_ms t = Some a -> total_ms t = Some b ->
                      (b <= a)%Q)
      /\ (ttft_ms t = None <-> token_texts RetryExample.stream = []).
Proof.
  split; [exact retry_example_clock_advances|].
  exact (C3_total_before_first_token
           "s1" "u1" "Greetings" "ctx" None [] (Some RetryExample.llm)
           RetryExample.db RetryExample.world retry_example_clock_advances).
Defined.

(** ** The findings and the tool calls of the Executor *)

Lemma worker_task_with_query session_id db findings tool_calls task
      (w : World) :
  needs_db_access task = true ->
  fst (worker_task session_id db (findings, tool_calls) task w)
  = match db (find_args session_id) (finds w) with
    | Returned result latency =>
        ((findings ++ [retrieved_finding task result])%list,
         (tool_calls
            ++ [logged_call session_id result latency
                            (clock w (S (ticks w)))])%list)
    | Raised err =>
        ((findings ++ [error_finding task err])%list, tool_calls)
    end.
Proof.
  intros Hq. unfold worker_task, bind, time_time, call_find, ret.
  rewrite Hq. cbn [finds].
  destruct (db (find_args session_id) (finds w)); reflexivity.
Qed.

(** Each subtask adds one finding, of that subtask, and at most one entry
    to the log, after those already there. *)
Lemma worker_task_appends session_id db findings tool_calls task (w : World) :
  exists f new_calls,
    fst (worker_task session_id db (findings, tool_calls) task w)
    = ((findings ++ [f])%list, (tool_calls ++ new_calls)%list)
    /\ f_task f = task.
Proof.
  unfold worker_task, bind, time_time, call_find, ret.
  destruct (needs_db_access task).
  - cbn [finds]. destruct (db (find_args session_id) (finds w)).
    + eexists _, [_]. split; reflexivity.
    + eexists _, []. rewrite app_nil_r. split; reflexivity.
  - eexists _, []. rewrite app_nil_r. split; reflexivity.
Qed.

Lemma worker_loop_appends session_id db tasks :
  forall findings tool_calls (w : World),
  exists new_findings new_calls,
    fst (worker_loop session_id db (findings, tool_calls) tasks w)
    = ((findings ++ new_findings)%list, (tool_calls ++ new_calls)%list)
    /\ map f_task new_findings = tasks.
Proof.
  induction tasks as [|task rest IH]; intros findings tool_calls w.
  - exists [], []. cbn. rewrite !app_nil_r. split; reflexivity.
  - cbn [worker_loop]. unfold bind.
    destruct (worker_task_appends session_id db findings tool_calls task w)
      as (f & calls1 & E1 & Hf).
    destruct (worker_task session_id db (findings, tool_calls) task w)
      as [acc' w'].
    cbn [fst] in E1. subst acc'.
    destruct (IH (findings ++ [f])%list (tool_calls ++ calls1)%list w')
      as (fs2 & calls2 & E2 & Hfs).
    exists (f :: fs2), (calls1 ++ calls2)%list.
    rewrite E2, <- !app_assoc. cbn [app map]. rewrite Hf, Hfs.
    split; reflexivity.
Qed.

(** A pass of the Executor: the log of the state with the entries of this
    pass after it; as findings, one for each subtask of this pass, then
    the retry marker when the count is above zero. *)
Lemma worker_node_pass (state : AgentState) (w : World) :
  exists new_findings new_calls,
    tool_calls (fst (worker_node state w))
    = (tool_calls state ++ new_calls)%list
    /\ worker_findings (fst (worker_node state w))
       = (new_findings
            ++ (if (retry_count state >? 0)%Z
                then [retry_finding (retry_count state)] else []))%list
    /\ map f_task new_findings = subtasks state.
Proof.
  unfold worker_node, bind, time_time, ret.
  match goal with
  | |- context [worker_loop ?s ?d (?a, ?b) ?t ?w0] =>
      destruct (worker_loop_appends s d t a b w0) as (fs & calls & E & Hfs);
      destruct (worker_loop s d (a, b) t w0) as [[fs' tcs'] w1]
  end.
  cbn [fst] in E. injection E as -> ->.
  exists fs, calls. cbn [fst tool_calls worker_findings app].
  destruct (retry_count state >? 0)%Z; [|rewrite app_nil_r];
    repeat split; assumption.
Qed.

(** The claim C6 as stated fails when the collaborator raises: for the
    subtask [fetch relevant history] and a store whose driver raises, the
    Executor records the finding of the failure and no entry in the tool
    calls of the state. *)
Lemma C6_raised_query_leaves_no_log_entry :
  subtasks (fst QueryFailure.planned) = ["fetch relevant history"]
  /\ needs_db_access "fetch relevant history" = true
  /\ QueryFailure.db (find_args "s1") 0 = Raised "connection refused"
  /\ worker_findings (fst QueryFailure.executed)
     = [error_finding "fetch relevant history" "connection refused"]
  /\ tool_calls (fst QueryFailure.executed) = [].
Proof. repeat split; vm_compute; reflexivity. Qed.

(** C6, amended: for a subtask that needs the store, when the query
    returns (with whatever status, an error status too) the Executor adds
    a finding and a log entry with the tool name, the arguments, the
    result, the latency and the time; when the query raises it adds a
    finding that describes the failure and no log entry.  In both cases
    it goes on: a pass has one finding for each of its subtasks, in order.
    The store wrapper of the repository never returns an error status: it
    returns [ok] or raises. *)
Theorem C6_query_outcome_is_recorded :
  forall session_id db findings tool_calls task (w : World),
    needs_db_access task = true ->
    fst (worker_task session_id db (findings, tool_calls) task w)
    = match db (find_args session_id) (finds w) with
      | Returned result latency =>
          ((findings ++ [retrieved_finding task result])%list,
           (tool_calls
              ++ [logged_call session_id result latency
                              (clock w (S (ticks w)))])%list)
      | Raised err =>
          ((findings ++ [error_finding task err])%list, tool_calls)
      end
    /\ (forall state w',
           exists new_findings,
             worker_findings (fst (worker_node state w'))
             = (new_findings
                  ++ (if (retry_count state >? 0)%Z
                      then [retry_finding (retry_count state)] else []))%list
             /\ map f_task new_findings = subtasks state)
    /\ (forall cursor args n result latency,
           DBTools_find cursor args n = Returned result latency ->
           status result = "ok").
Proof.
  intros session_id db findings tool_calls task w Hq.
  split; [now apply worker_task_with_query|]. split.
  - intros state w'.
    destruct (worker_node_pass state w') as (fs & calls & _ & Hfs & Ht).
    exists fs. split; assumption.
  - intros cursor args n result latency. unfold DBTools_find.
    destruct (cursor args n) as [[docs|err] lat]; [|discriminate].
    intros E. injection E as <- _. reflexivity.
Qed.

(** C6 at the subtask [fetch relevant history]. *)
Lemma C6_query_outcome_is_recorded_witness :
  needs_db_access "fetch relevant history" = true
  /\ fst (worker_task "s1" QueryFailure.db ([], []) "fetch relevant history"
                      RetryExample.world)
     = ([error_finding "fetch relevant history" "connection refused"], []).
Proof.
  split; [reflexivity|].
  exact (proj1 (C6_query_outcome_is_recorded
                  "s1" QueryFailure.db [] [] "fetch relevant history"
                  RetryExample.world eq_refl)).
Defined.

(** The claim C7 as stated fails for the findings: in the second pass of
    [RetryPass] the finding of the first pass is in the state on entry and
    not in the state returned, while the log has the entry of the first
    pass and the entry of the second. *)
Lemma C7_prior_findings_are_replaced :
  retry_count (fst RetryPass.before) = 1%Z
  /\ map f_result (worker_findings (fst RetryPass.before))
     = ["Retrieved 0 messages from conversation history"]
  /\ map f_result (worker_findings (fst RetryPass.after))
     = ["Retrieved 1 messages from conversation history";
        "Re-executed tasks with improved strategy"]
  /\ (exists f, In f (worker_findings (fst RetryPass.before))
                /\ ~ In f (worker_findings (fst RetryPass.after)))
  /\ length (tool_calls (fst RetryPass.before)) = 1
  /\ length (tool_calls (fst RetryPass.after)) = 2.
Proof.
  split; [vm_compute; reflexivity|].
  split; [vm_compute; reflexivity|].
  split; [vm_compute; reflexivity|].
  split; [|split; vm_compute; reflexivity].
  exists (retrieved_finding "fetch relevant history"
            {| status := "ok"; count := Some 0%Z; data := Some [];
               error := None |}).
  split.
  - vm_compute. left. reflexivity.
  - vm_compute. intros [H | [H | H]]; [discriminate | discriminate | exact H].
Qed.

(** C7, amended: a retry pass of the Executor (a count above zero on
    entry) keeps every entry of the tool calls and adds its own after
    them; its findings are those of this pass only, one for each subtask,
    then the retry marker: the findings of the pass before are replaced. *)
Theorem C7_retry_pass_keeps_tool_calls :
  forall (state : AgentState) (w : World),
    (0 < retry_count state)%Z ->
    exists new_findings new_calls,
      tool_calls (fst (worker_node state w))
      = (tool_calls state ++ new_calls)%list
      /\ worker_findings (fst (worker_node state w))
         = (new_findings ++ [retry_finding (retry_count state)])%list
      /\ map f_task new_findings = subtasks state.
Proof.
  intros state w Hrc.
  destruct (worker_node_pass state w) as (fs & calls & Hc & Hf & Ht).
  exists fs, calls.
  destruct (Z.gtb_spec (retry_count state) 0) as [_|Hle]; [|lia].
  repeat split; assumption.
Qed.

(** C7 at the second pass of [RetryPass]. *)
Lemma C7_retry_pass_keeps_tool_calls_witness :
  (0 < retry_count (fst RetryPass.before))%Z
  /\ exists new_findings new_calls,
      tool_calls (fst RetryPass.after)
      = (tool_calls (fst RetryPass.before) ++ new_calls)%list
      /\ worker_findings (fst RetryPass.after)
         = (new_findings
              ++ [retry_finding (retry_count (fst RetryPass.before))])%list
      /\ map f_task new_findings = subtasks (fst RetryPass.before).
Proof.
  split; [vm_compute; reflexivity|].
  apply (C7_retry_pass_keeps_tool_calls (fst RetryPass.before)
                                        (snd RetryPass.before)).
  vm_compute. reflexivity.
Defined.

(** ** The plan of the Planner *)

Lemma planner_node_plan (state : AgentState) (w : World) :
  (subtasks (fst (planner_node state w)),
   data_access_plan (fst (planner_node state w)))
  = make_plan (llm_client state) (user_prompt state) (context state).
Proof.
  unfold planner_node, bind, time_time, ret.
  destruct (make_plan (llm_client state) (user_prompt state) (context state)).
  reflexivity.
Qed.

Lemma is_empty_false (s : string) : is_empty s = false -> s <> "".
Proof. destruct s; [discriminate | intros _; discriminate]. Qed.

Lemma fallbacks_usable (user_prompt : string) :
  length (fst (smart_fallback user_prompt)) = 3
  /\ is_empty (snd (smart_fallback user_prompt)) = false
  /\ length (fst (critical_fallback user_prompt)) = 3
  /\ is_empty (snd (critical_fallback user_prompt)) = false.
Proof.
  unfold smart_fallback, critical_fallback.
  destruct (needs_history user_prompt); repeat split.
Qed.

(** What the [try] gives for a response: the parsed subtasks, or the
    fallback chosen on the prompt when none was parsed; and a plan that is
    not empty. *)
Lemma plan_of_response_cases (user_prompt response : string) :
  plan_of_response user_prompt response
  = if is_nil (fst (parse_plan response))
    then smart_fallback user_prompt
    else (fst (parse_plan response),
          if is_empty (snd (parse_plan response))
          then "Determine data needs based on request context"
          else snd (parse_plan response)).
Proof.
  unfold plan_of_response.
  destruct (parse_plan response) as [[|task rest] data_plan]; cbn [fst snd is_nil].
  - destruct (fallbacks_usable user_prompt) as (_ & He & _).
    destruct (smart_fallback user_prompt) as [subs plan].
    cbn [snd] in He. now rewrite He.
  - reflexivity.
Qed.

Lemma plan_of_response_usable (user_prompt response : string) :
  1 <= length (fst (plan_of_response user_prompt response))
  /\ snd (plan_of_response user_prompt response) <> "".
Proof.
  rewrite plan_of_response_cases.
  destruct (parse_plan response) as [[|task rest] data_plan]; cbn [fst snd is_nil].
  - destruct (fallbacks_usable user_prompt) as (H3 & He & _).
    rewrite H3. split; [lia | now apply is_empty_false].
  - split; [cbn; lia|].
    destruct (is_empty data_plan) eqn:E; [discriminate | now apply is_empty_false].
Qed.

(** The claim C8 as stated fails twice: a response with four numbered
    subtasks gives a plan of four subtasks; and when the generation call
    raises, the plan is the fixed one of the [except] clause also for a
    prompt with a memory-referencing keyword. *)
Lemma C8_plan_of_four_subtasks :
  subtasks (PlanExample.planned PlanExample.four_items "Compare the offers")
  = ["Identify the topic of the request"; "Collect the relevant facts";
     "Compare the alternatives"; "Draft the final response"]
  /\ needs_history "What did I say in my previous message?" = true
  /\ subtasks (PlanExample.planned PlanExample.failing
                 "What did I say in my previous message?")
     = ["Process user request: What did I say in my previous message?";
        "Gather necessary information"; "Prepare appropriate response"].
Proof. repeat split; vm_compute; reflexivity. Qed.

(** C8, amended: the Planner returns, for every state, at least one
    subtask and a data-access plan that is not empty.  Without a client,
    or when the generation call raises, the plan is the fixed three-step
    plan of the [except] clause; when the response yields no subtask it is
    the three-step fallback chosen on the prompt (about the history when
    the prompt has a memory-referencing keyword, generic otherwise);
    otherwise the subtasks are those parsed from the response. *)
Theorem C8_planner_always_plans :
  forall (state : AgentState) (w : World),
    1 <= length (subtasks (fst (planner_node state w)))
    /\ data_access_plan (fst (planner_node state w)) <> ""
    /\ (subtasks (fst (planner_node state w)),
        data_access_plan (fst (planner_node state w)))
       = match llm_client state with
         | None => critical_fallback (user_prompt state)
         | Some client =>
             match client (planning_prompt (context state)) 300%Z (1 # 2)%Q with
             | GenRaised _ => critical_fallback (user_prompt state)
             | Generated response =>
                 if is_nil (fst (parse_plan response))
                 then smart_fallback (user_prompt state)
                 else (fst (parse_plan response),
                       if is_empty (snd (parse_plan response))
                       then "Determine data needs based on request context"
                       else snd (parse_plan response))
             end
         end
    /\ length (fst (critical_fallback (user_prompt state))) = 3
    /\ length (fst (smart_fallback (user_prompt state))) = 3
    /\ fst (smart_fallback (user_prompt state))
       = if needs_history (user_prompt state)
         then ["Retrieve conversation history to understand context";
               "Analyze user's request: " ++ slice_to 50 (user_prompt state);
               "Formulate contextual response based on history"]
         else ["Understand the request: " ++ slice_to 50 (user_prompt state);
               "Gather relevant information";
               "Prepare comprehensive response"].
Proof.
  intros state w.
  pose proof (planner_node_plan state w) as E.
  assert (U : 1 <= length (fst (make_plan (llm_client state)
                                          (user_prompt state) (context state)))
              /\ snd (make_plan (llm_client state) (user_prompt state)
                                (context state)) <> "").
  { unfold make_plan. destruct (llm_client state) as [client|].
    - destruct (client _ _ _) as [response|err].
      + apply plan_of_response_usable.
      + split; [cbn; lia | discriminate].
    - split; [cbn; lia | discriminate]. }
  rewrite <- E in U. cbn [fst snd] in U. destruct U as [U1 U2].
  split; [exact U1|]. split; [exact U2|]. split.
  - rewrite E. unfold make_plan.
    destruct (llm_client state) as [client|]; [|reflexivity].
    destruct (client _ _ _) as [response|err]; [|reflexivity].
    apply plan_of_response_cases.
  - split; [reflexivity|]. split.
    + apply fallbacks_usable.
    + unfold smart_fallback.
      destruct (needs_history (user_prompt state)); reflexivity.
Qed.

(** ** Re-summarization in the Context Packer *)

(** With a limit above zero the store returns at most [limit] messages. *)
Lemma get_session_messages_limit (store : MemoryStore) (session_id : string)
      (k : nat) :
  1 <= k -> length (get_session_messages store session_id (Some k)) <= k.
Proof.
  intros Hk. unfold get_session_messages.
  destruct k as [|k]; [lia|]. apply firstn_le_length.
Qed.

(** With [K] above zero the test [len(recent_messages) > K] is false, the
    recent messages being at most [K]: the call returns the context of
    the first pass, the summary it read, and leaves the store as it was. *)
Lemma pack_context_never_summarizes (short_term_k : nat) (token_budget : Z)
      (store : MemoryStore) (session_id user_id current_prompt : string) :
  1 <= short_term_k ->
  exists packed,
    pack_context short_term_k token_budget store session_id user_id
                 current_prompt = Some (packed, store)
    /\ summary_updated packed = false
    /\ packed_summary packed = get_session_summary store session_id.
Proof.
  intros Hk. unfold pack_context.
  pose proof (get_session_messages_limit store session_id Hk) as Hlen.
  destruct (Nat.ltb_spec short_term_k
              (length (get_session_messages store session_id
                                            (Some short_term_k))))
    as [Hlt|_]; [lia|].
  rewrite andb_false_r.
  eexists. split; [reflexivity|]. split; reflexivity.
Qed.

(** C2: what the code does where the claim expects one re-summarization.
    For the session [LongSession] (fifteen persisted turns, [K] = 10, an
    estimate above the budget of 3000) the call returns the context with
    the old summary, [summary_updated] false, and the store unchanged; and
    so it is for every session, prompt and budget as soon as [K] is above
    zero. *)
Theorem C2_no_resummarization_over_budget :
  (count_session_messages LongSession.store "s1" = 15
   /\ DEFAULT_SHORT_TERM_K = 10
   /\ exists packed,
       LongSession.packed = Some (packed, LongSession.store)
       /\ (Z.of_nat (token_count packed) >? DEFAULT_TOKEN_BUDGET)%Z = true
       /\ length (packed_last_k_turns packed) = 10
       /\ summary_updated packed = false
       /\ packed_summary packed = Some "Old summary"
       /\ contains "Old summary" (packed_context packed) = true)
  /\ (forall short_term_k token_budget store session_id user_id prompt,
         1 <= short_term_k ->
         exists packed,
           pack_context short_term_k token_budget store session_id user_id
                        prompt = Some (packed, store)
           /\ summary_updated packed = false
           /\ packed_summary packed = get_session_summary store session_id).
Proof.
  split.
  - split; [vm_compute; reflexivity|]. split; [reflexivity|].
    destruct (pack_context_never_summarizes
                DEFAULT_TOKEN_BUDGET LongSession.store "s1" "u1" "And now?"
                (short_term_k := DEFAULT_SHORT_TERM_K))
      as (packed & E & Hu & Hs); [unfold DEFAULT_SHORT_TERM_K; lia|].
    exists packed. split; [exact E|].
    assert (Ep : option_map fst LongSession.packed = Some packed).
    { unfold LongSession.packed. rewrite E. reflexivity. }
    assert (Et : option_map (fun r => (Z.of_nat (token_count (fst r))
                                       >? DEFAULT_TOKEN_BUDGET)%Z)
                            LongSession.packed = Some true)
      by (vm_compute; reflexivity).
    assert (El : option_map (fun r => length (packed_last_k_turns (fst r)))
                            LongSession.packed = Some 10)
      by (vm_compute; reflexivity).
    assert (Ec : option_map (fun r => contains "Old summary"
                                        (packed_context (fst r)))
                            LongSession.packed = Some true)
      by (vm_compute; reflexivity).
    unfold LongSession.packed in Et, El, Ec. rewrite E in Et, El, Ec.
    cbn [option_map fst] in Et, El, Ec.
    injection Et as Et. injection El as El. injection Ec as Ec.
    split; [exact Et|]. split; [exact El|]. split; [exact Hu|].
    split; [rewrite Hs; vm_compute; reflexivity | exact Ec].
  - intros. now apply pack_context_never_summarizes.
Qed.


(** * Further properties of the code *)

(** ** Lengths of strings *)

Lemma length_append (a b : string) :
  String.length (a ++ b) = String.length a + String.length b.
Proof. induction a as [|c a IH]; simpl; [reflexivity | now rewrite IH]. Qed.

Lemma length_substring_from_start (n : nat) (s : string) :
  String.length (substring 0 n s) = Nat.min n (String.length s).
Proof.
  revert s. induction n as [|n IH]; intros [|c s]; simpl; try reflexivity.
  now rewrite IH.
Qed.

Lemma length_slice_to (n : nat) (s : string) :
  String.length (slice_to n s) = Nat.min n (String.length s).
Proof. apply length_substring_from_start. Qed.

(** ** The token estimate and the summary *)

(** X1: the estimate is the ceiling of a quarter of the length: four times
    the estimate reaches the length and overshoots it by less than four;
    so only the empty text is estimated at zero, and a longer text never
    has a smaller estimate. *)
Theorem estimate_tokens_is_ceiling :
  forall text : string,
    String.length text <= 4 * estimate_tokens text
    /\ 4 * estimate_tokens text < String.length text + 4
    /\ (estimate_tokens text = 0 <-> text = "")
    /\ (forall longer : string,
           String.length text <= String.length longer ->
           estimate_tokens text <= estimate_tokens longer).
Proof.
  intros text. unfold estimate_tokens, CHARS_PER_TOKEN.
  change (4 - 1) with 3.
  pose proof (Nat.div_mod_eq (String.length text + 3) 4) as E.
  pose proof (Nat.mod_upper_bound (String.length text + 3) 4) as B.
  split; [lia|]. split; [lia|]. split.
  - split.
    + intros H0. destruct text as [|c text]; [reflexivity|].
      simpl in *. lia.
    + intros ->. reflexivity.
  - intros longer Hlen. apply Nat.Div0.div_le_mono. lia.
Qed.

(** X2: the summary of no message is empty, and a summary never has more
    than [4 * target_tokens + 3] characters (the cut and the three dots):
    its token estimate is at most [target_tokens + 1]. *)
Theorem summarize_messages_is_bounded :
  forall (messages : list Message) (target_tokens : nat),
    summarize_messages [] target_tokens = ""
    /\ String.length (summarize_messages messages target_tokens)
       <= 4 * target_tokens + 3
    /\ estimate_tokens (summarize_messages messages target_tokens)
       <= target_tokens + 1.
Proof.
  intros messages target_tokens.
  split; [reflexivity|].
  assert (Hlen : String.length (summarize_messages messages target_tokens)
                 <= 4 * target_tokens + 3).
  { unfold summarize_messages.
    destruct (is_nil messages); [simpl; lia|].
    cbv zeta.
    match goal with
    | |- context [join " | " ?parts] => generalize (join " | " parts)
    end.
    intros summary.
    destruct (Nat.ltb_spec (target_tokens * 4) (String.length summary)).
    - rewrite length_append, length_slice_to. simpl. lia.
    - lia. }
  split; [exact Hlen|].
  unfold estimate_tokens, CHARS_PER_TOKEN. change (4 - 1) with 3.
  apply Nat.lt_succ_r, Nat.Div0.div_lt_upper_bound. lia.
Qed.

(** ** Authorization *)

(** X3: a request is authorized exactly when its header has two
    whitespace-delimited parts, the first being [bearer] in any case and
    the second the expected token, or when its [token] parameter is the
    expected token; so a right parameter is accepted whatever the header.
    Every refusal has status 401. *)
Theorem verify_auth_accepts :
  forall authorization token : option string,
    (verify_auth authorization token = Authorized
     <-> (exists header scheme,
             authorization = Some header
             /\ split_ws header = [scheme; expected_token]
             /\ lower scheme = "bearer")
         \/ token = Some expected_token)
    /\ (verify_auth authorization (Some expected_token) = Authorized)
    /\ (verify_auth authorization token = Authorized
        \/ exists detail, verify_auth authorization token
                          = HTTPException 401 detail).
Proof.
  intros authorization token.
  assert (Hb : forall h, truthy h && bearer_ok h = true
                         <-> exists scheme,
                             split_ws h = [scheme; expected_token]
                             /\ lower scheme = "bearer").
  { intros h. unfold bearer_ok. split.
    - intros H. apply andb_true_iff in H as [_ H].
      destruct (split_ws h) as [|scheme [|cred [|x rest]]]; try discriminate.
      apply andb_true_iff in H as [Hs Hc].
      apply String.eqb_eq in Hs, Hc. subst cred. now exists scheme.
    - intros (scheme & Hs & Hl). rewrite Hs, Hl.
      rewrite !String.eqb_refl.
      destruct h as [|c h]; [discriminate Hs | reflexivity]. }
  split; [|split].
  - unfold verify_auth. split.
    + destruct authorization as [h|].
      * destruct (truthy h && bearer_ok h) eqn:E.
        -- intros _. left. apply Hb in E as (scheme & Hs & Hl).
           now exists h, scheme.
        -- destruct token as [t|].
           ++ destruct (String.eqb_spec t expected_token) as [->|Hne].
              ** intros _. now right.
              ** destruct (negb (given (Some h)) && negb (given (Some t)));
                   discriminate.
           ++ destruct (negb (given (Some h)) && negb (given None));
                discriminate.
      * destruct token as [t|].
        -- destruct (String.eqb_spec t expected_token) as [->|Hne].
           ++ intros _. now right.
           ++ destruct (negb (given None) && negb (given (Some t)));
                discriminate.
        -- discriminate.
    + intros [(h & scheme & -> & Hs & Hl) | ->].
      * assert (E : truthy h && bearer_ok h = true)
          by (apply Hb; now exists scheme).
        now rewrite E.
      * rewrite String.eqb_refl.
        destruct authorization as [h|]; [|reflexivity].
        destruct (truthy h && bearer_ok h); reflexivity.
  - unfold verify_auth. rewrite String.eqb_refl.
    destruct authorization as [h|]; [|reflexivity].
    destruct (truthy h && bearer_ok h); reflexivity.
  - unfold verify_auth.
    destruct (match authorization with
              | Some a => truthy a && bearer_ok a
              | None => false
              end); [now left|].
    destruct (match token with
              | Some t => String.eqb t expected_token
              | None => false
              end); [now left|].
    right. destruct (negb (given authorization) && negb (given token));
      eexists; reflexivity.
Qed.

(** X4: a refused request is told that the authorization is missing
    exactly when neither a header nor a parameter was given (absent or
    empty); otherwise it is told that the token is invalid. *)
Theorem verify_auth_refusals :
  forall authorization token : option string,
    (verify_auth authorization token
     = HTTPException 401 "Missing authorization header or token parameter"
     <-> given authorization = false /\ given token = false)
    /\ (verify_auth authorization token = HTTPException 401 "Invalid token"
        <-> verify_auth authorization token <> Authorized
            /\ (given authorization = true \/ given token = true)).
Proof.
  intros authorization token.
  assert (Ha : given authorization = false ->
               match authorization with
               | Some a => truthy a && bearer_ok a
               | None => false
               end = false).
  { destruct authorization as [a|]; [|reflexivity].
    cbn [given]. intros ->. reflexivity. }
  assert (Ht : given token = false ->
               match token with
               | Some t => String.eqb t expected_token
               | None => false
               end = false).
  { destruct token as [[|c t]|]; try reflexivity. discriminate. }
  unfold verify_auth.
  destruct (given authorization) eqn:Ga, (given token) eqn:Gt; cbn [negb andb].
  - split; (split; [|intros [? ?]; try discriminate]).
    + repeat match goal with |- context [if ?b then _ else _] =>
                               destruct b end; discriminate.
    + repeat match goal with |- context [if ?b then _ else _] =>
                               destruct b end;
        (discriminate || (intros _; split; [discriminate | now left])).
    + repeat match goal with |- context [if ?b then _ else _] =>
                               destruct b end; (congruence || reflexivity).
  - rewrite (Ht eq_refl).
    split; (split; [|intros [? ?]; try discriminate]).
    + destruct (match authorization with
                | Some a => truthy a && bearer_ok a
                | None => false
                end); discriminate.
    + destruct (match authorization with
                | Some a => truthy a && bearer_ok a
                | None => false
                end); (discriminate || (intros _; split; [discriminate | now left])).
    + destruct (match authorization with
                | Some a => truthy a && bearer_ok a
                | None => false
                end); (congruence || reflexivity).
  - rewrite (Ha eq_refl).
    split; (split; [|intros [? ?]; try discriminate]).
    + destruct (match token with
                | Some t => String.eqb t expected_token
                | None => false
                end); discriminate.
    + destruct (match token with
                | Some t => String.eqb t expected_token
                | None => false
                end); (discriminate || (intros _; split; [discriminate | now right])).
    + destruct (match token with
                | Some t => String.eqb t expected_token
                | None => false
                end); (congruence || reflexivity).
  - rewrite (Ha eq_refl), (Ht eq_refl).
    split; split.
    + intros _. split; reflexivity.
    + reflexivity.
    + discriminate.
    + intros [_ [H|H]]; discriminate.
Qed.

(** ** The memory store *)

Lemma insert_by_timestamp_perm (m : Message) (l : list Message) :
  Permutation (m :: l) (insert_by_timestamp m l).
Proof.
  induction l as [|x l IH]; simpl.
  - apply Permutation_refl.
  - destruct (Qle_bool (msg_timestamp m) (msg_timestamp x)).
    + apply Permutation_refl.
    + eapply perm_trans; [apply perm_swap|]. now apply perm_skip.
Qed.

Lemma sort_by_timestamp_perm (l : list Message) :
  Permutation l (sort_by_timestamp l).
Proof.
  induction l as [|x l IH]; simpl.
  - apply perm_nil.
  - eapply perm_trans; [apply perm_skip, IH|].
    apply insert_by_timestamp_perm.
Qed.

Lemma not_le_bool (a b : Q) : Qle_bool a b = false -> (b <= a)%Q.
Proof.
  intros H. apply Qlt_le_weak, Qnot_le_lt. intros Hle.
  apply Qle_bool_iff in Hle. congruence.
Qed.

Lemma insert_by_timestamp_sorted (m : Message) (l : list Message) :
  Sorted not_after l -> Sorted not_after (insert_by_timestamp m l).
Proof.
  induction 1 as [|x l Hs IH Hhd]; simpl.
  - repeat constructor.
  - destruct (Qle_bool (msg_timestamp m) (msg_timestamp x)) eqn:E.
    + constructor; [now constructor|]. constructor.
      now apply Qle_bool_iff in E.
    + constructor; [exact IH|].
      apply not_le_bool in E.
      destruct l as [|y l]; simpl.
      * constructor. exact E.
      * destruct (Qle_bool (msg_timestamp m) (msg_timestamp y)).
        -- constructor. exact E.
        -- constructor. now inversion Hhd.
Qed.

Lemma sort_by_timestamp_sorted (l : list Message) :
  Sorted not_after (sort_by_timestamp l).
Proof.
  induction l as [|x l IH]; simpl.
  - constructor.
  - now apply insert_by_timestamp_sorted.
Qed.

(** X5: without a limit the store returns the messages of the session
    and no other, each as many times as it is stored, in the order of
    their timestamps; they are as many as [count_session_messages]
    says. *)
Theorem get_session_messages_sorted_history :
  forall (store : MemoryStore) (session_id : string),
    Sorted not_after (get_session_messages store session_id None)
    /\ Permutation (of_session session_id (messages_collection store))
                   (get_session_messages store session_id None)
    /\ (forall m, In m (get_session_messages store session_id None)
                  <-> In m (messages_collection store)
                      /\ msg_sessionId m = session_id)
    /\ length (get_session_messages store session_id None)
       = count_session_messages store session_id.
Proof.
  intros store session_id. unfold get_session_messages.
  pose proof (sort_by_timestamp_perm
                (of_session session_id (messages_collection store))) as P.
  split; [apply sort_by_timestamp_sorted|]. split; [exact P|]. split.
  - intros m. split.
    + intros Hin. apply (Permutation_in _ (Permutation_sym P)) in Hin.
      unfold of_session in Hin. apply filter_In in Hin as [Hin E].
      split; [exact Hin | now apply String.eqb_eq].
    + intros [Hin E]. apply (Permutation_in _ P).
      unfold of_session. apply filter_In. split; [exact Hin|].
      now apply String.eqb_eq.
  - unfold count_session_messages. symmetry. now apply Permutation_length.
Qed.

(** X6: with a limit above zero the store returns the last [limit]
    messages of the history by timestamp (all of it when it is shorter);
    a limit of zero is no limit. *)
Theorem get_session_messages_keeps_the_last :
  forall (store : MemoryStore) (session_id : string) (k : nat),
    let history := get_session_messages store session_id None in
    get_session_messages store session_id (Some (S k))
    = skipn (length history - S k) history
    /\ length (get_session_messages store session_id (Some (S k)))
       = Nat.min (S k) (length history)
    /\ get_session_messages store session_id (Some 0) = history.
Proof.
  intros store session_id k history.
  destruct (get_session_messages_sorted_history store session_id)
    as (_ & _ & _ & Hlen).
  fold history in Hlen.
  assert (E : get_session_messages store session_id (Some (S k))
              = skipn (length history - S k) history).
  { unfold get_session_messages at 1. fold (get_session_messages store session_id None).
    fold history. rewrite <- Hlen.
    apply firstn_all2. rewrite length_skipn. lia. }
  split; [exact E|]. split; [|reflexivity].
  rewrite E, length_skipn. lia.
Qed.

Lemma find_session_after_set session_id summary user_id (l : list Session) :
  find (fun s => String.eqb (s_sessionId s) session_id)
       (set_summary session_id summary user_id l)
  = Some {| s_sessionId :=
              match find (fun s => String.eqb (s_sessionId s) session_id) l with
              | Some s => s_sessionId s
              | None => session_id
              end;
            s_userId := user_id; s_summary := Some summary |}.
Proof.
  induction l as [|s l IH]; simpl.
  - now rewrite String.eqb_refl.
  - destruct (String.eqb (s_sessionId s) session_id) eqn:E; simpl; rewrite E.
    + reflexivity.
    + exact IH.
Qed.

Lemma find_other_session_after_set session_id other summary user_id
      (l : list Session) :
  other <> session_id ->
  find (fun s => String.eqb (s_sessionId s) other)
       (set_summary session_id summary user_id l)
  = find (fun s => String.eqb (s_sessionId s) other) l.
Proof.
  intros Hne. apply String.eqb_neq in Hne.
  induction l as [|s l IH]; simpl.
  - rewrite String.eqb_sym. now rewrite Hne.
  - destruct (String.eqb (s_sessionId s) session_id) eqn:E; simpl.
    + apply String.eqb_eq in E. rewrite E.
      rewrite String.eqb_sym. now rewrite Hne.
    + destruct (String.eqb (s_sessionId s) other); [reflexivity | exact IH].
Qed.

(** X7: a summary that was updated is the summary read back for that
    session, whether the session existed or not; the summaries of the
    other sessions and the messages are left as they were. *)
Theorem update_session_summary_round_trip :
  forall (store : MemoryStore) (session_id summary user_id : string),
    let store' := update_session_summary store session_id summary user_id in
    get_session_summary store' session_id = Some summary
    /\ (forall other, other <> session_id ->
                      get_session_summary store' other
                      = get_session_summary store other)
    /\ messages_collection store' = messages_collection store.
Proof.
  intros store session_id summary user_id store'. subst store'.
  unfold get_session_summary, find_session, update_session_summary.
  cbn [sessions_collection messages_collection].
  split; [|split].
  - now rewrite find_session_after_set.
  - intros other Hne. now rewrite find_other_session_after_set.
  - reflexivity.
Qed.

Lemma find_after_append {A} (f : A -> bool) (l : list A) (x : A) :
  find f (l ++ [x])
  = match find f l with
    | Some y => Some y
    | None => if f x then Some x else None
    end.
Proof.
  induction l as [|y l IH]; simpl.
  - reflexivity.
  - destruct (f y); [reflexivity | exact IH].
Qed.

(** X8: [get_or_create_session] returns a session of that identifier
    which the store then holds; it is the stored one when there was one,
    and a new one without summary otherwise; asking again returns the same
    session and changes nothing; the other sessions and the messages are
    untouched. *)
Theorem get_or_create_session_is_idempotent :
  forall (store : MemoryStore) (session_id user_id again : string),
    let session := fst (get_or_create_session store session_id user_id) in
    let store' := snd (get_or_create_session store session_id user_id) in
    s_sessionId session = session_id
    /\ find_session store' session_id = Some session
    /\ get_or_create_session store' session_id again = (session, store')
    /\ (find_session store session_id = None ->
        s_summary session = None /\ s_userId session = user_id)
    /\ (forall s, find_session store session_id = Some s ->
                  session = s /\ store' = store)
    /\ (forall other, other <> session_id ->
                      find_session store' other = find_session store other)
    /\ messages_collection store' = messages_collection store.
Proof.
  intros store session_id user_id again. cbv zeta.
  unfold get_or_create_session.
  destruct (find_session store session_id) as [s|] eqn:E; cbn [fst snd].
  - assert (Hid : s_sessionId s = session_id).
    { unfold find_session in E. apply find_some in E as [_ E].
      now apply String.eqb_eq. }
    split; [exact Hid|]. split; [exact E|]. split; [now rewrite E|].
    split; [discriminate|]. split.
    + intros s' Es. injection Es as <-. split; reflexivity.
    + split; reflexivity.
  - assert (F : find_session
                  {| messages_collection := messages_collection store;
                     sessions_collection :=
                       (sessions_collection store
                          ++ [{| s_sessionId := session_id;
                                 s_userId := user_id;
                                 s_summary := None |}])%list |} session_id
                = Some {| s_sessionId := session_id; s_userId := user_id;
                          s_summary := None |}).
    { unfold find_session in *. cbn [sessions_collection].
      rewrite find_after_append, E. cbn [s_sessionId].
      now rewrite String.eqb_refl. }
    split; [reflexivity|]. split; [exact F|]. split; [now rewrite F|].
    split; [intros _; split; reflexivity|]. split; [discriminate|].
    split; [|reflexivity].
    intros other Hne. unfold find_session. cbn [sessions_collection].
    rewrite find_after_append. cbn [s_sessionId].
    apply String.eqb_neq in Hne. rewrite String.eqb_sym, Hne.
    now destruct (find _ (sessions_collection store)).
Qed.

Lemma of_session_append (session_id : string) (l : list Message) (m : Message) :
  of_session session_id (l ++ [m])
  = (of_session session_id l
       ++ (if String.eqb (msg_sessionId m) session_id then [m] else []))%list.
Proof. unfold of_session. rewrite filter_app. reflexivity. Qed.

Lemma insert_before_last (x new : Message) (sorted : list Message) :
  (msg_timestamp x <= msg_timestamp new)%Q ->
  insert_by_timestamp x (sorted ++ [new])
  = (insert_by_timestamp x sorted ++ [new])%list.
Proof.
  intros Hle. induction sorted as [|y sorted IH]; simpl.
  - apply Qle_bool_iff in Hle. now rewrite Hle.
  - destruct (Qle_bool (msg_timestamp x) (msg_timestamp y));
      [reflexivity | now rewrite IH].
Qed.

Lemma sort_with_latest (l : list Message) (new : Message) :
  Forall (fun m => (msg_timestamp m <= msg_timestamp new)%Q) l ->
  sort_by_timestamp (l ++ [new]) = (sort_by_timestamp l ++ [new])%list.
Proof.
  induction 1 as [|x l Hx _ IH]; simpl.
  - reflexivity.
  - rewrite IH. now apply insert_before_last.
Qed.

Lemma forall_filter {A} (P : A -> Prop) (f : A -> bool) (l : list A) :
  Forall P l -> Forall P (filter f l).
Proof.
  induction 1 as [|x l Hx _ IH]; simpl; [constructor|].
  destruct (f x); [now constructor | exact IH].
Qed.

(** X9: a message saved with a timestamp later than those of the session
    becomes the last of its history, so that it is among the recent turns
    whatever the limit above zero; the session has one message more, and
    the histories of the other sessions are the same. *)
Theorem save_message_becomes_the_last_turn :
  forall (store : MemoryStore) (session_id user_id role content' : string)
         (now : Q),
    Forall (fun m => (msg_timestamp m < now)%Q)
           (of_session session_id (messages_collection store)) ->
    let store' := save_message store session_id user_id role content' now in
    let saved := saved_message session_id user_id role content' now in
    get_session_messages store' session_id None
    = (get_session_messages store session_id None ++ [saved])%list
    /\ (forall k, exists earlier,
           get_session_messages store' session_id (Some (S k))
           = (earlier ++ [saved])%list)
    /\ count_session_messages store' session_id
       = S (count_session_messages store session_id)
    /\ (forall other limit,
           other <> session_id ->
           get_session_messages store' other limit
           = get_session_messages store other limit).
Proof.
  intros store session_id user_id role content' now Hlt store' saved.
  assert (Hall : Forall (fun m => (msg_timestamp m <= now)%Q)
                        (of_session session_id (messages_collection store))).
  { eapply Forall_impl; [|exact Hlt]. intros m. apply Qlt_le_weak. }
  assert (Ef : of_session session_id (messages_collection store')
               = (of_session session_id (messages_collection store)
                    ++ [saved])%list).
  { unfold store', save_message. cbn [messages_collection].
    fold (saved_message session_id user_id role content' now). fold saved.
    rewrite of_session_append. cbn [saved saved_message msg_sessionId].
    now rewrite String.eqb_refl. }
  assert (Es : sort_by_timestamp (of_session session_id
                                             (messages_collection store'))
               = (sort_by_timestamp
                    (of_session session_id (messages_collection store))
                    ++ [saved])%list).
  { rewrite Ef. now apply sort_with_latest. }
  assert (Ec : count_session_messages store' session_id
               = S (count_session_messages store session_id)).
  { unfold count_session_messages. rewrite Ef, length_app. simpl. lia. }
  split; [exact Es|]. split; [|split; [exact Ec|]].
  - intros k. unfold get_session_messages. rewrite Es, Ec.
    set (h := sort_by_timestamp
                (of_session session_id (messages_collection store))).
    assert (Hh : length h = count_session_messages store session_id).
    { unfold h, count_session_messages. symmetry.
      apply Permutation_length, sort_by_timestamp_perm. }
    rewrite <- Hh.
    exists (skipn (S (length h) - S k) h).
    rewrite skipn_app.
    replace (S (length h) - S k - length h) with 0 by lia.
    cbn [skipn]. apply firstn_all2.
    rewrite length_app, length_skipn. simpl. lia.
  - intros other limit Hne.
    assert (Eo : of_session other (messages_collection store')
                 = of_session other (messages_collection store)).
    { unfold store', save_message. cbn [messages_collection].
      rewrite of_session_append. cbn [msg_sessionId].
      apply String.eqb_neq in Hne. rewrite String.eqb_sym, Hne.
      apply app_nil_r. }
    unfold get_session_messages, count_session_messages. now rewrite Eo.
Qed.

(** X9 at the session [ShortSession], for a message saved at time 5. *)
Lemma save_message_becomes_the_last_turn_witness :
  Forall (fun m => (msg_timestamp m < 5)%Q)
         (of_session "s1" (messages_collection ShortSession.store))
  /\ get_session_messages
       (save_message ShortSession.store "s1" "u1" "user" "And now?" 5%Q)
       "s1" None
     = (get_session_messages ShortSession.store "s1" None
          ++ [saved_message "s1" "u1" "user" "And now?" 5%Q])%list.
Proof.
  assert (H : Forall (fun m => (msg_timestamp m < 5)%Q)
                     (of_session "s1" (messages_collection ShortSession.store))).
  { repeat constructor; unfold Qlt; simpl; lia. }
  split; [exact H|].
  exact (proj1 (@save_message_becomes_the_last_turn
                  ShortSession.store "s1" "u1" "user" "And now?" 5%Q H)).
Defined.

(** ** The states of a run *)

Lemma astream_of_run {S : Type}
      (consume : S -> AgentName * AgentState -> M S)
      (state : AgentState) (acc : S) (w : World) :
  (0 <= retry_count state)%Z ->
  astream consume state acc w
  = let p := planner_node state w in
    let a1 := consume acc (planner, fst p) (snd p) in
    let e := worker_node (fst p) (snd a1) in
    let a2 := consume (fst a1) (worker, fst e) (snd e) in
    let v := critic_node (fst e) (snd a2) in
    let a3 := consume (fst a2) (critic, fst v) (snd v) in
    let c := synthesizer_node (fst v) (snd a3) in
    let a4 := consume (fst a3) (synthesizer, fst c) (snd c) in
    ((fst a4, Finished), snd a4).
Proof.
  intros Hrc. rewrite astream_is_four_stages by assumption.
  unfold four_stages, bind, ret. cbv zeta.
  destruct (planner_node state w) as [s1 w1]. cbn [fst snd].
  destruct (consume acc (planner, s1) w1) as [a1 w1']. cbn [fst snd].
  destruct (worker_node s1 w1') as [s2 w2]. cbn [fst snd].
  destruct (consume a1 (worker, s2) w2) as [a2 w2']. cbn [fst snd].
  destruct (critic_node s2 w2') as [s3 w3]. cbn [fst snd].
  destruct (consume a2 (critic, s3) w3) as [a3 w3']. cbn [fst snd].
  destruct (synthesizer_node s3 w3') as [s4 w4]. cbn [fst snd].
  destruct (consume a3 (synthesizer, s4) w4) as [a4 w4'].
  reflexivity.
Qed.

(** The stream of a request in terms of the states of its run: the
    progress events, then the terminal event, [done] when the writes
    succeed and [error] when they fail. *)
Lemma stream_of_run sessionId userId prompt ctx summary turns llm db persist
      (w : World) :
  let i := create_initial_state sessionId userId prompt ctx summary turns
                                llm db w in
  let R := run_of (fst i) (snd i) in
  let units := split_ws (final_answer (run_composed R)) in
  fst (stream_chat_response sessionId userId prompt ctx summary turns
                            llm db persist w)
  = (progress_events (tool_calls (run_executed R)) units
       ++ [match persist with
           | Some err => error_event err
           | None =>
               done_event
                 (if is_nil units then run_composed R
                  else set_first_token_at (run_composed R)
                         (clock (run_world R) (ticks (run_world R))))
           end])%list.
Proof.
  cbv zeta. unfold stream_chat_response. unfold bind at 1.
  destruct (create_initial_state sessionId userId prompt ctx summary turns
                                 llm db w) as [st0 w0] eqn:Ei.
  cbn [fst snd].
  assert (Hrc : retry_count st0 = 0%Z).
  { unfold create_initial_state, bind, time_time, ret in Ei.
    injection Ei as <- _. reflexivity. }
  unfold bind. rewrite astream_of_run by (rewrite Hrc; lia).
  unfold relay_event, run_of, ret.
  cbn [fst snd sent relay_state first_token_sent agent_name app
       run_planned run_executed run_validated run_composed run_world].
  destruct (planner_node st0 w0) as [s1 w1].
  cbn [fst snd sent relay_state first_token_sent].
  destruct (worker_node s1 w1) as [s2 w2].
  cbn [fst snd sent relay_state first_token_sent].
  destruct (critic_node s2 w2) as [s3 w3].
  cbn [fst snd sent relay_state first_token_sent].
  destruct (synthesizer_node s3 w3) as [s4 w4].
  cbn [fst snd sent relay_state first_token_sent].
  unfold progress_events.
  destruct (split_ws (final_answer s4)) as [|word rest].
  - cbn [stream_words is_nil map]. unfold ret.
    cbn [fst snd sent relay_state].
    destruct persist; cbn [fst app]; rewrite <- ?app_assoc; cbn [app];
      reflexivity.
  - rewrite stream_words_first by reflexivity.
    cbn [fst snd sent relay_state is_nil].
    destruct persist; cbn [fst app]; rewrite <- ?app_assoc; cbn [app];
      reflexivity.
Qed.

Lemma progress_events_no_error (tcs : list ToolCall) (units : list string) :
  existsb is_error (progress_events tcs units) = false.
Proof.
  unfold progress_events. rewrite !existsb_app. cbn [existsb is_error orb].
  assert (H1 : existsb is_error (tool_call_events tcs) = false)
    by (induction tcs as [|tc tcs IH]; simpl; [reflexivity | exact IH]).
  assert (H2 : existsb is_error (map token_of_unit units) = false)
    by (induction units as [|u units IH]; simpl; [reflexivity | exact IH]).
  now rewrite H1, H2.
Qed.

(** X10: when the writes that follow the run fail, the stream ends with
    one [error] event carrying the error, after the very progress events
    (the tokens of the answer included) that come before the [done] event
    when the writes succeed; a stream has no other terminal event. *)
Theorem failed_writes_end_the_stream_with_error :
  forall sessionId userId prompt ctx summary turns llm db (err : string)
         (w : World),
  exists before fullText suggestions t,
    fst (stream_chat_response sessionId userId prompt ctx summary turns
                              llm db (Some err) w)
    = (before ++ [error_event err])%list
    /\ fst (stream_chat_response sessionId userId prompt ctx summary turns
                                 llm db None w)
       = (before ++ [done fullText suggestions t])%list
    /\ existsb is_done before = false
    /\ existsb is_error before = false
    /\ token_texts before = map (fun u => u ++ " ") (split_ws fullText).
Proof.
  intros.
  pose proof (stream_of_run sessionId userId prompt ctx summary turns llm db
                            (Some err) w) as E1.
  pose proof (stream_of_run sessionId userId prompt ctx summary turns llm db
                            None w) as E2.
  cbv zeta in E1, E2. rewrite E1, E2. unfold done_event.
  eexists _, _, _, _. split; [reflexivity|]. split; [reflexivity|].
  split; [apply progress_events_no_done|].
  split; [apply progress_events_no_error|].
  rewrite progress_events_tokens.
  match goal with
  | |- context [final_answer (if ?b then ?s else set_first_token_at ?s ?t)] =>
      replace (final_answer (if b then s else set_first_token_at s t))
        with (final_answer s) by (destruct b; reflexivity)
  end.
  reflexivity.
Qed.

(** ** Queries of the Executor *)

Lemma worker_task_queries session_id db findings tool_calls task (w : World) :
  let r := worker_task session_id db (findings, tool_calls) task w in
  finds (snd r) = finds w + (if needs_db_access task then 1 else 0)
  /\ exists new_calls,
      snd (fst r) = (tool_calls ++ new_calls)%list
      /\ length new_calls <= (if needs_db_access task then 1 else 0)
      /\ Forall (fun tc => tc_tool tc = "db.find"
                           /\ tc_args tc = find_args session_id
                           /\ exists latency,
                               db (find_args session_id) (finds w)
                               = Returned (tc_result tc) latency)
                new_calls.
Proof.
  cbv zeta. unfold worker_task, bind, time_time, call_find, ret.
  destruct (needs_db_access task).
  - cbn [finds snd fst].
    destruct (db (find_args session_id) (finds w)) as [result latency|err] eqn:E;
      cbn [finds snd fst].
    + split; [lia|]. eexists [_]. split; [reflexivity|]. split; [simpl; lia|].
      constructor; [|constructor]. cbn. repeat split. now exists latency.
    + split; [lia|]. exists []. rewrite app_nil_r.
      split; [reflexivity|]. split; [simpl; lia | constructor].
  - cbn [finds snd fst]. split; [lia|]. exists []. rewrite app_nil_r.
    split; [reflexivity|]. split; [simpl; lia | constructor].
Qed.

Lemma worker_loop_queries session_id db tasks :
  forall findings tool_calls (w : World),
    let r := worker_loop session_id db (findings, tool_calls) tasks w in
    finds (snd r) = finds w + length (filter needs_db_access tasks)
    /\ exists new_calls,
        snd (fst r) = (tool_calls ++ new_calls)%list
        /\ length new_calls <= length (filter needs_db_access tasks)
        /\ Forall (fun tc => tc_tool tc = "db.find"
                             /\ tc_args tc = find_args session_id
                             /\ exists latency n,
                                 db (find_args session_id) n
                                 = Returned (tc_result tc) latency)
                  new_calls.
Proof.
  induction tasks as [|task rest IH]; intros findings tool_calls w; cbv zeta.
  - cbn [worker_loop]. unfold ret. cbn [fst snd filter length].
    split; [lia|]. exists []. rewrite app_nil_r.
    split; [reflexivity|]. split; [simpl; lia | constructor].
  - cbn [worker_loop]. unfold bind.
    pose proof (worker_task_queries session_id db findings tool_calls task w)
      as (Hf & calls1 & E1 & L1 & A1). cbv zeta in Hf, E1.
    destruct (worker_task session_id db (findings, tool_calls) task w)
      as [[fs1 tcs1] w1].
    cbn [fst snd] in Hf, E1. subst tcs1.
    specialize (IH fs1 (tool_calls ++ calls1)%list w1). cbv zeta in IH.
    destruct IH as (Hf2 & calls2 & E2 & L2 & A2).
    split.
    + rewrite Hf2, Hf. cbn [filter].
      destruct (needs_db_access task); simpl; lia.
    + exists (calls1 ++ calls2)%list.
      split; [rewrite E2; now rewrite app_assoc|]. split.
      * rewrite length_app. cbn [filter].
        destruct (needs_db_access task); simpl in *; lia.
      * apply Forall_app. split; [|exact A2].
        eapply Forall_impl; [|exact A1].
        intros tc (Ht & Ha & latency & Hr). repeat split; try assumption.
        now exists latency, (finds w).
Qed.

(** X11: a pass of the Executor makes exactly one query for each subtask
    that has a data keyword, and none for the others; every entry it adds
    to the tool calls is a [db.find] on the messages of the session,
    limited to 50, whose result is the one the store returned; so it adds
    at most as many entries as it makes queries. *)
Theorem worker_node_queries_once_per_data_subtask :
  forall (state : AgentState) (w : World),
    finds (snd (worker_node state w))
    = finds w + length (filter needs_db_access (subtasks state))
    /\ exists new_calls,
        tool_calls (fst (worker_node state w))
        = (tool_calls state ++ new_calls)%list
        /\ length new_calls
           <= length (filter needs_db_access (subtasks state))
        /\ Forall (fun tc =>
                     tc_tool tc = "db.find"
                     /\ tc_args tc
                        = {| collection := "messages";
                             filter_sessionId := session_id state;
                             limit := 50 |}
                     /\ exists latency n,
                         db_tools state (find_args (session_id state)) n
                         = Returned (tc_result tc) latency)
                  new_calls.
Proof.
  intros state w. unfold worker_node, bind, time_time, ret.
  match goal with
  | |- context [worker_loop ?s ?d (?a, ?b) ?t ?w0] =>
      pose proof (worker_loop_queries s d t a b w0) as (Hf & calls & E & L & A);
      cbv zeta in Hf, E;
      destruct (worker_loop s d (a, b) t w0) as [[fs' tcs'] w1]
  end.
  cbn [fst snd finds tool_calls] in *. subst tcs'.
  split; [exact Hf|]. exists calls. repeat split; assumption.
Qed.

(** ** Tool calls with the store wrapper of the repository *)

Lemma DBTools_find_returns_ok cursor args n result latency :
  DBTools_find cursor args n = Returned result latency ->
  status result = "ok".
Proof.
  unfold DBTools_find. destruct (cursor args n) as [[docs|err] lat].
  - intros E. injection E as <- _. reflexivity.
  - discriminate.
Qed.

Lemma worker_node_new_calls (state : AgentState) (w : World) :
  exists new_calls,
    tool_calls (fst (worker_node state w))
    = (tool_calls state ++ new_calls)%list
    /\ Forall (fun tc => exists latency n,
                   db_tools state (find_args (session_id state)) n
                   = Returned (tc_result tc) latency)
              new_calls.
Proof.
  unfold worker_node, bind, time_time, ret.
  match goal with
  | |- context [worker_loop ?s ?d (?a, ?b) ?t ?w0] =>
      pose proof (worker_loop_queries s d t a b w0) as (_ & calls & E & _ & A);
      cbv zeta in E;
      destruct (worker_loop s d (a, b) t w0) as [[fs' tcs'] w1]
  end.
  cbn [fst snd tool_calls] in *. subst tcs'.
  exists calls. split; [reflexivity|].
  eapply Forall_impl; [|exact A]. intros tc (_ & _ & H). exact H.
Qed.

Lemma planner_keeps_tools (state : AgentState) (w : World) :
  db_tools (fst (planner_node state w)) = db_tools state
  /\ session_id (fst (planner_node state w)) = session_id state.
Proof.
  unfold planner_node, bind, time_time, ret.
  destruct (make_plan (llm_client state) (user_prompt state) (context state)).
  split; reflexivity.
Qed.

(** In a run with the store wrapper of the repository every tool call of
    the state has the status [ok]: a query that fails raises and leaves
    no entry. *)
Lemma run_tool_calls_ok sessionId userId prompt ctx summary turns llm cursor
      (w : World) :
  let i := create_initial_state sessionId userId prompt ctx summary turns
                                llm (DBTools_find cursor) w in
  Forall status_ok (tool_calls (run_executed (run_of (fst i) (snd i)))).
Proof.
  cbv zeta. unfold run_of. cbn [run_executed].
  set (i := create_initial_state _ _ _ _ _ _ _ _ _).
  assert (Hi : tool_calls (fst i) = [] /\ db_tools (fst i) = DBTools_find cursor)
    by (split; reflexivity).
  destruct Hi as [Hc Hd].
  pose proof (planner_untouched (fst i) (snd i)) as (_ & _ & Hpc & _).
  pose proof (planner_keeps_tools (fst i) (snd i)) as (Hpd & _).
  set (p := planner_node (fst i) (snd i)) in *.
  destruct (worker_node_new_calls (fst p) (snd p)) as (calls & E & A).
  rewrite E, Hpc, Hc. cbn [app].
  eapply Forall_impl; [|exact A].
  intros tc (latency & n & H). rewrite Hpd, Hd in H.
  unfold status_ok. eapply DBTools_find_returns_ok. exact H.
Qed.

Lemma completed_flags_app (l1 l2 : list SSE) :
  completed_flags (l1 ++ l2) = (completed_flags l1 ++ completed_flags l2)%list.
Proof. apply flat_map_app. Qed.

Lemma completed_flags_progress (tcs : list ToolCall) (units : list string) :
  completed_flags (progress_events tcs units)
  = map (fun tc => String.eqb (status (tc_result tc)) "ok") tcs.
Proof.
  unfold progress_events. rewrite !completed_flags_app.
  assert (H1 : completed_flags (tool_call_events tcs)
               = map (fun tc => String.eqb (status (tc_result tc)) "ok") tcs).
  { induction tcs as [|tc tcs IH]; simpl; [reflexivity | now rewrite IH]. }
  assert (H2 : completed_flags (map token_of_unit units) = []).
  { induction units as [|u units IH]; simpl; [reflexivity | exact IH]. }
  rewrite H1, H2. cbn. now rewrite app_nil_r.
Qed.

(** X12: with the store wrapper of the repository as collaborator, every
    [tool_call_completed] event of a stream has [ok] true, whatever the
    driver does: there is one such event for each tool call of the state,
    and a query that failed is not among them. *)
Theorem stream_reports_only_successful_tool_calls :
  forall sessionId userId prompt ctx summary turns llm cursor persist
         (w : World),
    let db := DBTools_find cursor in
    let events := fst (stream_chat_response sessionId userId prompt ctx
                                            summary turns llm db persist w) in
    let i := create_initial_state sessionId userId prompt ctx summary turns
                                  llm db w in
    Forall (fun ok => ok = true) (completed_flags events)
    /\ length (completed_flags events)
       = length (tool_calls (run_executed (run_of (fst i) (snd i)))).
Proof.
  intros. subst events db i.
  pose proof (stream_of_run sessionId userId prompt ctx summary turns llm
                            (DBTools_find cursor) persist w) as E.
  pose proof (run_tool_calls_ok sessionId userId prompt ctx summary turns llm
                                cursor w) as Hok.
  cbv zeta in E, Hok. rewrite E, completed_flags_app, completed_flags_progress.
  assert (Ht : forall e, completed_flags
                           [match persist with
                            | Some err => error_event err
                            | None => done_event e
                            end] = []) by (intros e; destruct persist; reflexivity).
  rewrite Ht, app_nil_r. split.
  - apply Forall_map. eapply Forall_impl; [|exact Hok].
    intros tc H. unfold status_ok in H. now rewrite H.
  - apply length_map.
Qed.

Lemma critic_node_verdict (state : AgentState) (w : World) :
  (critic_passed (fst (critic_node state w)),
   critic_feedback (fst (critic_node state w)))
  = critic_checks (worker_findings state) (tool_calls state)
                  (user_prompt state).
Proof.
  unfold critic_node, bind, time_time, ret.
  destruct (critic_checks (worker_findings state) (tool_calls state)
                          (user_prompt state)).
  reflexivity.
Qed.

Lemma failed_tools_of_ok (tcs : list ToolCall) :
  Forall status_ok tcs -> failed_tools tcs = [].
Proof.
  induction 1 as [|tc tcs H _ IH]; [reflexivity|].
  unfold failed_tools in *. cbn [filter].
  unfold status_ok in H. rewrite H. cbn. exact IH.
Qed.

(** X13: in a run with the store wrapper of the repository the check of
    the tool calls never fails the validation: the validation passes
    exactly when some keyword of the prompt is found in the findings, and
    its feedback is the success message or the relevance message. *)
Theorem validation_depends_on_relevance_only :
  forall sessionId userId prompt ctx summary turns llm cursor (w : World),
    let i := create_initial_state sessionId userId prompt ctx summary turns
                                  llm (DBTools_find cursor) w in
    let R := run_of (fst i) (snd i) in
    let score := relevance_score prompt (worker_findings (run_executed R)) in
    failed_tools (tool_calls (run_executed R)) = []
    /\ critic_passed (run_validated R) = negb (score =? 0)
    /\ critic_feedback (run_validated R)
       = (if score =? 0 then msg_not_relevant else msg_validated)
    /\ retry_count (run_validated R) = (if score =? 0 then 1%Z else 0%Z).
Proof.
  intros.
  pose proof (run_tool_calls_ok sessionId userId prompt ctx summary turns llm
                                cursor w) as Hok.
  cbv zeta in Hok. fold i in Hok. fold R in Hok.
  apply failed_tools_of_ok in Hok.
  split; [exact Hok|].
  assert (Hp : user_prompt (run_executed R) = prompt).
  { unfold R, run_of. cbn [run_executed].
    pose proof (planner_untouched (fst i) (snd i)) as ([_ _ Hp1 _] & _).
    set (p := planner_node (fst i) (snd i)) in *.
    pose proof (worker_untouched (fst p) (snd p)) as ([_ _ Hp2 _] & _).
    rewrite Hp2, Hp1. reflexivity. }
  assert (Hr : retry_count (run_executed R) = 0%Z).
  { unfold R, run_of. cbn [run_executed].
    pose proof (planner_untouched (fst i) (snd i)) as (_ & Hr1 & _).
    set (p := planner_node (fst i) (snd i)) in *.
    pose proof (worker_untouched (fst p) (snd p)) as (_ & Hr2).
    rewrite Hr2, Hr1. reflexivity. }
  assert (V : (critic_passed (run_validated R), critic_feedback (run_validated R))
              = (negb (score =? 0),
                 if score =? 0 then msg_not_relevant else msg_validated)).
  { unfold R at 1 2. unfold run_of. cbn [run_validated].
    fold (run_of (fst i) (snd i)).
    set (e := worker_node _ _).
    assert (Ee : fst e = run_executed R) by reflexivity.
    rewrite critic_node_verdict, Ee, Hp. unfold critic_checks.
    rewrite Hok. fold score. cbn [is_nil negb].
    destruct (score =? 0) eqn:Es; [reflexivity|].
    destruct (worker_findings (run_executed R)) as [|f fs] eqn:Ef.
    - unfold score in Es. try rewrite Ef in Es.
      rewrite relevance_of_no_findings in Es. discriminate.
    - cbn [is_nil]. now destruct (is_nil (tool_calls (run_executed R))). }
  pose proof (f_equal fst V) as Vp. pose proof (f_equal snd V) as Vf.
  cbn [fst snd] in Vp, Vf. split; [exact Vp|]. split; [exact Vf|].
  assert (Erc : retry_count (run_validated R)
                = if critic_passed (run_validated R)
                  then retry_count (run_executed R)
                  else (retry_count (run_executed R) + 1)%Z).
  { exact (critic_node_retry_count _ _). }
  rewrite Erc, Vp, Hr. now destruct (score =? 0).
Qed.

(** ** What a run never changes *)

(** The inputs of a request: what identifies it, its context and its
    collaborators. *)
Lemma run_node_keeps_inputs (n : AgentName) (state : AgentState) (w : World) :
  let out := fst (run_node n state w) in
  session_id out = session_id state
  /\ user_id out = user_id state
  /\ user_prompt out = user_prompt state
  /\ context out = context state
  /\ session_summary out = session_summary state
  /\ last_k_turns out = last_k_turns state
  /\ request_start out = request_start state
  /\ llm_client out = llm_client state
  /\ db_tools out = db_tools state.
Proof.
  cbv zeta. destruct n; cbn [run_node].
  - unfold planner_node, bind, time_time, ret.
    destruct (make_plan _ _ _). cbn. repeat split.
  - unfold worker_node, bind, time_time, ret.
    match goal with
    | |- context [worker_loop ?s ?d ?a ?t ?w0] =>
        destruct (worker_loop s d a t w0) as [[fs tcs] w1]
    end.
    cbn. repeat split.
  - unfold critic_node, bind, time_time, ret.
    destruct (critic_checks _ _ _). cbn. repeat split.
  - unfold synthesizer_node, bind, time_time, ret.
    destruct (synthesize _ _). cbn. repeat split.
Qed.

(** X14: the identifiers of a request, its prompt, its packed context,
    summary and recent turns, its start time and its collaborators are
    the same in the state of every event of a run as in the initial
    state: no stage writes them. *)
Theorem run_keeps_the_inputs_of_the_request :
  forall sessionId userId prompt ctx summary turns llm db (w : World),
    let i := create_initial_state sessionId userId prompt ctx summary turns
                                  llm db w in
    exists s1 s2 s3 s4,
      fst (graph_events (fst i) (snd i))
      = ([(planner, s1); (worker, s2); (critic, s3); (synthesizer, s4)],
         Finished)
      /\ Forall (fun s => session_id s = sessionId
                          /\ user_id s = userId
                          /\ user_prompt s = prompt
                          /\ context s = ctx
                          /\ session_summary s = summary
                          /\ last_k_turns s = turns
                          /\ request_start s = clock w (ticks w)
                          /\ llm_client s = llm
                          /\ db_tools s = db)
                [s1; s2; s3; s4].
Proof.
  intros. subst i.
  set (i := create_initial_state _ _ _ _ _ _ _ _ _).
  rewrite graph_events_four by (cbn; lia). cbv zeta.
  set (p := planner_node (fst i) (snd i)).
  set (e := worker_node (fst p) (snd p)).
  set (v := critic_node (fst e) (snd e)).
  set (c := synthesizer_node (fst v) (snd v)).
  exists (fst p), (fst e), (fst v), (fst c). split; [reflexivity|].
  pose proof (run_node_keeps_inputs planner (fst i) (snd i)) as Hp.
  pose proof (run_node_keeps_inputs worker (fst p) (snd p)) as He.
  pose proof (run_node_keeps_inputs critic (fst e) (snd e)) as Hv.
  pose proof (run_node_keeps_inputs synthesizer (fst v) (snd v)) as Hc.
  cbv zeta in Hp, He, Hv, Hc. cbn [run_node] in Hp, He, Hv, Hc.
  fold p in Hp. fold e in He. fold v in Hv. fold c in Hc.
  destruct Hp as (P1 & P2 & P3 & P4 & P5 & P6 & P7 & P8 & P9).
  destruct He as (E1 & E2 & E3 & E4 & E5 & E6 & E7 & E8 & E9).
  destruct Hv as (V1 & V2 & V3 & V4 & V5 & V6 & V7 & V8 & V9).
  destruct Hc as (C1 & C2 & C3 & C4 & C5 & C6 & C7 & C8 & C9).
  assert (Hs1 : session_id (fst p) = sessionId /\ user_id (fst p) = userId
                /\ user_prompt (fst p) = prompt /\ context (fst p) = ctx
                /\ session_summary (fst p) = summary
                /\ last_k_turns (fst p) = turns
                /\ request_start (fst p) = clock w (ticks w)
                /\ llm_client (fst p) = llm /\ db_tools (fst p) = db).
  { rewrite P1, P2, P3, P4, P5, P6, P7, P8, P9. repeat split. }
  assert (Hs2 : session_id (fst e) = sessionId /\ user_id (fst e) = userId
                /\ user_prompt (fst e) = prompt /\ context (fst e) = ctx
                /\ session_summary (fst e) = summary
                /\ last_k_turns (fst e) = turns
                /\ request_start (fst e) = clock w (ticks w)
                /\ llm_client (fst e) = llm /\ db_tools (fst e) = db).
  { rewrite E1, E2, E3, E4, E5, E6, E7, E8, E9. exact Hs1. }
  assert (Hs3 : session_id (fst v) = sessionId /\ user_id (fst v) = userId
                /\ user_prompt (fst v) = prompt /\ context (fst v) = ctx
                /\ session_summary (fst v) = summary
                /\ last_k_turns (fst v) = turns
                /\ request_start (fst v) = clock w (ticks w)
                /\ llm_client (fst v) = llm /\ db_tools (fst v) = db).
  { rewrite V1, V2, V3, V4, V5, V6, V7, V8, V9. exact Hs2. }
  repeat (apply Forall_cons; [assumption|]).
  apply Forall_cons; [|apply Forall_nil].
  rewrite C1, C2, C3, C4, C5, C6, C7, C8, C9. exact Hs3.
Qed.

(** ** The timings *)

Lemma dict_set_keys (key : string) (v : Q) (d : list (string * Q)) :
  map fst (dict_set key v d)
  = if existsb (fun k => String.eqb k key) (map fst d)
    then map fst d else (map fst d ++ [key])%list.
Proof.
  induction d as [|[k x] d IH]; simpl.
  - reflexivity.
  - destruct (String.eqb k key); simpl; [reflexivity|].
    rewrite IH. now destruct (existsb _ (map fst d)).
Qed.

Lemma run_node_timings (n : AgentName) (state : AgentState) (w : World) :
  exists duration_ms,
    timings (fst (run_node n state w))
    = dict_set (agent_name n) duration_ms (timings state)
    /\ current_agent (fst (run_node n state w)) = agent_name n.
Proof.
  destruct n; cbn [run_node agent_name].
  - unfold planner_node, bind, time_time, ret.
    destruct (make_plan _ _ _). eexists. split; reflexivity.
  - unfold worker_node, bind, time_time, ret.
    match goal with
    | |- context [worker_loop ?s ?d ?a ?t ?w0] =>
        destruct (worker_loop s d a t w0) as [[fs tcs] w1]
    end.
    eexists. split; reflexivity.
  - unfold critic_node, bind, time_time, ret.
    destruct (critic_checks _ _ _). eexists. split; reflexivity.
  - unfold synthesizer_node, bind, time_time, ret.
    destruct (synthesize _ _). eexists. split; reflexivity.
Qed.

(** X15: a stage records its duration under its own name: the name is
    added after the names already there the first time, and keeps its
    place when the stage runs again; so at the end of a run the names of
    the timings are the four stages in the order of their execution, and
    the current agent is the Composer. *)
Theorem timings_follow_the_order_of_execution :
  (forall (n : AgentName) (state : AgentState) (w : World),
      map fst (timings (fst (run_node n state w)))
      = (if existsb (fun k => String.eqb k (agent_name n))
                    (map fst (timings state))
         then map fst (timings state)
         else (map fst (timings state) ++ [agent_name n])%list)
      /\ current_agent (fst (run_node n state w)) = agent_name n)
  /\ (forall sessionId userId prompt ctx summary turns llm db (w : World),
         let i := create_initial_state sessionId userId prompt ctx summary
                                       turns llm db w in
         let R := run_of (fst i) (snd i) in
         map fst (timings (run_composed R))
         = ["planner"; "worker"; "critic"; "synthesizer"]
         /\ current_agent (run_composed R) = "synthesizer").
Proof.
  split.
  - intros n state w.
    destruct (run_node_timings n state w) as (d & Et & Ea).
    rewrite Et, dict_set_keys. split; [reflexivity | exact Ea].
  - intros. subst R. unfold run_of. cbn [run_composed].
    set (p := planner_node (fst i) (snd i)).
    set (e := worker_node (fst p) (snd p)).
    set (v := critic_node (fst e) (snd e)).
    set (c := synthesizer_node (fst v) (snd v)).
    destruct (run_node_timings planner (fst i) (snd i)) as (d1 & T1 & _).
    destruct (run_node_timings worker (fst p) (snd p)) as (d2 & T2 & _).
    destruct (run_node_timings critic (fst e) (snd e)) as (d3 & T3 & _).
    destruct (run_node_timings synthesizer (fst v) (snd v)) as (d4 & T4 & A4).
    cbn [run_node agent_name] in T1, T2, T3, T4, A4.
    fold p in T1. fold e in T2. fold v in T3. fold c in T4, A4.
    split; [|exact A4].
    rewrite T4, T3, T2, T1. reflexivity.
Qed.

(** ** Running the graph with a callback *)

(** X16: [run_agent_graph] returns the state that the Composer returned,
    with three suggestions and its completion time; the callback, when
    there is one, is called once for each stage with the event [agent]
    and the name of the stage, in the order Planner, Executor, Validator,
    Composer. *)
Theorem run_agent_graph_returns_the_composed_state :
  forall sessionId userId prompt ctx summary turns llm db
         (stream_callback : bool) (w : World),
    let i := create_initial_state sessionId userId prompt ctx summary turns
                                  llm db w in
    let R := run_of (fst i) (snd i) in
    fst (run_agent_graph (fst i) stream_callback (snd i))
    = (run_composed R,
       (if stream_callback
        then [("agent", "planner"); ("agent", "worker"); ("agent", "critic");
              ("agent", "synthesizer")]
        else []),
       Finished)
    /\ length (suggestions (run_composed R)) = 3
    /\ (exists t, completed_at (run_composed R) = Some t)
    /\ current_agent (run_composed R) = "synthesizer".
Proof.
  intros. subst R. unfold run_agent_graph.
  rewrite astream_of_run by (cbn; lia).
  unfold run_of, run_callback, ret.
  cbn [fst snd run_composed agent_name].
  set (p := planner_node (fst i) (snd i)).
  set (e := worker_node (fst p) (snd p)).
  set (v := critic_node (fst e) (snd e)).
  set (c := synthesizer_node (fst v) (snd v)).
  pose proof (synthesizer_node_completed (fst v) (snd v)) as (H3 & Hc & _).
  destruct (run_node_timings synthesizer (fst v) (snd v)) as (_ & _ & Ha).
  cbn [run_node agent_name] in Ha. fold c in H3, Hc, Ha.
  split; [destruct stream_callback; reflexivity|].
  split; [exact H3|]. split; [eexists; exact Hc | exact Ha].
Qed.

(** ** Substrings *)

Lemma lower_append (a b : string) : lower (a ++ b) = lower a ++ lower b.
Proof.
  unfold lower. induction a as [|c a IH]; simpl; [reflexivity | now rewrite IH].
Qed.

Lemma prefix_append (p a b : string) :
  String.prefix p a = true -> String.prefix p (a ++ b) = true.
Proof.
  revert a. induction p as [|c p IH]; intros a H.
  - now destruct (a ++ b).
  - destruct a as [|d a]; [discriminate|]. simpl in *.
    destruct (ascii_dec c d); [now apply IH | discriminate].
Qed.

Lemma contains_append_l (needle a b : string) :
  contains needle a = true -> contains needle (a ++ b) = true.
Proof.
  induction a as [|c a IH]; intros H.
  - simpl in H. rewrite orb_false_r in H.
    destruct needle; [|discriminate].
    destruct b; reflexivity.
  - cbn [contains] in H. apply orb_true_iff in H as [H|H].
    + change (String c a ++ b) with (String c (a ++ b)) in *.
      cbn [contains]. apply orb_true_iff. left.
      now apply (prefix_append _ (String c a)).
    + change (String c a ++ b) with (String c (a ++ b)).
      cbn [contains]. apply orb_true_iff. right. now apply IH.
Qed.

Lemma contains_append_r (needle a b : string) :
  contains needle b = true -> contains needle (a ++ b) = true.
Proof.
  intros H. induction a as [|c a IH]; [exact H|].
  change (String c a ++ b) with (String c (a ++ b)).
  cbn [contains]. apply orb_true_iff. now right.
Qed.

(** ** The mock text generator *)

(** X17: the mock streams the whitespace-delimited units of the text it
    generates, a space after each: as many tokens as [count_tokens]
    counts in that text, and tokens whose concatenation splits back into
    the units of the text. *)
Theorem mock_stream_is_the_generated_text_in_units :
  forall prompt : string,
    length (MockLLM_stream prompt) = count_tokens (MockLLM_generate prompt)
    /\ split_ws (concat_texts (MockLLM_stream prompt))
       = split_ws (MockLLM_generate prompt)
    /\ Forall (fun token => exists unit, token = unit ++ " " /\ is_unit unit)
              (MockLLM_stream prompt).
Proof.
  intros prompt. unfold MockLLM_stream, count_tokens.
  split; [apply length_map|]. split.
  - apply split_ws_spaced, split_ws_units.
  - apply Forall_map.
    eapply Forall_impl; [|apply split_ws_units].
    intros unit Hu. now exists unit.
Qed.

(** On a planning prompt the mock answers with its summary or with its
    plan: the prompt has the word [planning] in it. *)
Lemma mock_on_planning_prompt (ctx : string) :
  MockLLM_generate (planning_prompt ctx) = mock_summary
  \/ MockLLM_generate (planning_prompt ctx) = mock_plan.
Proof.
  unfold MockLLM_generate.
  destruct (contains "summarize" _ || contains "summary" _); [now left|].
  assert (H : contains "plan" (lower (planning_prompt ctx)) = true).
  { unfold planning_prompt. rewrite lower_append.
    apply contains_append_l. vm_compute. reflexivity. }
  rewrite H. now right.
Qed.

(** On a synthesis prompt the mock answers with one of its three fixed
    texts: the prompt has the words [QUALITY CHECK] in it. *)
Lemma mock_on_synthesis_prompt (ctx ft fb : string) :
  In (MockLLM_generate (synthesis_prompt ctx ft fb))
     [mock_summary; mock_plan; mock_validation].
Proof.
  unfold MockLLM_generate.
  destruct (contains "summarize" _ || contains "summary" _); [now left|].
  destruct (contains "plan" _ || contains "steps" _); [right; now left|].
  assert (H : contains "check" (lower (synthesis_prompt ctx ft fb)) = true).
  { unfold synthesis_prompt.
    rewrite !lower_append.
    do 4 apply contains_append_r. apply contains_append_l.
    vm_compute. reflexivity. }
  rewrite H, orb_true_r. right. right. now left.
Qed.

Lemma synthesizer_node_answer (state : AgentState) (w : World) :
  (final_answer (fst (synthesizer_node state w)),
   suggestions (fst (synthesizer_node state w)))
  = synthesize (llm_client state) state.
Proof.
  unfold synthesizer_node, bind, time_time, ret.
  destruct (synthesize (llm_client state) state). reflexivity.
Qed.

(** X18: with the mock provider, the default one, no response has the
    sections that the stages look for.  The plan of every request is the
    fallback chosen on the prompt, the answer is one of the three fixed
    texts of the mock, word for word, and the suggestions are the three
    fixed fillers. *)
Theorem mock_provider_gives_fallback_plan_and_canned_answer :
  forall sessionId userId prompt ctx summary turns db (w : World),
    let i := create_initial_state sessionId userId prompt ctx summary turns
                                  (Some mock_client) db w in
    let R := run_of (fst i) (snd i) in
    (subtasks (run_planned R), data_access_plan (run_planned R))
    = smart_fallback prompt
    /\ In (final_answer (run_composed R))
          [mock_summary; mock_plan; mock_validation]
    /\ suggestions (run_composed R) = default_suggestions.
Proof.
  intros. subst R. unfold run_of.
  cbn [run_planned run_composed].
  set (p := planner_node (fst i) (snd i)).
  set (e := worker_node (fst p) (snd p)).
  set (v := critic_node (fst e) (snd e)).
  split.
  - unfold p. rewrite planner_node_plan.
    change (llm_client (fst i)) with (Some mock_client).
    change (user_prompt (fst i)) with prompt.
    change (context (fst i)) with ctx.
    unfold make_plan, mock_client.
    rewrite plan_of_response_cases.
    destruct (mock_on_planning_prompt ctx) as [-> | ->]; reflexivity.
  - pose proof (synthesizer_node_answer (fst v) (snd v)) as Ea.
    assert (Hl : llm_client (fst v) = Some mock_client).
    { pose proof (run_node_keeps_inputs planner (fst i) (snd i)) as Hp.
      pose proof (run_node_keeps_inputs worker (fst p) (snd p)) as He.
      pose proof (run_node_keeps_inputs critic (fst e) (snd e)) as Hv.
      cbv zeta in Hp, He, Hv. cbn [run_node] in Hp, He, Hv.
      fold p in Hp. fold e in He. fold v in Hv.
      destruct Hp as (_ & _ & _ & _ & _ & _ & _ & P8 & _).
      destruct He as (_ & _ & _ & _ & _ & _ & _ & E8 & _).
      destruct Hv as (_ & _ & _ & _ & _ & _ & _ & V8 & _).
      rewrite V8, E8, P8. reflexivity. }
    rewrite Hl in Ea. unfold synthesize, mock_client in Ea.
    assert (Hr : forall r,
               In r [mock_summary; mock_plan; mock_validation] ->
               answer_of_response (user_prompt (fst v)) r
                                  (worker_findings (fst v))
               = (r, default_suggestions)).
    { intros r [<- | [<- | [<- | []]]]; vm_compute; reflexivity. }
    match type of Ea with
    | _ = answer_of_response _ ?r _ =>
        pose proof (mock_on_synthesis_prompt
                      (context (fst v)) (findings_text (worker_findings (fst v)))
                      (critic_feedback (fst v))) as Hin;
        rewrite (Hr r Hin) in Ea
    end.
    pose proof (f_equal fst Ea) as Ea1. pose proof (f_equal snd Ea) as Ea2.
    cbn [fst snd] in Ea1, Ea2.
    split; [|exact Ea2].
    rewrite Ea1.
    exact (mock_on_synthesis_prompt
             (context (fst v)) (findings_text (worker_findings (fst v)))
             (critic_feedback (fst v))).
Qed.

(** ** The connection to the database *)

Lemma apply_op_keeps_handles (c : DatabaseClient) (op : ClientOp) :
  (dbc_connected c = true ->
   exists cs name, dbc_client c = Some cs /\ dbc_db c = Some name) ->
  dbc_connected (apply_op c op) = true ->
  exists cs name,
    dbc_client (apply_op c op) = Some cs /\ dbc_db (apply_op c op) = Some name.
Proof.
  intros Hinv. destruct op as [cs name outcome|]; cbn [apply_op].
  - unfold connect. destruct (dbc_connected c) eqn:Ec; cbn [fst].
    + intros _. now apply Hinv.
    + destruct outcome; cbn [fst dbc_connected dbc_client dbc_db].
      * intros _. now exists cs, name.
      * congruence.
      * congruence.
  - unfold disconnect. destruct (dbc_client c) as [h|].
    + destruct (dbc_connected c) eqn:Ec; cbn; congruence.
    + intros Hc. destruct (Hinv Hc) as (cs & name & Hn & _). discriminate.
Qed.

(** X19: whatever calls of [connect] and [disconnect] were made on a new
    client, and however they ended, a connected client has its client and
    its database; so [get_database] raises exactly when the client is not
    connected.  It raises after [disconnect]; [connect] on a connected
    client changes nothing and does not raise; and [health_check] sends
    its test command only to a connected client. *)
Theorem database_client_connected_has_database :
  forall ops : list ClientOp,
    let c := fold_left apply_op ops new_database_client in
    (is_connected c = true ->
     exists cs name, dbc_client c = Some cs /\ dbc_db c = Some name)
    /\ (get_database c = None <-> is_connected c = false)
    /\ get_database (disconnect c) = None
    /\ (forall cs name outcome,
           is_connected c = true -> connect c cs name outcome = (c, false))
    /\ (forall ping, health_check c ping = is_connected c && ping).
Proof.
  intros ops c.
  assert (Hinv : is_connected c = true ->
                 exists cs name, dbc_client c = Some cs /\ dbc_db c = Some name).
  { subst c. unfold is_connected.
    generalize new_database_client,
      (fun H : dbc_connected new_database_client = true =>
         False_ind (exists cs name,
                       dbc_client new_database_client = Some cs
                       /\ dbc_db new_database_client = Some name)
                   (Bool.diff_false_true H)).
    induction ops as [|op ops IH]; intros c0 H0; cbn [fold_left].
    - exact H0.
    - apply IH. now apply apply_op_keeps_handles. }
  split; [exact Hinv|]. split; [|split; [|split]].
  - unfold get_database, is_connected in *.
    destruct (dbc_connected c) eqn:Ec; cbn [negb orb].
    + destruct (Hinv eq_refl) as (cs & name & _ & Hd). rewrite Hd.
      split; discriminate.
    + split; reflexivity.
  - unfold get_database, disconnect.
    destruct (dbc_client c) as [h|] eqn:Eh.
    + destruct (dbc_connected c) eqn:Ec; cbn [dbc_connected negb orb].
      * reflexivity.
      * rewrite Ec. reflexivity.
    + destruct (dbc_connected c) eqn:Ec; [|reflexivity].
      destruct (Hinv Ec) as (cs & name & Hc & _). congruence.
  - intros cs name outcome Hc. unfold connect, is_connected in *.
    now rewrite Hc.
  - intros ping. unfold health_check, is_connected.
    now destruct (dbc_connected c).
Qed.

(** ** Items of a list in a response *)

Lemma long_enough_length (task : string) :
  long_enough task = true -> 5 < String.length task.
Proof.
  unfold long_enough. intros H. apply andb_true_iff in H as [_ H].
  now apply Nat.ltb_lt.
Qed.

Lemma plan_line_long_subtasks (acc : PlanParse) (raw : string) :
  Forall (fun t => 5 < String.length t) (parsed_subtasks acc) ->
  Forall (fun t => 5 < String.length t) (parsed_subtasks (plan_line acc raw)).
Proof.
  intros H. unfold plan_line.
  repeat match goal with
         | |- context [if ?b then _ else _] =>
             lazymatch b with
             | context [if _ then _ else _] => fail
             | _ => destruct b eqn:?
             end
         end; cbn [parsed_subtasks]; try exact H.
  apply Forall_app. split; [exact H|]. constructor; [|constructor].
  apply long_enough_length.
  match goal with
  | E : is_item _ && long_enough _ = true |- _ =>
      now apply andb_true_iff in E as [_ E]
  end.
Qed.

Lemma answer_line_long_suggestions (acc : AnswerParse) (raw : string) :
  Forall (fun t => 5 < String.length t) (parsed_suggestions acc) ->
  Forall (fun t => 5 < String.length t)
         (parsed_suggestions (answer_line acc raw)).
Proof.
  intros H. unfold answer_line.
  repeat match goal with
         | |- context [if ?b then _ else _] =>
             lazymatch b with
             | context [if _ then _ else _] => fail
             | _ => destruct b eqn:?
             end
         end; cbn [parsed_suggestions]; try exact H.
  apply Forall_app. split; [exact H|]. constructor; [|constructor].
  apply long_enough_length.
  match goal with
  | E : is_item _ && long_enough _ = true |- _ =>
      now apply andb_true_iff in E as [_ E]
  end.
Qed.

Lemma fold_left_invariant {A B} (P : A -> Prop) (f : A -> B -> A)
      (l : list B) :
  (forall a b, P a -> P (f a b)) -> forall a, P a -> P (fold_left f l a).
Proof.
  intros Hf. induction l as [|b l IH]; intros a Ha; cbn [fold_left].
  - exact Ha.
  - apply IH, Hf, Ha.
Qed.

Lemma parse_plan_long_subtasks (response : string) :
  Forall (fun t => 5 < String.length t) (fst (parse_plan response)).
Proof.
  unfold parse_plan. cbn [fst].
  apply (fold_left_invariant
           (fun acc => Forall (fun t => 5 < String.length t)
                              (parsed_subtasks acc))).
  - intros a b. apply plan_line_long_subtasks.
  - constructor.
Qed.

Lemma parse_answer_long_suggestions (response : string) :
  Forall (fun t => 5 < String.length t) (snd (parse_answer response)).
Proof.
  unfold parse_answer. cbn [snd].
  apply (fold_left_invariant
           (fun acc => Forall (fun t => 5 < String.length t)
                              (parsed_suggestions acc))).
  - intros a b. apply answer_line_long_suggestions.
  - constructor.
Qed.

Lemma forall_firstn {A} (P : A -> Prop) (n : nat) (l : list A) :
  Forall P l -> Forall P (firstn n l).
Proof.
  intros H. revert n. induction H as [|x l Hx _ IH]; intros [|n]; simpl;
    constructor; auto.
Qed.

Lemma forall_skipn {A} (P : A -> Prop) (n : nat) (l : list A) :
  Forall P l -> Forall P (skipn n l).
Proof.
  intros H. revert n. induction H as [|x l Hx Hl IH]; intros [|n]; simpl;
    try constructor; auto.
Qed.

(** X20: no subtask of a plan and no suggestion of an answer has fewer
    than six characters: the items that the stages read from a response
    are kept only when they are longer than five characters, and the
    fallback plans and the fixed suggestions are longer too. *)
Theorem plans_and_suggestions_have_no_short_item :
  forall (state : AgentState) (w : World),
    Forall (fun task => 5 < String.length task)
           (subtasks (fst (planner_node state w)))
    /\ Forall (fun suggestion => 5 < String.length suggestion)
              (suggestions (fst (synthesizer_node state w))).
Proof.
  intros state w. split.
  - pose proof (planner_node_plan state w) as E.
    apply (f_equal fst) in E. cbn [fst] in E. rewrite E.
    assert (Hc : forall p, Forall (fun task => 5 < String.length task)
                                  (fst (critical_fallback p))).
    { intros p. unfold critical_fallback. cbn [fst].
      repeat (apply Forall_cons;
              [rewrite ?length_append; simpl; lia|]).
      apply Forall_nil. }
    assert (Hs : forall p, Forall (fun task => 5 < String.length task)
                                  (fst (smart_fallback p))).
    { intros p. unfold smart_fallback.
      destruct (needs_history p); cbn [fst];
        repeat (apply Forall_cons;
                [rewrite ?length_append; simpl; lia|]);
        apply Forall_nil. }
    unfold make_plan. destruct (llm_client state) as [client|]; [|apply Hc].
    destruct (client _ _ _) as [response|err]; [|apply Hc].
    rewrite plan_of_response_cases.
    destruct (is_nil (fst (parse_plan response))); [apply Hs|].
    cbn [fst]. apply parse_plan_long_subtasks.
  - pose proof (synthesizer_node_answer state w) as E.
    apply (f_equal snd) in E. cbn [snd] in E. rewrite E.
    assert (Hc : forall p fs, Forall (fun s => 5 < String.length s)
                                     (snd (critical_answer p fs))).
    { intros p fs. unfold critical_answer. cbn [snd].
      repeat (apply Forall_cons; [simpl; lia|]). apply Forall_nil. }
    unfold synthesize. destruct (llm_client state) as [client|]; [|apply Hc].
    destruct (client _ _ _) as [response|err]; [|apply Hc].
    unfold answer_of_response.
    pose proof (parse_answer_long_suggestions response) as Hp.
    destruct (parse_answer response) as [answer parsed]. cbn [snd] in *.
    rewrite pad_suggestions_fill. apply forall_firstn, Forall_app.
    split; [exact Hp|]. apply forall_skipn.
    unfold default_suggestions.
    repeat (apply Forall_cons; [simpl; lia|]). apply Forall_nil.
Qed.

(** ** The empty answer *)

Lemma rstrip_empty (s : string) : rstrip s = "" -> all_space s = true.
Proof.
  induction s as [|c s IH]; [reflexivity|]. cbn [rstrip all_space].
  destruct (isspace c) eqn:Ec; cbn [andb]; [|discriminate].
  destruct (is_empty (rstrip s)) eqn:Er; [|discriminate].
  intros _. apply IH. now destruct (rstrip s).
Qed.

Lemma strip_empty (s : string) : strip s = "" -> all_space s = true.
Proof.
  unfold strip. induction s as [|c s IH]; [reflexivity|].
  cbn [rstrip all_space].
  destruct (isspace c && is_empty (rstrip s)) eqn:E.
  - intros _. apply andb_true_iff in E as [Ec Er]. rewrite Ec.
    apply rstrip_empty. now destruct (rstrip s).
  - cbn [lstrip]. destruct (isspace c); [exact IH | discriminate].
Qed.

Lemma blank_is_not_labelled (s : string) :
  all_space s = true -> startswith s "ANSWER:" = false.
Proof.
  destruct s as [|c s]; [reflexivity|]. cbn [all_space].
  intros H. apply andb_true_iff in H as [Hc _].
  unfold startswith. cbn [String.prefix].
  destruct (ascii_dec "A" c) as [<-|]; [discriminate Hc | reflexivity].
Qed.

(** X21: the answer of the Composer is empty in one case only: the
    generation call returned a text of more than 20 characters that is
    blank (nothing but whitespace).  A failed call, a missing client, a
    short or a labelled response all give an answer that is not empty. *)
Theorem final_answer_is_empty_only_for_a_long_blank_response :
  forall (state : AgentState) (w : World),
    final_answer (fst (synthesizer_node state w)) = ""
    <-> exists client response,
        llm_client state = Some client
        /\ client (synthesis_prompt (context state)
                     (findings_text (worker_findings state))
                     (critic_feedback state)) 500%Z (7 # 10)%Q
           = Generated response
        /\ 20 < String.length response
        /\ strip response = "".
Proof.
  intros state w.
  pose proof (synthesizer_node_answer state w) as E.
  apply (f_equal fst) in E. cbn [fst] in E. rewrite E. clear E.
  unfold synthesize. split.
  - destruct (llm_client state) as [client|]; [|discriminate].
    destruct (client _ _ _) as [response|err] eqn:Ec; [|discriminate].
    unfold answer_of_response.
    destruct (parse_answer response) as [answer parsed]. cbn [fst].
    destruct (is_empty answer) eqn:Ea.
    + unfold answer_fallback.
      destruct (20 <? String.length response) eqn:El; cbn [andb];
        [|discriminate].
      destruct (negb (startswith response "ANSWER:")); [|discriminate].
      intros Hs. exists client, response.
      repeat split; try assumption. now apply Nat.ltb_lt.
    + intros ->. discriminate.
  - intros (client & response & -> & -> & Hl & Hs).
    unfold answer_of_response.
    assert (Ep : parse_answer response = ("", [])).
    { unfold parse_answer. rewrite Hs. reflexivity. }
    rewrite Ep. cbn [fst is_empty]. unfold answer_fallback.
    apply Nat.ltb_lt in Hl. rewrite Hl.
    rewrite (blank_is_not_labelled _ (strip_empty _ Hs)). exact Hs.
Qed.

(** ** Keywords in any case *)



Lemma prefix_refl (s : string) : String.prefix s s = true.
Proof.
  induction s as [|c s IH]; [reflexivity|]. simpl.
  destruct (ascii_dec c c); [exact IH | contradiction].
Qed.




(** ** The packed context *)

Lemma prefix_of_append (a b : string) : String.prefix a (a ++ b) = true.
Proof. apply prefix_append, prefix_refl. Qed.

(** X23: packing a context never fails (the assignment to the second
    part of the context is always in range) and writes no message.  The
    context starts with the system preamble and ends with the block of
    the current prompt, its token count is the estimate of the context
    returned, and the recent turns returned are the messages read from
    the store with the limit [K], in their order. *)
Theorem pack_context_always_returns_a_context :
  forall (short_term_k : nat) (token_budget : Z) (store : MemoryStore)
         (session_id user_id current_prompt : string),
  exists packed store',
    pack_context short_term_k token_budget store session_id user_id
                 current_prompt = Some (packed, store')
    /\ token_count packed = estimate_tokens (packed_context packed)
    /\ startswith (packed_context packed) system_meta = true
    /\ (exists before,
           packed_context packed = before ++ prompt_block current_prompt)
    /\ packed_last_k_turns packed
       = map to_turn (get_session_messages store session_id
                                           (Some short_term_k))
    /\ messages_collection store' = messages_collection store.
Proof.
  intros short_term_k token_budget store sid uid current_prompt.
  unfold pack_context.
  set (recent := get_session_messages store sid (Some short_term_k)).
  set (summary := get_session_summary store sid).
  assert (Hparts :
            exists middle,
              context_parts summary recent current_prompt
              = (system_meta :: middle ++ [prompt_block current_prompt])%list
              /\ (is_nil recent = false -> middle <> [])).
  { unfold context_parts.
    eexists (_ ++ _)%list. split.
    - cbn [app]. rewrite app_assoc. reflexivity.
    - intros Hr. rewrite Hr. intros H. apply app_eq_nil in H as [_ H].
      discriminate. }
  destruct Hparts as (middle & Ep & Hm). rewrite Ep.
  assert (Hjoin : forall l : list string,
             exists before,
               join nl (system_meta :: l ++ [prompt_block current_prompt])
               = system_meta ++ before ++ prompt_block current_prompt).
  { intros l. induction l as [|x l IH].
    - exists nl. reflexivity.
    - destruct IH as (before & IH).
      assert (Hx : forall y, exists b,
                     join nl (y :: l ++ [prompt_block current_prompt])
                     = y ++ b ++ prompt_block current_prompt).
      { clear IH before. revert x. induction l as [|z l IHl]; intros _ y.
        - exists nl. reflexivity.
        - destruct (IHl z z) as (b & Eb).
          exists (nl ++ z ++ b).
          change (join nl (y :: (z :: l) ++ [prompt_block current_prompt]))
            with (y ++ nl ++ join nl (z :: l ++ [prompt_block current_prompt])).
          rewrite Eb, !append_assoc. reflexivity. }
      destruct (Hx x) as (b & Eb).
      exists (nl ++ x ++ b).
      change (join nl (system_meta :: (x :: l) ++ [prompt_block current_prompt]))
        with (system_meta ++ nl
              ++ join nl (x :: l ++ [prompt_block current_prompt])).
      rewrite Eb, !append_assoc. reflexivity. }
  destruct ((Z.of_nat _ >? token_budget)%Z
            && (short_term_k <? length recent)) eqn:Et.
  - apply andb_true_iff in Et as [_ Et]. apply Nat.ltb_lt in Et.
    assert (Hr : is_nil recent = false) by (destruct recent; [simpl in Et; lia | reflexivity]).
    specialize (Hm Hr). destruct middle as [|m0 middle]; [contradiction|].
    cbn [app list_assign].
    destruct (Hjoin (summary_block
                       (summarize_messages
                          (get_session_messages store sid None) 500)
                       :: middle)) as (before & Eb).
    cbn [app] in Eb.
    eexists _, _. split; [reflexivity|].
    cbn [token_count packed_context packed_last_k_turns].
    split; [reflexivity|]. split; [rewrite Eb; apply prefix_of_append|].
    split; [|split; reflexivity].
    exists (system_meta ++ before). rewrite Eb, append_assoc. reflexivity.
  - destruct (Hjoin middle) as (before & Eb).
    eexists _, _. split; [reflexivity|].
    cbn [token_count packed_context packed_last_k_turns].
    split; [reflexivity|]. split; [rewrite Eb; apply prefix_of_append|].
    split; [|split; reflexivity].
    exists (system_meta ++ before). rewrite Eb, append_assoc. reflexivity.
Qed.

(** ** When the validation passes *)

Lemma failed_tools_none_iff (tcs : list ToolCall) :
  failed_tools tcs = [] <-> Forall status_ok tcs.
Proof.
  split; [|apply failed_tools_of_ok].
  unfold failed_tools, status_ok.
  induction tcs as [|tc tcs IH]; [constructor|]. cbn [filter].
  destruct (String.eqb_spec (status (tc_result tc)) "ok") as [E|E];
    cbn [negb]; [|discriminate].
  intros H. constructor; [exact E | now apply IH].
Qed.

(** X24: the validation passes exactly when every tool call of the state
    has the status [ok] and at least one keyword of the prompt is found
    in the findings (which then are not empty); it then leaves
    [retry_count] as it was and reports success. *)
Theorem validation_passes_iff_calls_ok_and_relevant :
  forall (state : AgentState) (w : World),
    let out := fst (critic_node state w) in
    (critic_passed out = true
     <-> Forall status_ok (tool_calls state)
         /\ 0 < relevance_score (user_prompt state) (worker_findings state))
    /\ (critic_passed out = true ->
        worker_findings state <> []
        /\ retry_count out = retry_count state
        /\ critic_feedback out = msg_validated).
Proof.
  intros state w out.
  pose proof (critic_node_verdict state w) as V.
  pose proof (critic_node_retry_count state w) as Hrc.
  fold out in V, Hrc.
  pose proof (f_equal fst V) as Vp. pose proof (f_equal snd V) as Vf.
  cbn [fst snd] in Vp, Vf. clear V.
  assert (C : critic_checks (worker_findings state) (tool_calls state)
                            (user_prompt state)
              = if relevance_score (user_prompt state) (worker_findings state)
                   =? 0
                then (false, msg_not_relevant)
                else if is_nil (failed_tools (tool_calls state))
                     then (true, msg_validated)
                     else (false,
                           msg_tool_failures
                             (length (failed_tools (tool_calls state))))).
  { unfold critic_checks.
    destruct (relevance_score _ _ =? 0) eqn:Er; [reflexivity|].
    destruct (worker_findings state) as [|f fs] eqn:Ef.
    - rewrite relevance_of_no_findings in Er. discriminate.
    - cbn [is_nil].
      destruct (tool_calls state) as [|tc tcs]; [reflexivity|].
      cbn [is_nil negb].
      destruct (is_nil (failed_tools (tc :: tcs))); reflexivity. }
  rewrite C in Vp, Vf.
  assert (Hnil : is_nil (failed_tools (tool_calls state)) = true
                 <-> Forall status_ok (tool_calls state)).
  { rewrite <- failed_tools_none_iff.
    destruct (failed_tools (tool_calls state)); split;
      (reflexivity || discriminate). }
  split.
  - rewrite Vp. destruct (Nat.eqb_spec (relevance_score (user_prompt state)
                                                        (worker_findings state)) 0)
      as [E0|E0].
    + split; [discriminate | intros [_ H]; lia].
    + destruct (is_nil (failed_tools (tool_calls state))) eqn:En; cbn [fst].
      * split; [intros _; split; [now apply Hnil | lia] | reflexivity].
      * split; [discriminate|]. intros [H _]. apply Hnil in H. discriminate.
  - intros Hp. rewrite Hrc, Hp. rewrite Vp in Hp. rewrite Vf.
    destruct (relevance_score (user_prompt state) (worker_findings state) =? 0)
      eqn:E0; [discriminate|].
    destruct (is_nil (failed_tools (tool_calls state))); [|discriminate].
    split; [|split; reflexivity].
    intros Hnf. rewrite Hnf, relevance_of_no_findings in E0. discriminate.
Qed.

(** ** Keywords and findings *)

Lemma unit_prefix_before_space (kw a b : string) :
  is_unit kw ->
  String.prefix kw (a ++ " " ++ b) = String.prefix kw a.
Proof.
  intros [Hne Hns]. revert a.
  induction kw as [|c kw IH]; [discriminate|].
  cbn [all_nonspace] in Hns. apply andb_true_iff in Hns as [Hc Hns].
  apply negb_true_iff in Hc.
  intros [|d a].
  - cbn. destruct (ascii_dec c " ") as [->|]; [discriminate Hc | reflexivity].
  - change (String d a ++ " " ++ b) with (String d (a ++ " " ++ b)).
    cbn [String.prefix]. destruct (ascii_dec c d); [|reflexivity].
    destruct kw as [|c' kw'].
    + now destruct (a ++ " " ++ b), a.
    + now apply IH.
Qed.

Lemma unit_contains_across_space (kw a b : string) :
  is_unit kw ->
  contains kw (a ++ " " ++ b) = contains kw a || contains kw b.
Proof.
  intros Hu. induction a as [|d a IH].
  - pose proof (unit_prefix_before_space "" b Hu) as P.
    change ("" ++ " " ++ b) with (String " " b) in *.
    cbn [contains]. rewrite P.
    destruct Hu as [Hne _]. destruct kw; [discriminate | reflexivity].
  - change (String d a ++ " " ++ b) with (String d (a ++ " " ++ b)).
    cbn [contains].
    change (String d (a ++ " " ++ b)) with (String d a ++ " " ++ b).
    rewrite (unit_prefix_before_space (String d a) b Hu), IH.
    now rewrite orb_assoc.
Qed.

Lemma lower_join_space (l : list string) :
  lower (join " " l) = join " " (map lower l).
Proof.
  unfold join. induction l as [|x [|y l] IH]; try reflexivity.
  change (String.concat " " (x :: y :: l))
    with (x ++ " " ++ String.concat " " (y :: l)).
  rewrite !lower_append, IH. reflexivity.
Qed.

Lemma unit_contains_in_join (kw : string) (l : list string) :
  is_unit kw ->
  contains kw (join " " l) = existsb (contains kw) l.
Proof.
  intros Hu. unfold join. induction l as [|x [|y l] IH].
  - cbn. destruct Hu as [Hne _]. destruct kw; [discriminate | reflexivity].
  - cbn. now rewrite orb_false_r.
  - change (String.concat " " (x :: y :: l))
      with (x ++ " " ++ String.concat " " (y :: l)).
    rewrite (unit_contains_across_space _ _ Hu), IH. reflexivity.
Qed.

Lemma existsb_of_map {A B} (f : B -> bool) (g : A -> B) (l : list A) :
  existsb f (map g l) = existsb (fun x => f (g x)) l.
Proof.
  induction l as [|x l IH]; simpl; [reflexivity | now rewrite IH].
Qed.

(** X25: the relevance score is the number of distinct keywords, among
    the first five words of the prompt in lower case, that occur inside
    the result of one finding, in lower case: joining the results cannot
    make a keyword appear across two findings. *)
Theorem relevance_counts_keywords_found_in_a_finding :
  forall (user_prompt : string) (worker_findings : list Finding),
    relevance_score user_prompt worker_findings
    = length (filter (fun kw =>
                        existsb (fun f => contains kw (lower (f_result f)))
                                worker_findings)
                     (prompt_keywords user_prompt))
    /\ Forall is_unit (prompt_keywords user_prompt)
    /\ length (prompt_keywords user_prompt) <= 5.
Proof.
  intros user_prompt worker_findings.
  assert (Hu : Forall is_unit (prompt_keywords user_prompt)).
  { apply Forall_forall. intros kw Hkw.
    unfold prompt_keywords in Hkw. apply nodup_In, in_firstn in Hkw.
    pose proof (split_ws_units (lower user_prompt)) as H.
    rewrite Forall_forall in H. now apply H. }
  split; [|split; [exact Hu|]].
  - unfold relevance_score. fold (prompt_keywords user_prompt).
    f_equal. apply filter_ext_in. intros kw Hkw.
    rewrite Forall_forall in Hu. specialize (Hu kw Hkw).
    rewrite lower_join_space, (unit_contains_in_join _ Hu).
    rewrite map_map. apply existsb_of_map.
  - unfold prompt_keywords.
    eapply Nat.le_trans; [apply NoDup_incl_length|].
    + apply NoDup_nodup.
    + intros x Hx. apply nodup_In in Hx. exact Hx.
    + apply firstn_le_length.
Qed.

(** ** Durations *)

Lemma worker_task_ticks session_id db acc task (w : World) :
  ticks w <= ticks (snd (worker_task session_id db acc task w)).
Proof.
  unfold worker_task, bind, time_time, call_find, ret.
  destruct acc as [fs tcs].
  destruct (needs_db_access task); cbn [snd ticks]; [|lia].
  destruct (db _ _); cbn [snd ticks]; lia.
Qed.

Lemma worker_loop_ticks session_id db tasks :
  forall acc (w : World),
    ticks w <= ticks (snd (worker_loop session_id db acc tasks w)).
Proof.
  induction tasks as [|task rest IH]; intros acc w; cbn [worker_loop].
  - unfold ret. cbn. lia.
  - unfold bind.
    pose proof (worker_task_ticks session_id db acc task w) as H.
    destruct (worker_task session_id db acc task w) as [acc' w'].
    cbn [snd] in H. specialize (IH acc' w'). lia.
Qed.

(** The duration that a stage records is the time between its first
    reading of the clock and a later one. *)
Lemma run_node_duration (n : AgentName) (state : AgentState) (w : World) :
  exists j,
    ticks w <= j
    /\ timings (fst (run_node n state w))
       = dict_set (agent_name n)
                  (elapsed_ms (clock w (ticks w)) (clock w j))
                  (timings state).
Proof.
  destruct n; cbn [run_node agent_name].
  - unfold planner_node, bind, time_time, ret.
    destruct (make_plan _ _ _). exists (S (ticks w)).
    split; [lia | reflexivity].
  - unfold worker_node, bind, time_time, ret.
    match goal with
    | |- context [worker_loop ?s ?d ?a ?t ?w0] =>
        pose proof (worker_loop_ticks s d t a w0) as Ht;
        pose proof (worker_loop_clock s d t a w0) as Hc;
        destruct (worker_loop s d a t w0) as [[fs tcs] w1]
    end.
    cbn [snd ticks clock fst timings] in *.
    exists (ticks w1). split; [lia|]. now rewrite Hc.
  - unfold critic_node, bind, time_time, ret.
    destruct (critic_checks _ _ _). exists (S (ticks w)).
    split; [lia | reflexivity].
  - unfold synthesizer_node, bind, time_time, ret.
    destruct (synthesize _ _). exists (S (ticks w)).
    split; [lia | reflexivity].
Qed.

Lemma dict_set_forall (P : string * Q -> Prop) (key : string) (v : Q)
      (d : list (string * Q)) :
  (forall k, P (k, v)) -> Forall P d -> Forall P (dict_set key v d).
Proof.
  intros Hv. induction 1 as [|[k x] d Hx Hd IH]; cbn [dict_set].
  - constructor; [apply Hv | constructor].
  - destruct (String.eqb k key).
    + constructor; [apply Hv | exact Hd].
    + constructor; [exact Hx | exact IH].
Qed.

Lemma run_node_durations_not_negative (n : AgentName) (state : AgentState)
      (w : World) :
  monotone (clock w) ->
  Forall (fun kv => (0 <= snd kv)%Q) (timings state) ->
  Forall (fun kv => (0 <= snd kv)%Q) (timings (fst (run_node n state w))).
Proof.
  intros Hm Hs.
  destruct (run_node_duration n state w) as (j & Hj & E). rewrite E.
  apply dict_set_forall; [|exact Hs].
  intros k. cbn [snd]. unfold elapsed_ms.
  specialize (Hm _ _ Hj). lra.
Qed.

Lemma run_node_same_clock (n : AgentName) (state : AgentState) (w : World) :
  clock (snd (run_node n state w)) = clock w.
Proof.
  destruct n; cbn [run_node].
  - apply planner_untouched.
  - apply worker_untouched.
  - apply critic_untouched.
  - apply synthesizer_untouched.
Qed.

(** X26: under a clock that never goes back, every duration recorded in
    the timings of a run is zero or more. *)
Theorem timings_are_not_negative :
  forall sessionId userId prompt ctx summary turns llm db (w : World),
    monotone (clock w) ->
    let i := create_initial_state sessionId userId prompt ctx summary turns
                                  llm db w in
    Forall (fun kv => (0 <= snd kv)%Q)
           (timings (run_composed (run_of (fst i) (snd i)))).
Proof.
  intros sessionId userId prompt ctx summary turns llm db w Hm i.
  unfold run_of. cbn [run_composed].
  set (p := planner_node (fst i) (snd i)).
  set (e := worker_node (fst p) (snd p)).
  set (v := critic_node (fst e) (snd e)).
  assert (H0 : monotone (clock (snd i))) by exact Hm.
  assert (H1 : monotone (clock (snd p))).
  { unfold p. rewrite (run_node_same_clock planner). exact H0. }
  assert (H2 : monotone (clock (snd e))).
  { unfold e. rewrite (run_node_same_clock worker). exact H1. }
  assert (H3 : monotone (clock (snd v))).
  { unfold v. rewrite (run_node_same_clock critic). exact H2. }
  apply (run_node_durations_not_negative synthesizer); [exact H3|].
  apply (run_node_durations_not_negative critic); [exact H2|].
  apply (run_node_durations_not_negative worker); [exact H1|].
  apply (run_node_durations_not_negative planner); [exact H0|].
  constructor.
Qed.

Lemma retry_example_clock_monotone : monotone (clock RetryExample.world).
Proof.
  intros i j H. unfold RetryExample.world, clock, Qle, inject_Z.
  cbn [Qnum Qden]. lia.
Qed.

(** X26 at the request [RetryExample]. *)
Lemma timings_are_not_negative_witness :
  monotone (clock RetryExample.world)
  /\ Forall (fun kv => (0 <= snd kv)%Q)
            (timings (run_composed
                        (run_of (fst RetryExample.initial)
                                (snd RetryExample.initial)))).
Proof.
  split; [exact retry_example_clock_monotone|].
  exact (@timings_are_not_negative
           "s1" "u1" "Greetings" "ctx" None [] (Some RetryExample.llm)
           RetryExample.db RetryExample.world retry_example_clock_monotone).
Defined.
